(** * Spend allocation chaincode (ngo.js): a shallow embedding

    The chaincode keeps NGOs, donations, spends and spend allocations as JSON
    documents in the Fabric world state.  [allocateSpend] distributes a spend
    over the donations of an NGO; [queryByKey] and [queryByString] are the two
    read helpers it is built on; [createSpend] is the transaction entry point.

    The embedding follows the JavaScript source function by function:
    - JS numbers are an interface [JSNumber] with two instances, IEEE-754
      binary64 ([float], what the code runs on) and exact rationals ([Q]);
    - JSON documents are the inductive type [value]; [undefined] is [None];
    - a transaction reads a snapshot of the world state and appends its
      [putState] calls to a write log; a [throw] ends it with [Throw e];
    - the [while (true)] loop of [allocateSpend] takes fuel. *)

From Stdlib Require Import Ascii String QArith Lqa Floats.
From Stdlib Require Import DecimalString DecimalNat.
From stdpp Require Import base gmap strings list sorting.

Local Open Scope string_scope.
Local Open Scope list_scope.
Set Warnings "-register-all,-inexact-float".

(** ** JavaScript numbers *)

(** The operations [allocateSpend] applies to numbers.  [num_ltb] and
    [num_leb] are [<] and [<=] ([a > b] is [num_ltb b a]); [num_truthy] is
    the truth value of a number in a condition (false for 0 and NaN). *)
Class JSNumber (num : Type) := {
  num_zero : num;
  num_of_nat : nat -> num;
  num_add : num -> num -> num;
  num_sub : num -> num -> num;
  num_div : num -> num -> num;
  num_ltb : num -> num -> bool;
  num_leb : num -> num -> bool;
  num_eqb : num -> num -> bool;
  num_isFinite : num -> bool;
  num_truthy : num -> bool
}.

(** IEEE-754 binary64, round to nearest even: the numbers of the source. *)
#[export] Instance float_number : JSNumber float := {
  num_zero := 0%float;
  num_of_nat n := PrimFloat.of_uint63 (Uint63.of_Z (Z.of_nat n));
  num_add := PrimFloat.add;
  num_sub := PrimFloat.sub;
  num_div := PrimFloat.div;
  num_ltb := PrimFloat.ltb;
  num_leb := PrimFloat.leb;
  num_eqb := PrimFloat.eqb;
  num_isFinite x := negb (PrimFloat.is_nan x || PrimFloat.is_infinity x);
  num_truthy x := negb (PrimFloat.eqb x 0%float) && PrimFloat.eqb x x
}.

Definition Qltb (x y : Q) : bool := negb (Qle_bool y x).

(** Exact rational arithmetic: every number is finite and no operation
    rounds. *)
#[export] Instance Q_number : JSNumber Q := {
  num_zero := 0%Q;
  num_of_nat n := inject_Z (Z.of_nat n);
  num_add := Qplus;
  num_sub := Qminus;
  num_div := Qdiv;
  num_ltb := Qltb;
  num_leb := Qle_bool;
  num_eqb := Qeq_bool;
  num_isFinite _ := true;
  num_truthy x := negb (Qeq_bool x 0%Q)
}.

(** The exact value of a binary64 number, in lowest terms (0 for NaN and
    the infinities). *)
Definition float_to_Q (x : float) : Q :=
  match Prim2SF x with
  | S754_finite s m e =>
      let v := if s then Z.neg m else Z.pos m in
      if (0 <=? e)%Z then inject_Z (v * 2 ^ e)
      else Qred (v # Pos.pow 2 (Z.to_pos (- e)))
  | _ => 0%Q
  end.

(** ** JSON documents *)

Inductive value (num : Type) : Type :=
| VNull
| VBool (b : bool)
| VNum (x : num)
| VStr (s : string)
| VArr (items : list (value num))
| VObj (fields : list (string * value num)).

Arguments VNull {num}.
Arguments VBool {num} b.
Arguments VNum {num} x.
Arguments VStr {num} s.
Arguments VArr {num} items.
Arguments VObj {num} fields.

(** A stored byte string: [Json v] when [JSON.parse] accepts it and yields
    [v], [Raw s] when [JSON.parse] rejects it.  [Raw ""] is the empty
    buffer, which is also what [getState] returns for an absent key. *)
Inductive payload (num : Type) : Type :=
| Json (v : value num)
| Raw (s : string).

Arguments Json {num} v.
Arguments Raw {num} s.

(** What a transaction can end with besides a value. [Unsupported] marks a
    run that leaves the modelled fragment of JavaScript (an implicit
    conversion between strings, numbers and objects, or an inherited
    property); [OutOfFuel] a loop that was cut off. *)
Inductive error : Type :=
| ErrKeyDoesNotExist (key : string)      (* queryByKey *)
| ErrNoDocType                           (* queryByString *)
| ErrTypeError                           (* property read on null, no text for a value *)
| ErrReferenceError                      (* [json] is not defined, line 175 *)
| ErrSpendAmountInvalid                  (* allocateSpend, line 163 *)
| ErrSpendIdRequired                     (* allocateSpend, line 167 *)
| ErrInsufficientFunds                   (* allocateSpend, line 246 *)
| ErrLoopSpendAmount                     (* allocateSpend, line 296 *)
| ErrNumberOfDonations                   (* allocateSpend, line 299 *)
| ErrSpendPerDonation                    (* allocateSpend, line 306 *)
| ErrNgoDoesNotExist                     (* createSpend *)
| ErrSpendExists.                        (* createSpend *)

Inductive result (A : Type) : Type :=
| Ok (a : A)
| Throw (e : error)
| Unsupported
| OutOfFuel.

Arguments Ok {A} a.
Arguments Throw {A} e.
Arguments Unsupported {A}.
Arguments OutOfFuel {A}.

Definition rbind {A B} (r : result A) (k : A -> result B) : result B :=
  match r with
  | Ok a => k a
  | Throw e => Throw e
  | Unsupported => Unsupported
  | OutOfFuel => OutOfFuel
  end.

Definition supported {A} (o : option A) : result A :=
  match o with Some a => Ok a | None => Unsupported end.

Notation "'let*' x ':=' c 'in' k" := (rbind c (fun x => k))
  (at level 10, x name, c at level 200, k at level 200).

(** ** Objects, Maps and implicit conversions *)

(** A JSON object and a JS [Map] both keep their keys in insertion order;
    setting an existing key keeps its position. *)
Fixpoint alist_get {V : Type} (m : list (string * V)) (k : string) : option V :=
  match m with
  | [] => None
  | (k', v) :: m' => if String.eqb k k' then Some v else alist_get m' k
  end.

Fixpoint alist_set {V : Type} (m : list (string * V)) (k : string) (v : V)
  : list (string * V) :=
  match m with
  | [] => [(k, v)]
  | (k', v') :: m' =>
      if String.eqb k k' then (k, v) :: m' else (k', v') :: alist_set m' k v
  end.

(** Members every object inherits from [Object.prototype]; a read of one of
    them does not yield [undefined] and is not modelled. *)
Definition object_prototype_names : list string :=
  ["constructor"; "__proto__"; "hasOwnProperty"; "isPrototypeOf";
   "propertyIsEnumerable"; "toLocaleString"; "toString"; "valueOf";
   "__defineGetter__"; "__defineSetter__"; "__lookupGetter__";
   "__lookupSetter__"].

Definition inherited (k : string) : bool :=
  existsb (String.eqb k) object_prototype_names.

(** Members that a string, an array, a number or a boolean has of its own
    or finds in [String.prototype], [Array.prototype], [Number.prototype]
    or [Boolean.prototype]; an index is a name made of digits. *)
Definition primitive_member_names : list string :=
  ["length";
   "anchor"; "at"; "big"; "blink"; "bold"; "charAt"; "charCodeAt"; "codePointAt";
   "concat"; "endsWith"; "fixed"; "fontcolor"; "fontsize"; "includes"; "indexOf";
   "isWellFormed"; "italics"; "lastIndexOf"; "link"; "localeCompare"; "match";
   "matchAll"; "normalize"; "padEnd"; "padStart"; "repeat"; "replace"; "replaceAll";
   "search"; "slice"; "small"; "split"; "startsWith"; "strike"; "sub"; "substr";
   "substring"; "sup"; "toLocaleLowerCase"; "toLocaleUpperCase"; "toLowerCase";
   "toUpperCase"; "toWellFormed"; "trim"; "trimEnd"; "trimLeft"; "trimRight";
   "trimStart";
   "copyWithin"; "entries"; "every"; "fill"; "filter"; "find"; "findIndex";
   "findLast"; "findLastIndex"; "flat"; "flatMap"; "forEach"; "join"; "keys"; "map";
   "pop"; "push"; "reduce"; "reduceRight"; "reverse"; "shift"; "some"; "sort";
   "splice"; "toReversed"; "toSorted"; "toSpliced"; "unshift"; "values"; "with";
   "flatten"; "group"; "groupToMap";
   "toExponential"; "toFixed"; "toPrecision"].

Definition is_digit (c : ascii) : bool :=
  (48 <=? nat_of_ascii c)%nat && (nat_of_ascii c <=? 57)%nat.

(** A name under which a value that is not a plain object may hold
    something: a read of it on a string, an array, a number or a boolean
    is not modelled; a read of any other name yields [undefined]. *)
Definition builtin_member (k : string) : bool :=
  inherited k
  || forallb is_digit (list_ascii_of_string k)
  || existsb (String.eqb k) primitive_member_names.

(** Characters that may stand unescaped inside a JSON string literal. *)
Definition json_safe_char (c : ascii) : bool :=
  negb (Ascii.eqb c (ascii_of_nat 34)) && negb (Ascii.eqb c (ascii_of_nat 92))
  && (32 <=? nat_of_ascii c)%nat.

Definition json_safe (s : string) : bool :=
  forallb json_safe_char (list_ascii_of_string s).

(** [startKey <= key < endKey] in byte order. *)
Definition in_range (startKey endKey key : string) : bool :=
  String.leb startKey key && String.ltb key endKey.

(** [stub.getTxID() + '-' + recordCounter]: the counter in decimal. *)
Definition decimal (n : nat) : string := NilEmpty.string_of_uint (Nat.to_uint n).

Section Values.
Context {num : Type} `{!JSNumber num}.

Definition obj : Type := list (string * value num).

(** [v[k]] for a value [v] that is not [undefined]: a TypeError on
    [null], the own property of an object, and [undefined] where neither
    the value nor its prototype chain has a member of that name. *)
Definition get_prop (v : value num) (k : string) : result (option (value num)) :=
  match v with
  | VNull => Throw ErrTypeError
  | VObj o =>
      match alist_get o k with
      | Some x => Ok (Some x)
      | None => if inherited k then Unsupported else Ok None
      end
  | _ => if builtin_member k then Unsupported else Ok None
  end.

(** ['text' + v] converts [v] to a primitive and throws a TypeError when
    there is none: for an object with an own member [toString] (which,
    coming out of [JSON.parse], is no function), and for an array that
    holds such an object. [None] is [undefined]. *)
Fixpoint printable (v : value num) : bool :=
  match v with
  | VArr items => forallb printable items
  | VObj fields => negb (existsb (fun kv => String.eqb kv.1 "toString") fields)
  | _ => true
  end.

Definition printable_opt (v : option (value num)) : bool :=
  match v with
  | Some x => printable x
  | None => true
  end.

(** Truth value in a condition; [None] is [undefined]. *)
Definition truthy (v : option (value num)) : bool :=
  match v with
  | None | Some VNull => false
  | Some (VBool b) => b
  | Some (VNum x) => num_truthy x
  | Some (VStr s) => negb (String.eqb s "")
  | Some (VArr _) | Some (VObj _) => true
  end.

(** ['prefix' + v]: the string a value is converted to, where modelled. *)
Definition to_string (v : option (value num)) : option string :=
  match v with
  | None => Some "undefined"
  | Some VNull => Some "null"
  | Some (VBool true) => Some "true"
  | Some (VBool false) => Some "false"
  | Some (VStr s) => Some s
  | _ => None
  end.

(** [a == b] between two parsed JSON values.  Two objects or arrays from
    different parses are never the same reference; comparisons that convert
    a string or an object to a number or a string are not modelled. *)
Definition loose_eq (a b : value num) : option bool :=
  match a, b with
  | VNull, VNull => Some true
  | VNull, _ | _, VNull => Some false
  | VNum x, VNum y => Some (num_eqb x y)
  | VStr s, VStr t => Some (String.eqb s t)
  | VBool x, VBool y => Some (Bool.eqb x y)
  | VBool x, VNum y => Some (num_eqb (num_of_nat (if x then 1 else 0)) y)
  | VNum x, VBool y => Some (num_eqb x (num_of_nat (if y then 1 else 0)))
  | (VArr _ | VObj _), (VArr _ | VObj _) => Some false
  | _, _ => None
  end.

Definition get_number (v : option (value num)) : option num :=
  match v with
  | Some (VNum x) => if num_isFinite x then Some x else None
  | _ => None
  end.

Definition get_string (v : option (value num)) : option string :=
  match v with
  | Some (VStr s) => Some s
  | _ => None
  end.

(** A property of an object literal; [JSON.stringify] drops it when the
    value is [undefined]. *)
Definition field (k : string) (v : option (value num)) : obj :=
  match v with
  | Some x => [(k, x)]
  | None => []
  end.

(** ** The world state and the stub *)

(** [stub.getState]: the stored bytes, or the empty buffer. *)
Definition getState (st : gmap string (payload num)) (key : string) : payload num :=
  default (Raw "") (st !! key).

(** [bytes.toString()] is the empty string. *)
Definition is_empty (p : payload num) : bool :=
  match p with
  | Raw s => String.eqb s ""
  | Json _ => false
  end.

(** [stub.getStateByRange(startKey, endKey)] for non-empty bounds: the
    entries with [startKey <= key < endKey] in ascending byte order. *)
Definition getStateByRange (st : gmap string (payload num)) (startKey endKey : string)
  : list (string * payload num) :=
  merge_sort (fun a b => String.leb a.1 b.1)
    (map_to_list
       (filter (fun e : string * payload num => in_range startKey endKey e.1) st)).

(** One [putState] of the write set. *)
Definition write : Type := string * payload num.

(** Committing a write set: later writes to a key win. *)
Definition commit (st : gmap string (payload num)) (log : list write)
  : gmap string (payload num) :=
  foldl (fun s w => <[w.1 := w.2]> s) st log.

(** ** queryByKey (lines 32-43) *)

Definition queryByKey (st : gmap string (payload num)) (key : string)
  : result (payload num) :=
  let resultAsBytes := getState st key in
  if is_empty resultAsBytes then Throw (ErrKeyDoesNotExist key)
  else Ok resultAsBytes.

(** ** queryByString (lines 53-133) *)

(** One element [{Key, Record}] of the result array. *)
Record entry : Type := mkEntry { Key : string; Rec : value num }.

(** Lines 90-96: the parsed payload, or the raw text when parsing fails. *)
Definition parse_record (p : payload num) : value num :=
  match p with
  | Json v => v
  | Raw s => VStr s
  end.

(** Lines 108-121: the [for (var key in jsonRecord)] loop for one scanned
    record; the result is what it pushes onto [allResults].  The two
    [console.log] calls of lines 110 and 114 convert the wanted value and
    the value of the record to text. *)
Fixpoint filter_pushes (jsonRecord : obj) (jsonRes : entry) : result (list entry) :=
  match jsonRecord with
  | [] => Ok []
  | (key, wanted) :: rest =>
      if negb (printable wanted) then Throw ErrTypeError
      else if String.eqb key "docType" then filter_pushes rest jsonRes
      else
        let* got := get_prop (Rec jsonRes) key in
        if negb (printable_opt got) then Throw ErrTypeError
        else
          let* keep := (if truthy got
                   then match got with
                        | Some g => supported (loose_eq g wanted)
                        | None => Ok false
                        end
                   else Ok false) in
          let* more := filter_pushes rest jsonRes in
          Ok (if keep : bool then jsonRes :: more else more)
  end.

(** Lines 82-132: the iterator loop over the scanned entries. *)
Fixpoint scan_loop (jsonRecord : obj) (scanned : list (string * payload num))
  : result (list entry) :=
  match scanned with
  | [] => Ok []
  | (k, p) :: rest =>
      if is_empty p then scan_loop jsonRecord rest
      else
        let jsonRes := mkEntry k (parse_record p) in
        let* pushed := (if (length jsonRecord =? 1)%nat then Ok [jsonRes]
                   else filter_pushes jsonRecord jsonRes) in
        let* more := scan_loop jsonRecord rest in
        Ok (pushed ++ more)%list
  end.

(** [jsonQueryString] is [JSON.parse(queryString)]; the result is the
    array [allResults] that the function serialises. *)
Definition queryByString (st : gmap string (payload num)) (jsonQueryString : value num)
  : result (list entry) :=
  let* selector := get_prop jsonQueryString "selector" in
  match selector with
  | Some sel =>
      if truthy selector then
        let* docType := get_prop sel "docType" in
        if truthy docType then
          let* docTypeStr := supported (to_string docType) in
          match sel with
          | VObj jsonRecord =>
              if existsb (fun kv => inherited kv.1) jsonRecord then Unsupported
              else
                let startKey := docTypeStr +:+ "0" in
                let endKey := docTypeStr +:+ "z" in
                scan_loop jsonRecord (getStateByRange st startKey endKey)
          | _ => Unsupported
          end
        else Throw ErrNoDocType
      else Throw ErrNoDocType
  | None => Throw ErrNoDocType
  end.

End Values.

(** ** Transactions *)

Section Allocation.
Context {num : Type} `{!JSNumber num}.

(** A computation that may call [putState]: it extends the write log and
    ends like a [result]. Reads go to the snapshot, never to the log. *)
Definition Tx (A : Type) : Type := list (@write num) -> result A * list (@write num).

Definition tx_ret {A} (a : A) : Tx A := fun log => (Ok a, log).

Definition tx_lift {A} (r : result A) : Tx A := fun log => (r, log).

Definition tx_bind {A B} (c : Tx A) (k : A -> Tx B) : Tx B :=
  fun log =>
    match c log with
    | (Ok a, log') => k a log'
    | (Throw e, log') => (Throw e, log')
    | (Unsupported, log') => (Unsupported, log')
    | (OutOfFuel, log') => (OutOfFuel, log')
    end.

Definition putState (key : string) (bytes : payload num) : Tx unit :=
  fun log => (Ok tt, (log ++ [(key, bytes)])%list).

Notation "'do*' x ':=' c 'in' k" := (tx_bind c (fun x => k))
  (at level 10, x name, c at level 200, k at level 200).

(** ** allocateSpend (lines 157-392) *)

(** Line 162: the amount when it passes the validation. *)
Definition valid_amount (spend : @obj num) : option num :=
  match alist_get spend "spendAmount" with
  | Some (VNum x) => if num_truthy x && num_isFinite x then Some x else None
  | _ => None
  end.

(** Lines 190-197.  [donationMap] keeps, per donation id, the
    [donationAmount] of the entry (the only part read later). *)
Fixpoint load_donations (donationsForNGO : list (@entry num)) (totalDonations : num)
    (donationMap : list (string * num)) : result (num * list (string * num)) :=
  match donationsForNGO with
  | [] => Ok (totalDonations, donationMap)
  | donation :: rest =>
      let* amount := get_prop (Rec donation) "donationAmount" in
      let* donationAmount := supported (get_number amount) in
      let* id := get_prop (Rec donation) "donationId" in
      let* donationId := supported (get_string id) in
      load_donations rest (num_add totalDonations donationAmount)
                     (alist_set donationMap donationId donationAmount)
  end.

(** Lines 213-222 and 379-388: add an amount to a donation's entry. *)
Definition add_spend (donationSpendMap : list (string * num)) (donationId : string)
    (amount : num) : list (string * num) :=
  match alist_get donationSpendMap donationId with
  | Some spendAmt => alist_set donationSpendMap donationId (num_add spendAmt amount)
  | None => alist_set donationSpendMap donationId amount
  end.

(** Lines 209-223. *)
Fixpoint load_spend (spendAllocations : list (@entry num)) (totalSpend : num)
    (donationSpendMap : list (string * num)) : result (num * list (string * num)) :=
  match spendAllocations with
  | [] => Ok (totalSpend, donationSpendMap)
  | spendAllocation :: rest =>
      let* amount := get_prop (Rec spendAllocation) "spendAllocationAmount" in
      let* spendAllocationAmount := supported (get_number amount) in
      let* id := get_prop (Rec spendAllocation) "donationId" in
      let* donationId := supported (get_string id) in
      load_spend rest (num_add totalSpend spendAllocationAmount)
                 (add_spend donationSpendMap donationId spendAllocationAmount)
  end.

(** Lines 280-286 and 327-333. *)
Definition availableAmountForDonor (donationSpendMap : list (string * num))
    (donation : string * num) : num :=
  let spendAmountForDonor :=
    match alist_get donationSpendMap donation.1 with
    | Some x => x
    | None => num_zero
    end in
  num_sub donation.2 spendAmountForDonor.

(** Lines 277-291. *)
Fixpoint count_available (donationMap donationSpendMap : list (string * num)) : nat :=
  match donationMap with
  | [] => 0
  | donation :: rest =>
      (if num_ltb num_zero (availableAmountForDonor donationSpendMap donation)
       then 1 else 0) + count_available rest donationSpendMap
  end.

(** The variables the allocation loop updates. [numberOfDonations] is
    recomputed at the top of every round and its decrements at lines 344
    and 349 are never read, so it is not part of the state. *)
Record alloc_state : Type := mkState {
  spendAmount : num;
  donationSpendMap : list (string * num);
  recordCounter : nat
}.

(** Lines 358-370: key and content of one allocation record. *)
Definition spendAllocationRecord (txID : string) (spend : @obj num)
    (ngo : option (value num)) (recordCounter : nat) (donationId : string)
    (amountAllocatedToDonation : num) : string * @obj num :=
  let spendAllocationId := txID +:+ "-" +:+ decimal recordCounter in
  ("spendAllocation" +:+ spendAllocationId,
   ([("docType", VStr "spendAllocation");
     ("spendAllocationId", VStr spendAllocationId);
     ("spendAllocationAmount", VNum amountAllocatedToDonation)]
    ++ field "spendAllocationDate" (alist_get spend "spendDate")
    ++ field "spendAllocationDescription" (alist_get spend "spendDescription")
    ++ [("donationId", VStr donationId)]
    ++ field "ngoRegistrationNumber" ngo
    ++ field "spendId" (alist_get spend "spendId"))%list).

(** Lines 353-388: write one record and update the loop variables. *)
Definition allocate (txID : string) (spend : @obj num) (ngo : option (value num))
    (donationId : string) (amountAllocatedToDonation : num) (s : alloc_state)
  : Tx alloc_state :=
  let rec := spendAllocationRecord txID spend ngo (recordCounter s) donationId
                                   amountAllocatedToDonation in
  do* _ := putState rec.1 (Json (VObj rec.2)) in
  tx_ret (mkState (num_sub (spendAmount s) amountAllocatedToDonation)
                  (add_spend (donationSpendMap s) donationId amountAllocatedToDonation)
                  (S (recordCounter s))).

(** Lines 322-389: the second [for (let donation of donationMap)]. *)
Fixpoint allocate_round (txID : string) (spend : @obj num) (ngo : option (value num))
    (spendPerDonation : num) (donationMap : list (string * num)) (s : alloc_state)
  : Tx alloc_state :=
  match donationMap with
  | [] => tx_ret s
  | donation :: rest =>
      let available := availableAmountForDonor (donationSpendMap s) donation in
      do* s' := (if num_leb spendPerDonation available
                 then allocate txID spend ngo donation.1 spendPerDonation s
                 else if num_ltb num_zero available
                 then allocate txID spend ngo donation.1 available s
                 else tx_ret s) in
      allocate_round txID spend ngo spendPerDonation rest s'
  end.

(** Lines 262-390: the [while (true)] loop, at most [fuel] rounds. *)
Fixpoint allocate_loop (fuel : nat) (txID : string) (spend : @obj num)
    (ngo : option (value num)) (donationMap : list (string * num)) (s : alloc_state)
  : Tx unit :=
  match fuel with
  | O => tx_lift OutOfFuel
  | S fuel' =>
      if num_leb (spendAmount s) num_zero then tx_ret tt
      else
        let numberOfDonations := count_available donationMap (donationSpendMap s) in
        if negb (num_truthy (spendAmount s) && num_isFinite (spendAmount s))
        then tx_lift (Throw ErrLoopSpendAmount)
        else if (numberOfDonations =? 0)%nat
        then tx_lift (Throw ErrNumberOfDonations)
        else
          let spendPerDonation :=
            num_div (spendAmount s) (num_of_nat numberOfDonations) in
          if negb (num_truthy spendPerDonation && num_isFinite spendPerDonation)
          then tx_lift (Throw ErrSpendPerDonation)
          else
            do* s' := allocate_round txID spend ngo spendPerDonation donationMap s in
            allocate_loop fuel' txID spend ngo donationMap s'
  end.

(** The selector [{"docType": docType, "ngoRegistrationNumber": ngo}] that
    the query strings of lines 181 and 206 parse to. *)
Definition ngo_query (docType ngo : string) : value num :=
  VObj [("selector", VObj [("docType", VStr docType);
                           ("ngoRegistrationNumber", VStr ngo)])].

(** The spend object is shared with the caller: the result is the object
    after the assignment of line 250.  The message of line 163 holds the
    amount as text. *)
Definition allocateSpend (fuel : nat) (st : gmap string (payload num)) (txID : string)
    (spend : @obj num) : Tx (@obj num) :=
  match valid_amount spend with
  | None =>
      tx_lift (Throw (if printable_opt (alist_get spend "spendAmount")
                      then ErrSpendAmountInvalid else ErrTypeError))
  | Some amount =>
      if negb (truthy (alist_get spend "spendId"))
      then tx_lift (Throw ErrSpendIdRequired)
      else
        let ngo := alist_get spend "ngoRegistrationNumber" in
        do* ngoStr := tx_lift (supported (to_string ngo)) in
        do* ngoQuery := tx_lift (queryByKey st ("ngo" +:+ ngoStr)) in
        if is_empty ngoQuery then tx_lift (Throw ErrReferenceError)
        else if negb (json_safe ngoStr) then tx_lift Unsupported
        else
          do* donationsForNGO := tx_lift (queryByString st (ngo_query "donation" ngoStr)) in
          do* donations := tx_lift (load_donations donationsForNGO num_zero []) in
          let '(totalDonations, donationMap) := donations in
          do* spendAllocations :=
            tx_lift (queryByString st (ngo_query "spendAllocation" ngoStr)) in
          do* spends := tx_lift (load_spend spendAllocations num_zero []) in
          let '(totalSpend, donationSpendMap) := spends in
          let totalAvailable := num_sub totalDonations totalSpend in
          if num_ltb totalAvailable amount
          then tx_lift (Throw ErrInsufficientFunds)
          else
            let spend' := alist_set spend "docType" (VStr "spend") in
            do* spendId := tx_lift (supported (to_string (alist_get spend' "spendId"))) in
            do* _ := putState ("spend" +:+ spendId) (Json (VObj spend')) in
            do* _ := allocate_loop fuel txID spend' ngo donationMap
                                   (mkState amount donationSpendMap 0) in
            tx_ret spend'
  end.

(** ** createSpend (lines 1065-1093); [json] is [JSON.parse(args)], an
    object. *)
Definition createSpend (fuel : nat) (st : gmap string (payload num)) (txID : string)
    (json : @obj num) : Tx unit :=
  do* spendId := tx_lift (supported (to_string (alist_get json "spendId"))) in
  let key := "spend" +:+ spendId in
  let json := alist_set json "docType" (VStr "spend") in
  do* ngoStr := tx_lift (supported (to_string (alist_get json "ngoRegistrationNumber"))) in
  let ngoQuery := getState st ("ngo" +:+ ngoStr) in
  if is_empty ngoQuery then tx_lift (Throw ErrNgoDoesNotExist)
  else
    let spendQuery := getState st key in
    if negb (is_empty spendQuery) then tx_lift (Throw ErrSpendExists)
    else
      do* json := allocateSpend fuel st txID json in
      putState key (Json (VObj json)).

End Allocation.

(** ** Vocabulary of the properties *)

(** A run that was not cut off by the fuel. *)
Definition finished {A : Type} (r : result A) : Prop := r <> OutOfFuel.

(** The three checks of the allocation loop (lines 295-307). *)
Definition loop_error (e : error) : Prop :=
  e = ErrLoopSpendAmount \/ e = ErrNumberOfDonations \/ e = ErrSpendPerDonation.

(** The rejections of a spend request: the NGO is not in the world state,
    the amount is not valid, the funds do not cover the spend. *)
Definition rejection (e : error) : bool :=
  match e with
  | ErrKeyDoesNotExist _ | ErrSpendAmountInvalid | ErrInsufficientFunds => true
  | _ => false
  end.


(** The key of the [i]-th allocation record of transaction [txID]
    (lines 358-360). *)
Definition allocation_key (txID : string) (i : nat) : string :=
  "spendAllocation" +:+ txID +:+ "-" +:+ decimal i.

(** Two world states hold the same history for [allocateSpend]: the same
    NGO documents and the same entries in the two key ranges it scans. *)
Definition same_history {num : Type} (st1 st2 : gmap string (payload num)) : Prop :=
  (forall ngo, getState st1 ("ngo" +:+ ngo) = getState st2 ("ngo" +:+ ngo))
  /\ getStateByRange st1 "donation0" "donationz"
     = getStateByRange st2 "donation0" "donationz"
  /\ getStateByRange st1 "spendAllocation0" "spendAllocationz"
     = getStateByRange st2 "spendAllocation0" "spendAllocationz".

(** A write of line 373: record number [i] of [txID], for some donation
    and amount. *)
Definition allocation_write {num : Type} (txID : string) (spend : @obj num)
    (ngo : option (value num)) (i : nat) (w : string * payload num) : Prop :=
  exists donationId amount,
    w = ((spendAllocationRecord txID spend ngo i donationId amount).1,
         Json (VObj (spendAllocationRecord txID spend ngo i donationId amount).2)).

(** Writes number [c], [c+1], ... of a transaction. *)
Fixpoint allocation_writes {num : Type} (txID : string) (spend : @obj num)
    (ngo : option (value num)) (c : nat) (ws : list (string * payload num)) : Prop :=
  match ws with
  | [] => True
  | w :: ws' => allocation_write txID spend ngo c w
                /\ allocation_writes txID spend ngo (S c) ws'
  end.

(** The allocation records of a write log, as [(donationId, amount)] in
    write order.  A record written by line 373 carries
    [docType = "spendAllocation"]; the spend document carries ["spend"]. *)
Definition allocation_of {num : Type} (w : string * payload num)
  : option (string * num) :=
  match w.2 with
  | Json (VObj o) =>
      match alist_get o "docType", alist_get o "donationId",
            alist_get o "spendAllocationAmount" with
      | Some (VStr "spendAllocation"), Some (VStr d), Some (VNum x) => Some (d, x)
      | _, _, _ => None
      end
  | _ => None
  end.

Definition allocations {num : Type} (log : list (string * payload num))
  : list (string * num) :=
  omap allocation_of log.

(** The amounts allocated to one donation, in write order. *)
Definition amounts_for {num : Type} (donationId : string)
    (allocs : list (string * num)) : list num :=
  map snd (List.filter (fun a => String.eqb a.1 donationId) allocs).

(** Exact sum of rational amounts. *)
Definition Qsum (l : list Q) : Q := foldr Qplus 0%Q l.

(** The element [{Key, Record}] that [queryByString] builds for a scanned
    entry. *)
Definition to_entry {num : Type} (e : string * payload num) : @entry num :=
  mkEntry e.1 (parse_record e.2).

(** The scanned entries that [queryByString] looks at: those with a
    non-empty payload (line 85). *)
Definition scanned_records {num : Type} (st : gmap string (payload num))
    (docType : string) : list (string * payload num) :=
  List.filter (fun e => negb (is_empty e.2))
              (getStateByRange st (docType +:+ "0") (docType +:+ "z")).

(** Line 115 on an object record: the field is there, is truthy, and is
    [==] to the wanted value. *)
Definition field_matches {num : Type} `{!JSNumber num} (f : string)
    (wanted : value num) (r : value num) : bool :=
  match r with
  | VObj o =>
      match alist_get o f with
      | Some g =>
          truthy (Some g)
          && match loose_eq g wanted with Some true => true | _ => false end
      | None => false
      end
  | _ => false
  end.

(** A record on which lines 114 and 115 neither throw nor leave the
    modelled fragment: it is not [null], and when it is an object that
    holds the field [f], the value has a text and, when truthy, is
    compared with [wanted] without an implicit conversion of a string or
    an object. *)
Definition comparable {num : Type} `{!JSNumber num} (f : string)
    (wanted : value num) (r : value num) : Prop :=
  match r with
  | VNull => False
  | VObj o =>
      match alist_get o f with
      | Some g => printable g = true /\ (truthy (Some g) = true -> loose_eq g wanted <> None)
      | None => True
      end
  | _ => True
  end.

(** ** Exact arithmetic: what one round takes from each donation *)

(** The amount already allocated to a donation according to
    [donationSpendMap] (lines 280-285). *)
Definition spent (donationSpendMap : list (string * Q)) (donationId : string) : Q :=
  match alist_get donationSpendMap donationId with
  | Some x => x
  | None => 0%Q
  end.

(** Lines 337-352: the amount a donation with the given available amount
    receives in a round. *)
Definition take (spendPerDonation available : Q) : Q :=
  if Qle_bool spendPerDonation available then spendPerDonation
  else if Qltb 0 available then available
  else 0%Q.

(** What a round takes from all donations, given the map at its start. *)
Fixpoint round_total (spendPerDonation : Q) (donationMap donationSpendMap : list (string * Q))
  : Q :=
  match donationMap with
  | [] => 0%Q
  | d :: rest =>
      (take spendPerDonation (availableAmountForDonor donationSpendMap d)
       + round_total spendPerDonation rest donationSpendMap)%Q
  end.

(** What a round takes from the donation [donationId]. *)
Fixpoint taken_by (donationId : string) (spendPerDonation : Q)
    (donationMap donationSpendMap : list (string * Q)) : Q :=
  match donationMap with
  | [] => 0%Q
  | d :: rest =>
      ((if String.eqb d.1 donationId
        then take spendPerDonation (availableAmountForDonor donationSpendMap d)
        else 0)
       + taken_by donationId spendPerDonation rest donationSpendMap)%Q
  end.

(** The funds still available over all donations of [donationMap]: the
    positive balances. *)
Fixpoint available_total (donationMap donationSpendMap : list (string * Q)) : Q :=
  match donationMap with
  | [] => 0%Q
  | d :: rest =>
      ((if Qltb 0 (availableAmountForDonor donationSpendMap d)
        then availableAmountForDonor donationSpendMap d else 0)
       + available_total rest donationSpendMap)%Q
  end.

(** [sm1] is the map after a round with share [share] that started from
    [sm], as far as the donations of [dm] are concerned. *)
Definition after_round (share : Q) (dm sm sm1 : list (string * Q)) : Prop :=
  Forall (fun d => availableAmountForDonor sm1 d
                   == availableAmountForDonor sm d
                      - take share (availableAmountForDonor sm d))%Q dm.

(** The donations of an NGO as [allocateSpend] loads them (lines 181-197):
    the total and [donationMap].  As in [allocateSpend], the query string
    is read for an NGO id that stands between its quotes as it is. *)
Definition donations_of {num : Type} `{!JSNumber num} (st : gmap string (payload num))
    (ngo : string) : result (num * list (string * num)) :=
  if negb (json_safe ngo) then Unsupported
  else
    let* donationsForNGO := queryByString st (ngo_query "donation" ngo) in
    load_donations donationsForNGO num_zero [].

(** The allocations of an NGO as [allocateSpend] loads them (lines
    204-223): the total and [donationSpendMap]. *)
Definition allocated_of {num : Type} `{!JSNumber num} (st : gmap string (payload num))
    (ngo : string) : result (num * list (string * num)) :=
  if negb (json_safe ngo) then Unsupported
  else
    let* spendAllocations := queryByString st (ngo_query "spendAllocation" ngo) in
    load_spend spendAllocations num_zero [].

(** Lines 85-121 for one scanned entry: what it adds to [allResults]. *)
Definition scan_one {num : Type} `{!JSNumber num} (jsonRecord : @obj num)
    (e : string * payload num) : result (list (@entry num)) :=
  if is_empty e.2 then Ok []
  else
    let jsonRes := mkEntry e.1 (parse_record e.2) in
    if (length jsonRecord =? 1)%nat then Ok [jsonRes]
    else filter_pushes jsonRecord jsonRes.

(** Lines 210-211 and 213 for one result of the allocation query: the
    donation id and the amount that [load_spend] reads from it. *)
Definition entry_alloc {num : Type} `{!JSNumber num} (e : @entry num)
  : result (string * num) :=
  let* amount := get_prop (Rec e) "spendAllocationAmount" in
  let* spendAllocationAmount := supported (get_number amount) in
  let* id := get_prop (Rec e) "donationId" in
  let* donationId := supported (get_string id) in
  Ok (donationId, spendAllocationAmount).

(** The amounts that a list of query results allocates to one donation. *)
Fixpoint entries_sum (donationId : string) (l : list (@entry Q)) : Q :=
  match l with
  | [] => 0%Q
  | e :: rest =>
      ((match entry_alloc e with
        | Ok (i, a) => if String.eqb i donationId then a else 0
        | _ => 0
        end)
       + entries_sum donationId rest)%Q
  end.

(** Lines 193 and 195 for one result of the donation query: the donation
    id and the amount that [load_donations] reads from it. *)
Definition entry_donation {num : Type} `{!JSNumber num} (e : @entry num)
  : result (string * num) :=
  let* amount := get_prop (Rec e) "donationAmount" in
  let* donationAmount := supported (get_number amount) in
  let* id := get_prop (Rec e) "donationId" in
  let* donationId := supported (get_string id) in
  Ok (donationId, donationAmount).

(** The donation ids of a list of query results. *)
Definition donation_ids {num : Type} `{!JSNumber num} (l : list (@entry num))
  : list string :=
  omap (fun e => match entry_donation e with Ok p => Some p.1 | _ => None end) l.

(** The sum of all amounts that a list of query results allocates. *)
Fixpoint entries_total (l : list (@entry Q)) : Q :=
  match l with
  | [] => 0%Q
  | e :: rest =>
      ((match entry_alloc e with Ok p => p.2 | _ => 0 end) + entries_total rest)%Q
  end.

(** No result allocates a negative amount. *)
Definition nonnegative_allocations (l : list (@entry Q)) : Prop :=
  Forall (fun e => forall p, entry_alloc e = Ok p -> (0 <= p.2)%Q) l.

(** The selector of the allocation query for an NGO (line 206). *)
Definition allocation_selector {num : Type} (ngo : string) : @obj num :=
  [("docType", VStr "spendAllocation"); ("ngoRegistrationNumber", VStr ngo)].

(** ** No over-allocation, in exact arithmetic *)

(** No donation of the NGO is over-allocated: for every donation in
    [donationMap], the amount that the allocation records of the NGO
    allocate to it ([donationSpendMap], as [allocateSpend] computes it) is
    at most the donation amount. *)
Definition no_over_allocation (st : gmap string (payload Q)) (ngo : string) : Prop :=
  forall td dm ts sm,
    donations_of st ngo = Ok (td, dm) ->
    allocated_of st ngo = Ok (ts, sm) ->
    forall id d, (id, d) ∈ dm -> (spent sm id <= d)%Q.

(** The keys of a call keep the records apart: the NGO id of the request
    is a non-empty string, the spend document is written outside the key
    range of the allocation records, and the allocation keys of the
    transaction id lie inside that range and are new. *)
Definition genuine_keys (st : gmap string (payload Q)) (txID : string)
    (spend : @obj Q) : Prop :=
  (exists ngo, alist_get spend "ngoRegistrationNumber" = Some (VStr ngo) /\ ngo <> "")
  /\ (forall spendId,
        to_string (alist_get spend "spendId") = Some spendId ->
        in_range "spendAllocation0" "spendAllocationz" ("spend" +:+ spendId) = false)
  /\ (forall i,
        in_range "spendAllocation0" "spendAllocationz" (allocation_key txID i) = true
        /\ st !! allocation_key txID i = None).

(** The world states reached from [st] by successful calls of
    [allocateSpend], each committed before the next. *)
Inductive allocated_from (st : gmap string (payload Q)) : gmap string (payload Q) -> Prop :=
| allocated_none : allocated_from st st
| allocated_step st1 fuel txID spend spend' log :
    allocated_from st st1 ->
    genuine_keys st1 txID spend ->
    allocateSpend fuel st1 txID spend [] = (Ok spend', log) ->
    allocated_from st (commit st1 log).

(** ** Example documents *)

Module Example.

Definition ngoDoc {num : Type} (ngo : string) : string * payload num :=
  ("ngo" +:+ ngo,
   Json (VObj [("docType", VStr "ngo"); ("ngoRegistrationNumber", VStr ngo)])).

Definition donationDoc {num : Type} (donationId ngo : string) (amount : num)
  : string * payload num :=
  ("donation" +:+ donationId,
   Json (VObj [("docType", VStr "donation"); ("donationId", VStr donationId);
               ("donationAmount", VNum amount);
               ("donorUserName", VStr "edge");
               ("ngoRegistrationNumber", VStr ngo)])).

Definition allocationDoc {num : Type} (allocationId donationId ngo spendId : string)
    (amount : num) : string * payload num :=
  ("spendAllocation" +:+ allocationId,
   Json (VObj [("docType", VStr "spendAllocation");
               ("spendAllocationId", VStr allocationId);
               ("spendAllocationAmount", VNum amount);
               ("donationId", VStr donationId);
               ("ngoRegistrationNumber", VStr ngo);
               ("spendId", VStr spendId)])).

Definition spendRequest {num : Type} (spendId ngo : string) (amount : value num)
  : @obj num :=
  [("ngoRegistrationNumber", VStr ngo); ("spendId", VStr spendId);
   ("spendDescription", VStr "Peter Pipers Poulty Portions for Pets");
   ("spendDate", VStr "2018-09-20T12:41:59.582Z");
   ("spendAmount", amount)].

(** NGO N1 with donations D1 = 30 and D2 = 70, nothing allocated yet. *)
Definition ledger_30_70 : gmap string (payload float) :=
  list_to_map [ngoDoc "N1"; donationDoc "D1" "N1" 30%float;
               donationDoc "D2" "N1" 70%float].

(** NGO N1 with three donations of 100 each, nothing allocated yet. *)
Definition ledger_3x100 : gmap string (payload float) :=
  list_to_map [ngoDoc "N1"; donationDoc "D1" "N1" 100%float;
               donationDoc "D2" "N1" 100%float; donationDoc "D3" "N1" 100%float].

(** NGO N1 with six donations of 100 each, nothing allocated yet. *)
Definition ledger_6x100 : gmap string (payload float) :=
  list_to_map [ngoDoc "N1"; donationDoc "D1" "N1" 100%float;
               donationDoc "D2" "N1" 100%float; donationDoc "D3" "N1" 100%float;
               donationDoc "D4" "N1" 100%float; donationDoc "D5" "N1" 100%float;
               donationDoc "D6" "N1" 100%float].

(** The same ledger with exact amounts. *)
Definition ledger_6x100_exact : gmap string (payload Q) :=
  list_to_map [ngoDoc "N1"; donationDoc "D1" "N1" 100%Q;
               donationDoc "D2" "N1" 100%Q; donationDoc "D3" "N1" 100%Q;
               donationDoc "D4" "N1" 100%Q; donationDoc "D5" "N1" 100%Q;
               donationDoc "D6" "N1" 100%Q].

(** Sum of binary64 amounts as JavaScript computes it, left to right. *)
Definition float_sum (l : list float) : float := foldl PrimFloat.add 0%float l.

(** NGO N1 with donations D1 = 0.1 and D2 = 0.3, nothing allocated yet. *)
Definition ledger_01_03 : gmap string (payload float) :=
  list_to_map [ngoDoc "N1"; donationDoc "D1" "N1" 0.1%float;
               donationDoc "D2" "N1" 0.3%float].

(** NGO N1 with a single donation D1 = 100, nothing allocated yet. *)
Definition ledger_100 : gmap string (payload float) :=
  list_to_map [ngoDoc "N1"; donationDoc "D1" "N1" 100%float].

(** A spend request of amount 1 whose id makes its key
    ['spend' + spendId] fall into the key range of the allocation records,
    and which carries the fields of an allocation of -100 against D1. *)
Definition forged_request : @obj float :=
  [("ngoRegistrationNumber", VStr "N1"); ("spendId", VStr "AllocationZ");
   ("spendAmount", VNum 1%float);
   ("donationId", VStr "D1"); ("spendAllocationAmount", VNum (-100)%float)].

(** The ledger after the forged request has been carried out as
    transaction tx1. *)
Definition ledger_100_forged : gmap string (payload float) :=
  commit ledger_100 (allocateSpend 2 ledger_100 "tx1" forged_request []).2.

(** The ledger after a further spend of 150 as transaction tx2. *)
Definition ledger_100_overspent : gmap string (payload float) :=
  commit ledger_100_forged
         (allocateSpend 2 ledger_100_forged "tx2"
                        (spendRequest "S2" "N1" (VNum 150%float)) []).2.

(** NGO N1 with a single donation D1 = 100, exact amounts. *)
Definition ledger_100_exact : gmap string (payload Q) :=
  list_to_map [ngoDoc "N1"; donationDoc "D1" "N1" 100%Q].

(** [ledger_100_exact] after a spend of 30 as transaction tx1. *)
Definition ledger_100_spent_30 : gmap string (payload Q) :=
  commit ledger_100_exact
         (allocateSpend 2 ledger_100_exact "tx1"
                        (spendRequest "S1" "N1" (VNum 30%Q)) []).2.

(** [ledger_01_03] with exact amounts 1/10 and 3/10. *)
Definition ledger_01_03_exact : gmap string (payload Q) :=
  list_to_map [ngoDoc "N1"; donationDoc "D1" "N1" (1 # 10)%Q;
               donationDoc "D2" "N1" (3 # 10)%Q].

(** NGO N1 with donations D1 = 0.3 and D2 = 0.5, nothing allocated yet. *)
Definition ledger_03_05 : gmap string (payload float) :=
  list_to_map [ngoDoc "N1"; donationDoc "D1" "N1" 0.3%float;
               donationDoc "D2" "N1" 0.5%float].

(** The ledger after a spend of 0.1 as transaction tx1. *)
Definition ledger_03_05_spent : gmap string (payload float) :=
  commit ledger_03_05
         (allocateSpend 2 ledger_03_05 "tx1"
                        (spendRequest "S1" "N1" (VNum 0.1%float)) []).2.



(** A world state without any NGO. *)
Definition ledger_empty : gmap string (payload float) := ∅.

End Example.

Module Example2.
Import Example.

(** [ledger_30_70] with one more document, a donor, outside the key
    ranges that [allocateSpend] reads. *)
Definition ledger_30_70_donor : gmap string (payload float) :=
  <["donoredge" := Json (VObj [("docType", VStr "donor");
                                ("donorUserName", VStr "edge")])]> ledger_30_70.

End Example2.

(** * The chaincode methods (lines 400-1351)

    Every method receives its argument as a JSON text and starts with
    [JSON.parse(args)]; [json] is the object that this call yields.  A
    method that ends with a throw makes [Invoke] answer [shim.error], and
    the transaction is not committed. *)

(** What a create method throws, besides what the helpers throw. *)
Inductive method_error : Type :=
| ErrThrown (e : error)              (* thrown inside a helper *)
| ErrAlreadyExists (key : string)    (* 'This ... already exists' *)
| ErrDoesNotExist (key : string).    (* 'Cannot create ... does not exist' *)

(** How a method ends; [NotModelled] and [CutOff] are [Unsupported] and
    [OutOfFuel] of the helpers. *)
Inductive outcome (A : Type) : Type :=
| Returned (a : A)
| Failed (e : method_error)
| NotModelled
| CutOff.

Arguments Returned {A} a.
Arguments Failed {A} e.
Arguments NotModelled {A}.
Arguments CutOff {A}.

Section Chaincode.
Context {num : Type} `{!JSNumber num}.

(** A method that may call [putState]. *)
Definition Method (A : Type) : Type :=
  list (@write num) -> outcome A * list (@write num).

Definition method_lift {A} (o : option A) : Method A :=
  fun log => (match o with Some a => Returned a | None => NotModelled end, log).

Definition method_throw {A} (e : method_error) : Method A :=
  fun log => (Failed e, log).

Definition method_bind {A B} (c : Method A) (k : A -> Method B) : Method B :=
  fun log =>
    match c log with
    | (Returned a, log') => k a log'
    | (Failed e, log') => (Failed e, log')
    | (NotModelled, log') => (NotModelled, log')
    | (CutOff, log') => (CutOff, log')
    end.

Definition method_put (key : string) (bytes : payload num) : Method unit :=
  fun log => (Returned tt, (log ++ [(key, bytes)])%list).

(** A helper run inside a method. *)
Definition of_tx {A} (c : Tx A) : Method A :=
  fun log =>
    match c log with
    | (Ok a, log') => (Returned a, log')
    | (Throw e, log') => (Failed (ErrThrown e), log')
    | (Unsupported, log') => (NotModelled, log')
    | (OutOfFuel, log') => (CutOff, log')
    end.

Notation "'call*' x ':=' c 'in' k" := (method_bind c (fun x => k))
  (at level 10, x name, c at level 200, k at level 200).

(** [JSON.stringify] writes a number that is not finite as [null] and
    [-0] as [0]; every other number is read back as it was written. *)
Definition num_writable (x : num) : bool :=
  num_isFinite x
  && negb (num_eqb x num_zero && num_ltb (num_div (num_of_nat 1) x) num_zero).

(** A document that [JSON.parse] reads back from the text that
    [JSON.stringify] writes for it. *)
Fixpoint writable (v : value num) : bool :=
  match v with
  | VNum x => num_writable x
  | VArr items => forallb writable items
  | VObj fields => forallb (fun kv => writable kv.2) fields
  | _ => true
  end.

Definition writable_payload (p : payload num) : bool :=
  match p with
  | Json v => writable v
  | Raw _ => true
  end.

(** [stub.putState(key, Buffer.from(JSON.stringify(json)))]. *)
Definition put_json (key : string) (json : @obj num) : Method unit :=
  if writable (VObj json) then method_put key (Json (VObj json))
  else method_lift None.

(** ['prefix' + json[f]]: the text of a field of the argument. *)
Definition text (json : @obj num) (f : string) : option string :=
  to_string (alist_get json f).

(** ** Donors and members *)

(** Lines 466-485. *)
Definition createDonor (st : gmap string (payload num)) (json : @obj num)
  : Method unit :=
  call* donorUserName := method_lift (text json "donorUserName") in
  let key := "donor" +:+ donorUserName in
  let json := alist_set json "docType" (VStr "donor") in
  let donorQuery := getState st key in
  if negb (is_empty donorQuery) then method_throw (ErrAlreadyExists key)
  else put_json key json.

(** Lines 501-522.  [now] is [new Date()] as [JSON.stringify] writes it. *)
Definition createMember (now : string) (st : gmap string (payload num))
    (json : @obj num) : Method unit :=
  call* ssn := method_lift (text json "ssn") in
  call* contractNumber := method_lift (text json "contractNumber") in
  let key := "member" +:+ ssn +:+ ":" +:+ contractNumber in
  let json := alist_set json "docType" (VStr "member") in
  let donorQuery := getState st key in
  if negb (is_empty donorQuery) then method_throw (ErrAlreadyExists key)
  else
    let json := alist_set json "createDate" (VStr now) in
    put_json key json.


(** Lines 548-558. *)
Definition queryMember (st : gmap string (payload num)) (json : @obj num)
  : result (payload num) :=
  let* ssn := supported (text json "ssn") in
  queryByKey st ("member" +:+ ssn).

(** The query string [{"selector": {"docType": docType}}], parsed. *)
Definition all_query (docType : string) : value num :=
  VObj [("selector", VObj [("docType", VStr docType)])].

(** The query string
    ['{"selector": {"docType": docType, f: "' + s + '"}}'], parsed; the
    text [s] stands between the quotes as it is. *)
Definition field_query (docType f s : string) : result (value num) :=
  if json_safe s
  then Ok (VObj [("selector", VObj [("docType", VStr docType); (f, VStr s)])])
  else Unsupported.

(** Lines 566-572. *)
Definition queryAllDonors (st : gmap string (payload num)) : result (list (@entry num)) :=
  queryByString st (all_query "donor").

(** Lines 580-586. *)
Definition queryAllMembers (st : gmap string (payload num)) : result (list (@entry num)) :=
  queryByString st (all_query "member").

(** ** NGOs, employers and plans *)

(** Lines 609-628. *)
Definition createNGO (st : gmap string (payload num)) (json : @obj num)
  : Method unit :=
  call* ngoRegistrationNumber := method_lift (text json "ngoRegistrationNumber") in
  let key := "ngo" +:+ ngoRegistrationNumber in
  let json := alist_set json "docType" (VStr "ngo") in
  let ngoQuery := getState st key in
  if negb (is_empty ngoQuery) then method_throw (ErrAlreadyExists key)
  else put_json key json.

(** Lines 630-649. *)
Definition createEmployer (st : gmap string (payload num)) (json : @obj num)
  : Method unit :=
  call* contractNumber := method_lift (text json "contractNumber") in
  let key := "employer" +:+ contractNumber in
  let json := alist_set json "docType" (VStr "employer") in
  let ngoQuery := getState st key in
  if negb (is_empty ngoQuery) then method_throw (ErrAlreadyExists key)
  else put_json key json.

(** Lines 651-670. *)
Definition createPlan (st : gmap string (payload num)) (json : @obj num)
  : Method unit :=
  call* planId := method_lift (text json "planId") in
  let key := "plan" +:+ planId in
  let json := alist_set json "docType" (VStr "plan") in
  let ngoQuery := getState st key in
  if negb (is_empty ngoQuery) then method_throw (ErrAlreadyExists key)
  else put_json key json.




(** Lines 720-726. *)
Definition queryAllNGOs (st : gmap string (payload num)) : result (list (@entry num)) :=
  queryByString st (all_query "ngo").

(** Lines 728-734. *)
Definition queryAllEmployers (st : gmap string (payload num))
  : result (list (@entry num)) :=
  queryByString st (all_query "employer").

(** Lines 736-742. *)
Definition queryAllPlans (st : gmap string (payload num)) : result (list (@entry num)) :=
  queryByString st (all_query "plan").

(** ** Donations and withdrawals *)

(** Lines 764-797. *)
Definition createDonation (st : gmap string (payload num)) (json : @obj num)
  : Method unit :=
  call* donationId := method_lift (text json "donationId") in
  let key := "donation" +:+ donationId in
  let json := alist_set json "docType" (VStr "donation") in
  call* ngoRegistrationNumber := method_lift (text json "ngoRegistrationNumber") in
  let ngoKey := "ngo" +:+ ngoRegistrationNumber in
  let ngoQuery := getState st ngoKey in
  if is_empty ngoQuery then method_throw (ErrDoesNotExist ngoKey)
  else
    call* donorUserName := method_lift (text json "donorUserName") in
    let donorKey := "donor" +:+ donorUserName in
    let donorQuery := getState st donorKey in
    if is_empty donorQuery then method_throw (ErrDoesNotExist donorKey)
    else
      let donationQuery := getState st key in
      if negb (is_empty donationQuery) then method_throw (ErrAlreadyExists key)
      else put_json key json.

(** Lines 923-955. *)
Definition createWithdrawal (st : gmap string (payload num)) (json : @obj num)
  : Method unit :=
  call* withdrawalKey := method_lift (text json "withdrawalKey") in
  let key := "withdrawal" +:+ withdrawalKey in
  let json := alist_set json "docType" (VStr "withdrawal") in
  call* ssn := method_lift (text json "ssn") in
  call* contractNumber := method_lift (text json "contractNumber") in
  let ngoKey := "member" +:+ ssn +:+ ":" +:+ contractNumber in
  let ngoQuery := getState st ngoKey in
  if is_empty ngoQuery then method_throw (ErrDoesNotExist ngoKey)
  else
    let donorKey := "employer" +:+ contractNumber in
    let donorQuery := getState st donorKey in
    if is_empty donorQuery then method_throw (ErrDoesNotExist donorKey)
    else
      let donationQuery := getState st key in
      if negb (is_empty donationQuery) then method_throw (ErrAlreadyExists key)
      else put_json key json.

(** Lines 964-973. *)
Definition queryDonation (st : gmap string (payload num)) (json : @obj num)
  : result (payload num) :=
  let* donationId := supported (text json "donationId") in
  queryByKey st ("donation" +:+ donationId).

(** Lines 997-1005. *)
Definition queryDonationsForNGO (st : gmap string (payload num)) (json : @obj num)
  : result (list (@entry num)) :=
  let* ngoRegistrationNumber := supported (text json "ngoRegistrationNumber") in
  let* queryString := field_query "donation" "ngoRegistrationNumber" ngoRegistrationNumber in
  queryByString st queryString.

(** Lines 1039-1044. *)
Definition queryAllDonations (st : gmap string (payload num))
  : result (list (@entry num)) :=
  queryByString st (all_query "donation").

(** ** Spends and spend allocations *)


(** Lines 1118-1126. *)
Definition querySpendForNGO (st : gmap string (payload num)) (json : @obj num)
  : result (list (@entry num)) :=
  let* ngoRegistrationNumber := supported (text json "ngoRegistrationNumber") in
  let* queryString := field_query "spend" "ngoRegistrationNumber" ngoRegistrationNumber in
  queryByString st queryString.

(** Lines 1134-1139. *)
Definition queryAllSpend (st : gmap string (payload num)) : result (list (@entry num)) :=
  queryByString st (all_query "spend").

(** Lines 1170-1179. *)
Definition querySpendAllocation (st : gmap string (payload num)) (json : @obj num)
  : result (payload num) :=
  let* spendAllocationId := supported (text json "spendAllocationId") in
  queryByKey st ("spendAllocation" +:+ spendAllocationId).

(** Lines 1187-1195. *)
Definition querySpendAllocationForDonation (st : gmap string (payload num))
    (json : @obj num) : result (list (@entry num)) :=
  let* donationId := supported (text json "donationId") in
  let* queryString := field_query "spendAllocation" "donationId" donationId in
  queryByString st queryString.

(** Lines 1203-1211. *)
Definition querySpendAllocationForSpend (st : gmap string (payload num))
    (json : @obj num) : result (list (@entry num)) :=
  let* spendId := supported (text json "spendId") in
  let* queryString := field_query "spendAllocation" "spendId" spendId in
  queryByString st queryString.

(** Lines 1219-1224. *)
Definition queryAllSpendAllocations (st : gmap string (payload num))
  : result (list (@entry num)) :=
  queryByString st (all_query "spendAllocation").

(** ** Ratings *)

(** Lines 1243-1262. *)
Definition createRating (st : gmap string (payload num)) (json : @obj num)
  : Method unit :=
  call* ngoRegistrationNumber := method_lift (text json "ngoRegistrationNumber") in
  call* donorUserName := method_lift (text json "donorUserName") in
  let key := "rating" +:+ ngoRegistrationNumber +:+ donorUserName in
  let json := alist_set json "docType" (VStr "rating") in
  let ratingQuery := getState st key in
  if negb (is_empty ratingQuery) then method_throw (ErrAlreadyExists key)
  else put_json key json.

(** Lines 1286-1295. *)
Definition queryDonorRatingsForNGO (st : gmap string (payload num)) (json : @obj num)
  : result (payload num) :=
  let* ngoRegistrationNumber := supported (text json "ngoRegistrationNumber") in
  let* donorUserName := supported (text json "donorUserName") in
  queryByKey st ("rating" +:+ ngoRegistrationNumber +:+ donorUserName).

End Chaincode.

(** ** Ledger histories *)

(** A call of one of the methods above that write, or of [createSpend],
    with its parsed argument; [createSpend] also takes the identifier of
    the transaction and the fuel of the allocation loop.  The argument of
    a spend is written by [allocateSpend] and by [createSpend], and is
    taken to be [writable] like every other document. *)
Inductive transaction {num : Type} : Type :=
| CreateDonor (json : @obj num)
| CreateMember (now : string) (json : @obj num)
| CreateNGO (json : @obj num)
| CreateEmployer (json : @obj num)
| CreatePlan (json : @obj num)
| CreateDonation (json : @obj num)
| CreateWithdrawal (json : @obj num)
| CreateRating (json : @obj num)
| CreateSpend (fuel : nat) (txID : string) (json : @obj num).

Arguments transaction num : clear implicits.

Definition run_transaction {num : Type} `{!JSNumber num}
    (st : gmap string (payload num)) (t : transaction num) : Method unit :=
  match t with
  | CreateDonor json => createDonor st json
  | CreateMember now json => createMember now st json
  | CreateNGO json => createNGO st json
  | CreateEmployer json => createEmployer st json
  | CreatePlan json => createPlan st json
  | CreateDonation json => createDonation st json
  | CreateWithdrawal json => createWithdrawal st json
  | CreateRating json => createRating st json
  | CreateSpend fuel txID json =>
      if writable (VObj json) then of_tx (createSpend fuel st txID json)
      else method_lift None
  end.



(** The method that lists all documents of the type that a create method
    stores; withdrawals and ratings have no such method. *)
Definition listing_of {num : Type} `{!JSNumber num} (t : transaction num)
  : option (gmap string (payload num) -> result (list (@entry num))) :=
  match t with
  | CreateDonor _ => Some queryAllDonors
  | CreateMember _ _ => Some queryAllMembers
  | CreateNGO _ => Some queryAllNGOs
  | CreateEmployer _ => Some queryAllEmployers
  | CreatePlan _ => Some queryAllPlans
  | CreateDonation _ => Some queryAllDonations
  | CreateSpend _ _ _ => Some queryAllSpend
  | CreateWithdrawal _ | CreateRating _ => None
  end.

(** The argument and the [docType] of a transaction. *)
Definition argument {num : Type} (t : transaction num) : @obj num :=
  match t with
  | CreateDonor json | CreateMember _ json | CreateNGO json | CreateEmployer json
  | CreatePlan json | CreateDonation json | CreateWithdrawal json
  | CreateRating json | CreateSpend _ _ json => json
  end.

Definition docType_of {num : Type} (t : transaction num) : string :=
  match t with
  | CreateDonor _ => "donor"
  | CreateMember _ _ => "member"
  | CreateNGO _ => "ngo"
  | CreateEmployer _ => "employer"
  | CreatePlan _ => "plan"
  | CreateDonation _ => "donation"
  | CreateWithdrawal _ => "withdrawal"
  | CreateRating _ => "rating"
  | CreateSpend _ _ _ => "spend"
  end.

(** A stored entry is a JSON object whose [docType] is a string that the
    key starts with. *)
Definition tagged {num : Type} (w : string * payload num) : Prop :=
  exists dt rest doc,
    w = (dt +:+ rest, Json (VObj doc))
    /\ alist_get doc "docType" = Some (VStr dt).



(** The key and the document that a transaction stores for its argument:
    the key that the method builds, and the argument with [docType] set
    (and [createDate] for a member). *)
Definition record_of {num : Type} (t : transaction num) : option (string * @obj num) :=
  let doc := alist_set (argument t) "docType" (VStr (docType_of t)) in
  match t with
  | CreateDonor json =>
      name ← text json "donorUserName"; Some ("donor" +:+ name, doc)
  | CreateMember now json =>
      ssn ← text json "ssn"; contractNumber ← text json "contractNumber";
      Some ("member" +:+ ssn +:+ ":" +:+ contractNumber,
            alist_set doc "createDate" (VStr now))
  | CreateNGO json =>
      ngo ← text json "ngoRegistrationNumber"; Some ("ngo" +:+ ngo, doc)
  | CreateEmployer json =>
      contractNumber ← text json "contractNumber";
      Some ("employer" +:+ contractNumber, doc)
  | CreatePlan json =>
      planId ← text json "planId"; Some ("plan" +:+ planId, doc)
  | CreateDonation json =>
      donationId ← text json "donationId"; Some ("donation" +:+ donationId, doc)
  | CreateWithdrawal json =>
      withdrawalKey ← text json "withdrawalKey";
      Some ("withdrawal" +:+ withdrawalKey, doc)
  | CreateRating json =>
      ngo ← text json "ngoRegistrationNumber"; donor ← text json "donorUserName";
      Some ("rating" +:+ ngo +:+ donor, doc)
  | CreateSpend _ _ json =>
      spendId ← text json "spendId"; Some ("spend" +:+ spendId, doc)
  end.

(** What a second run of a committed transaction is answered with. *)
Definition duplicate_error {num : Type} (t : transaction num) (key : string)
  : method_error :=
  match t with
  | CreateSpend _ _ _ => ErrThrown ErrSpendExists
  | _ => ErrAlreadyExists key
  end.

(** The writes of a transaction besides its own record: the allocation
    records of a spend. *)
Definition allocation_keys {num : Type} (t : transaction num) (k : string) : Prop :=
  match t with
  | CreateSpend _ txID _ => exists i, k = allocation_key txID i
  | _ => False
  end.

(** The sum of the amounts that [load_donations] reads from a list of
    query results. *)
Fixpoint donations_total (l : list (@entry Q)) : Q :=
  match l with
  | [] => 0%Q
  | e :: rest =>
      ((match entry_donation e with Ok p => p.2 | _ => 0 end) + donations_total rest)%Q
  end.

(** The number of fields of a selector, [docType] apart, that a record
    matches in the sense of line 115. *)
Definition matches {num : Type} `{!JSNumber num} (jsonRecord : @obj num)
    (r : value num) : nat :=
  length (List.filter (fun kv => negb (String.eqb kv.1 "docType")
                                 && field_matches kv.1 kv.2 r) jsonRecord).

(** Line 115 stays inside the modelled fragment for every field of the
    selector: the record can be compared with each of them. *)
Definition selectable {num : Type} `{!JSNumber num} (jsonRecord : @obj num)
    (r : value num) : Prop :=
  Forall (fun kv => kv.1 <> "docType" -> comparable kv.1 kv.2 r) jsonRecord.

(** ** Example calls *)

Module Registry.
Import Example.

Definition ngoArgs {num : Type} (ngo : string) : @obj num :=
  [("ngoRegistrationNumber", VStr ngo); ("ngoName", VStr "Pets In Need");
   ("ngoDescription", VStr "We help pets in need")].

Definition donorArgs {num : Type} (donor : string) : @obj num :=
  [("donorUserName", VStr donor); ("email", VStr "edge@abc.com");
   ("registeredDate", VStr "2018-10-22T11:52:20.182Z")].

Definition donationArgs {num : Type} (donationId donor ngo : string) (amount : num)
  : @obj num :=
  [("donationId", VStr donationId); ("donationAmount", VNum amount);
   ("donationDate", VStr "2018-09-20T12:41:59.582Z");
   ("donorUserName", VStr donor); ("ngoRegistrationNumber", VStr ngo)].

Definition memberArgs {num : Type} : @obj num :=
  [("firstName", VStr "John"); ("lastName", VStr "Doe"); ("ssn", VStr "123456789");
   ("contractNumber", VStr "C1")].

Definition ratingArgs {num : Type} (ngo donor : string) (rating : num) : @obj num :=
  [("ngoRegistrationNumber", VStr ngo); ("donorUserName", VStr donor);
   ("rating", VNum rating)].

(** The ledger after the transactions of a list, each committed before
    the next, whether it returned or not. *)
Definition ledger_after {num : Type} `{!JSNumber num} (ts : list (transaction num))
  : gmap string (payload num) :=
  foldl (fun st t => commit st (run_transaction st t []).2) ∅ ts.

(** Every transaction of the list returns when its turn comes. *)
Fixpoint all_return {num : Type} `{!JSNumber num} (st : gmap string (payload num))
    (ts : list (transaction num)) : bool :=
  match ts with
  | [] => true
  | t :: ts' =>
      match run_transaction st t [] with
      | (Returned _, log) => all_return (commit st log) ts'
      | _ => false
      end
  end.

(** NGO 6322 and donor edge. *)
Definition registered {num : Type} : list (transaction num) :=
  [CreateNGO (ngoArgs "6322"); CreateDonor (donorArgs "edge")].

(** The same with a donation of 100. *)
Definition donated : list (transaction float) :=
  registered ++ [CreateDonation (donationArgs "2211" "edge" "6322" 100%float)].

(** The same with a spend of 30 as transaction tx1. *)
Definition spent : list (transaction float) :=
  donated ++ [CreateSpend 2 "tx1" (spendRequest "2" "6322" (VNum 30%float))].

(** The same history in exact arithmetic. *)
Definition spent_exact : list (transaction Q) :=
  registered
  ++ [CreateDonation (donationArgs "2211" "edge" "6322" 100%Q);
      CreateSpend 2 "tx1" (spendRequest "2" "6322" (VNum 30%Q))].

(** The selector [{"docType": "donation", "donorUserName": "edge",
    "ngoRegistrationNumber": "N1"}]. *)
Definition query_two_fields : @obj float :=
  [("selector", VObj [("docType", VStr "donation"); ("donorUserName", VStr "edge");
                      ("ngoRegistrationNumber", VStr "N1")])].

End Registry.

(** ** Stores that [allocateSpend] reads as the code means them *)

(** A scanned record that lines 115, 193 to 195 and 210 to 220 read
    without a conversion: an object with a string
    [ngoRegistrationNumber], a finite number under [amount] and a string
    [donationId]. *)
Definition well_formed_object {num : Type} `{!JSNumber num} (amount : string)
    (r : value num) : bool :=
  match r with
  | VObj o =>
      match alist_get o "ngoRegistrationNumber", alist_get o amount,
            alist_get o "donationId" with
      | Some (VStr _), Some (VNum x), Some (VStr _) => num_isFinite x
      | _, _, _ => false
      end
  | _ => false
  end.

(** The same, or [null], on which [queryByString] throws. *)
Definition well_formed {num : Type} `{!JSNumber num} (amount : string)
    (r : value num) : bool :=
  match r with
  | VNull => true
  | _ => well_formed_object amount r
  end.

(** Every record that the two queries of [allocateSpend] scan is well
    formed. *)
Definition well_formed_history {num : Type} `{!JSNumber num}
    (st : gmap string (payload num)) : bool :=
  forallb (fun e => well_formed "donationAmount" (parse_record e.2))
          (scanned_records st "donation")
  && forallb (fun e => well_formed "spendAllocationAmount" (parse_record e.2))
             (scanned_records st "spendAllocation").

(** A scanned donation is well formed and sits under
    ['donation' + donationId], as [createDonation] stores it. *)
Definition sound_donation {num : Type} `{!JSNumber num} (e : string * payload num)
  : bool :=
  well_formed_object "donationAmount" (parse_record e.2)
  && match parse_record e.2 with
     | VObj o =>
         match alist_get o "donationId" with
         | Some (VStr id) => String.eqb e.1 ("donation" +:+ id)
         | _ => false
         end
     | _ => false
     end.

(** A scanned allocation is well formed and its amount is not negative. *)
Definition sound_allocation {num : Type} `{!JSNumber num} (e : string * payload num)
  : bool :=
  well_formed_object "spendAllocationAmount" (parse_record e.2)
  && match parse_record e.2 with
     | VObj o =>
         match alist_get o "spendAllocationAmount" with
         | Some (VNum x) => num_leb num_zero x
         | _ => false
         end
     | _ => false
     end.

Definition sound_history {num : Type} `{!JSNumber num} (st : gmap string (payload num))
  : bool :=
  forallb sound_donation (scanned_records st "donation")
  && forallb sound_allocation (scanned_records st "spendAllocation").

(** The same for one entry of the world state, whatever its key. *)
Definition sound_entry {num : Type} `{!JSNumber num} (w : string * payload num) : Prop :=
  is_empty w.2 = false ->
  (in_range "donation0" "donationz" w.1 = true -> sound_donation w = true)
  /\ (in_range "spendAllocation0" "spendAllocationz" w.1 = true
      -> sound_allocation w = true).

Definition sound_ledger {num : Type} `{!JSNumber num} (st : gmap string (payload num))
  : Prop :=
  forall k v, st !! k = Some v -> sound_entry (k, v).

(** ** Requests with plain arguments *)

(** A spend request whose [spendId] is a string and whose
    [ngoRegistrationNumber] is a string that stands between the quotes of
    the query strings of lines 181 and 206 as it is. *)
Definition plain_spend {num : Type} (json : @obj num) : bool :=
  match alist_get json "spendId", alist_get json "ngoRegistrationNumber" with
  | Some (VStr _), Some (VStr ngo) => json_safe ngo
  | _, _ => false
  end.

(** A donation names itself and its NGO by strings and carries a finite
    number as its amount; a spend is plain, and its key
    ['spend' + spendId] lies outside the scan of the allocation records
    (the id does not start with ['Allocation'] and a character from ['0']
    up to ['z']).  The other methods take any argument. *)
Definition plain_transaction {num : Type} `{!JSNumber num} (t : transaction num) : bool :=
  match t with
  | CreateDonation json =>
      match alist_get json "donationId", alist_get json "donationAmount",
            alist_get json "ngoRegistrationNumber" with
      | Some (VStr _), Some (VNum x), Some (VStr _) => num_isFinite x
      | _, _, _ => false
      end
  | CreateSpend _ _ json =>
      plain_spend json
      && match alist_get json "spendId" with
         | Some (VStr spendId) =>
             negb (in_range "spendAllocation0" "spendAllocationz" ("spend" +:+ spendId))
         | _ => false
         end
  | _ => true
  end.

(** The world states reached from [st] by transactions with plain
    arguments that returned, each committed before the next. *)
Inductive built_plain {num : Type} `{!JSNumber num} (st : gmap string (payload num))
  : gmap string (payload num) -> Prop :=
| plain_none : built_plain st st
| plain_step st1 t log :
    built_plain st st1 ->
    plain_transaction t = true ->
    run_transaction st1 t [] = (Returned tt, log) ->
    built_plain st (commit st1 log).

(** The allocation records of a write log that allocate to the donation
    [donationId]. *)
Definition allocated_to {num : Type} (donationId : string) (w : string * payload num)
  : bool :=
  match allocation_of w with
  | Some (d, _) => String.eqb d donationId
  | None => false
  end.
(** * Properties *)

(** ** Shape of the write log *)

Section LogShape.
Context {num : Type} `{!JSNumber num}.

Lemma tx_lift_inv {A} (r : result A) (log : list (@write num)) r' log' :
  tx_lift r log = (r', log') -> r' = r /\ log' = log.
Proof. unfold tx_lift. intros E. by inversion E. Qed.

(** A round always runs to its end: nothing in it throws. *)
Lemma allocate_round_ok txID spend ngo spendPerDonation donationMap :
  forall (s : @alloc_state num) log,
    exists s' log', allocate_round txID spend ngo spendPerDonation donationMap s log
                    = (Ok s', log').
Proof.
  induction donationMap as [|d rest IH]; intros s log; simpl.
  - by exists s, log.
  - unfold tx_bind.
    destruct (num_leb spendPerDonation (availableAmountForDonor (donationSpendMap s) d)).
    + simpl. apply IH.
    + destruct (num_ltb num_zero (availableAmountForDonor (donationSpendMap s) d));
        simpl; apply IH.
Qed.

Lemma allocate_loop_throw fuel txID spend ngo donationMap :
  forall (s : @alloc_state num) log e log',
    allocate_loop fuel txID spend ngo donationMap s log = (Throw e, log') ->
    loop_error e.
Proof.
  unfold loop_error.
  induction fuel as [|fuel IH]; intros s log e log'; simpl.
  - intros E. apply tx_lift_inv in E as [E _]. discriminate.
  - destruct (num_leb (spendAmount s) num_zero); [discriminate|].
    destruct (negb _).
    { intros E. apply tx_lift_inv in E as [E _]. inversion E. auto. }
    destruct (_ =? _)%nat.
    { intros E. apply tx_lift_inv in E as [E _]. inversion E. auto. }
    destruct (negb _).
    { intros E. apply tx_lift_inv in E as [E _]. inversion E. auto. }
    unfold tx_bind.
    destruct (allocate_round_ok txID spend ngo
                (num_div (spendAmount s)
                   (num_of_nat (count_available donationMap (donationSpendMap s))))
                donationMap s log) as (s' & l' & ->).
    apply IH.
Qed.

Lemma allocation_writes_app txID spend ngo (ws1 ws2 : list (@write num)) : forall c,
  allocation_writes txID spend ngo c ws1 ->
  allocation_writes txID spend ngo (c + length ws1) ws2 ->
  allocation_writes txID spend ngo c (ws1 ++ ws2).
Proof.
  induction ws1 as [|w ws1 IH]; intros c; simpl.
  - by rewrite Nat.add_0_r.
  - intros [Hw H1] H2. split; [done|]. apply IH; [done|].
    by replace (S c + length ws1) with (c + S (length ws1)) by lia.
Qed.

Lemma allocation_writes_keys txID spend ngo (ws : list (@write num)) : forall c,
  allocation_writes txID spend ngo c ws ->
  map fst ws = map (allocation_key txID) (seq c (length ws)).
Proof.
  induction ws as [|w ws IH]; intros c; simpl; [done|].
  intros [(d & x & ->) H]. f_equal. by apply IH.
Qed.

(** One record is appended per allocation, numbered by [recordCounter]. *)
Lemma allocate_log txID spend ngo donationId amount (s s' : @alloc_state num) log log' :
  allocate txID spend ngo donationId amount s log = (Ok s', log') ->
  exists w, log' = log ++ [w]
            /\ allocation_write txID spend ngo (recordCounter s) w
            /\ recordCounter s' = S (recordCounter s).
Proof.
  unfold allocate, tx_bind, putState, tx_ret. intros [= <- <-].
  eexists. split; [reflexivity|]. split; [|done]. by eexists _, _.
Qed.

Lemma allocate_round_log txID spend ngo spendPerDonation donationMap :
  forall (s s' : @alloc_state num) log log',
    allocate_round txID spend ngo spendPerDonation donationMap s log = (Ok s', log') ->
    exists new, log' = log ++ new
                /\ allocation_writes txID spend ngo (recordCounter s) new
                /\ recordCounter s' = recordCounter s + length new.
Proof.
  induction donationMap as [|d rest IH]; intros s s' log log'; simpl.
  - intros [= <- <-]. exists []. by rewrite app_nil_r, Nat.add_0_r.
  - unfold tx_bind at 1.
    set (step := if num_leb spendPerDonation _ then _ else _).
    destruct (step log) as [[s1| | |] log1] eqn:E; try discriminate.
    intros Hrest. apply IH in Hrest as (new & -> & Hnew & Hc).
    subst step.
    destruct (num_leb _ _); [|destruct (num_ltb _ _)].
    1,2: apply allocate_log in E as (w & -> & Hw & Hc1);
         exists (w :: new); rewrite <- app_assoc; split; [done|];
         rewrite Hc1 in *; simpl; split; [done|lia].
    injection E as <- <-. by exists new.
Qed.

Lemma allocate_loop_log fuel txID spend ngo donationMap :
  forall (s : @alloc_state num) log log',
    allocate_loop fuel txID spend ngo donationMap s log = (Ok tt, log') ->
    exists new, log' = log ++ new
                /\ allocation_writes txID spend ngo (recordCounter s) new.
Proof.
  induction fuel as [|fuel IH]; intros s log log'; simpl; [discriminate|].
  destruct (num_leb (spendAmount s) num_zero).
  { intros [= <-]. exists []. by rewrite app_nil_r. }
  destruct (negb _); [discriminate|].
  destruct (_ =? _)%nat; [discriminate|].
  destruct (negb _); [discriminate|].
  unfold tx_bind.
  destruct (allocate_round _ _ _ _ _ _ _) as [[s1| | |] log1] eqn:E; try discriminate.
  apply allocate_round_log in E as (new1 & -> & H1 & Hc).
  intros Hrest. apply IH in Hrest as (new2 & -> & H2).
  exists (new1 ++ new2). rewrite app_assoc. split; [done|].
  apply allocation_writes_app; [done|]. by rewrite <- Hc.
Qed.

Lemma supported_ok {A} (o : option A) (a : A) : supported o = Ok a -> o = Some a.
Proof. destruct o; simpl; congruence. Qed.

(** Everything a successful [allocateSpend] went through, step by step. *)
Lemma allocateSpend_ok_inv fuel (st : gmap string (payload num)) txID spend spend' log log' :
  allocateSpend fuel st txID spend log = (Ok spend', log') ->
  exists amount ngoStr donationsForNGO totalDonations donationMap
         spendAllocations totalSpend donationSpendMap spendId,
    valid_amount spend = Some amount
    /\ to_string (alist_get spend "ngoRegistrationNumber") = Some ngoStr
    /\ is_empty (getState st ("ngo" +:+ ngoStr)) = false
    /\ json_safe ngoStr = true
    /\ queryByString st (ngo_query "donation" ngoStr) = Ok donationsForNGO
    /\ load_donations donationsForNGO num_zero [] = Ok (totalDonations, donationMap)
    /\ queryByString st (ngo_query "spendAllocation" ngoStr) = Ok spendAllocations
    /\ load_spend spendAllocations num_zero [] = Ok (totalSpend, donationSpendMap)
    /\ num_ltb (num_sub totalDonations totalSpend) amount = false
    /\ spend' = alist_set spend "docType" (VStr "spend")
    /\ to_string (alist_get spend' "spendId") = Some spendId
    /\ allocate_loop fuel txID spend' (alist_get spend "ngoRegistrationNumber")
         donationMap (mkState amount donationSpendMap 0)
         (log ++ [("spend" +:+ spendId, Json (VObj spend'))]) = (Ok tt, log').
Proof.
  unfold allocateSpend, tx_bind, tx_lift, putState, tx_ret.
  destruct (valid_amount spend) as [amount|] eqn:Ha; [|discriminate].
  destruct (negb (truthy _)); [discriminate|].
  destruct (supported (to_string _)) as [ngoStr| | |] eqn:Hngo; try discriminate.
  apply supported_ok in Hngo.
  unfold queryByKey.
  destruct (is_empty (getState st ("ngo" +:+ ngoStr))) eqn:He; [discriminate|].
  rewrite He.
  destruct (negb (json_safe ngoStr)) eqn:Hs; [discriminate|].
  apply negb_false_iff in Hs.
  destruct (queryByString st (ngo_query "donation" ngoStr))
    as [donationsForNGO| | |] eqn:Hqd; try discriminate.
  destruct (load_donations donationsForNGO num_zero [])
    as [[totalDonations donationMap]| | |] eqn:Hld; try discriminate.
  destruct (queryByString st (ngo_query "spendAllocation" ngoStr))
    as [spendAllocations| | |] eqn:Hqs; try discriminate.
  destruct (load_spend spendAllocations num_zero [])
    as [[totalSpend donationSpendMap]| | |] eqn:Hls; try discriminate.
  destruct (num_ltb (num_sub totalDonations totalSpend) amount) eqn:Hf; [discriminate|].
  destruct (supported (to_string (alist_get (alist_set spend "docType" _) "spendId")))
    as [spendId| | |] eqn:Hid; try discriminate.
  apply supported_ok in Hid.
  destruct (allocate_loop _ _ _ _ _ _ _) as [[[]| | |] log1] eqn:Hloop; try discriminate.
  intros [= <- <-].
  exists amount, ngoStr, donationsForNGO, totalDonations, donationMap,
    spendAllocations, totalSpend, donationSpendMap, spendId.
  repeat (split; [done|]). done.
Qed.

(** A successful [allocateSpend] hands back the spend object with
    [docType] set, and has written that object under ['spend' + spendId]
    followed by the allocation records 0, 1, 2, ... *)
Lemma allocateSpend_ok_log fuel (st : gmap string (payload num)) txID spend spend' log log' :
  allocateSpend fuel st txID spend log = (Ok spend', log') ->
  spend' = alist_set spend "docType" (VStr "spend")
  /\ exists spendId new,
       to_string (alist_get spend' "spendId") = Some spendId
       /\ log' = log ++ ("spend" +:+ spendId, Json (VObj spend')) :: new
       /\ allocation_writes txID spend' (alist_get spend "ngoRegistrationNumber") 0 new.
Proof.
  intros E. apply allocateSpend_ok_inv in E
    as (amount & ngoStr & ds & td & dm & sas & ts & sm & spendId
        & _ & _ & _ & _ & _ & _ & _ & _ & _ & -> & Hid & Hloop).
  split; [done|].
  apply allocate_loop_log in Hloop as (new & -> & Hnew).
  exists spendId, new. split; [done|]. split; [|done].
  by rewrite <- app_assoc.
Qed.

(** More fuel does not change a run that was not cut off: the fuel only
    bounds the number of rounds, the source has no such bound. *)
Lemma allocate_loop_fuel fuel txID spend ngo donationMap :
  forall (s : @alloc_state num) log r log' k,
    allocate_loop fuel txID spend ngo donationMap s log = (r, log') ->
    finished r ->
    allocate_loop (fuel + k) txID spend ngo donationMap s log = (r, log').
Proof.
  unfold finished.
  induction fuel as [|fuel IH]; intros s log r log' k; simpl.
  - intros E. apply tx_lift_inv in E as [-> _]. done.
  - destruct (num_leb (spendAmount s) num_zero); [done|].
    destruct (negb _); [done|].
    destruct (_ =? _)%nat; [done|].
    destruct (negb _); [done|].
    unfold tx_bind.
    destruct (allocate_round _ _ _ _ _ _ _) as [[s1| | |] log1]; try done.
    apply IH.
Qed.

Lemma allocateSpend_fuel fuel (st : gmap string (payload num)) txID spend log r log' k :
  allocateSpend fuel st txID spend log = (r, log') ->
  finished r ->
  allocateSpend (fuel + k) st txID spend log = (r, log').
Proof.
  unfold allocateSpend, tx_bind, tx_lift, putState, tx_ret, finished.
  intros E Hr.
  repeat (case_match; simplify_eq; try done);
    match goal with
    | H : allocate_loop (_ + _) _ _ _ _ _ _ = _,
      H' : allocate_loop _ _ _ _ _ _ _ = (?r, _) |- _ =>
        rewrite (allocate_loop_fuel _ _ _ _ _ _ _ _ _ k H') in H by done;
        by simplify_eq
    end.
Qed.

End LogShape.

Section Rejection.
Context {num : Type} `{!JSNumber num}.

(** C4. Rejection is total: when [allocateSpend] rejects a spend request
    (the NGO does not exist, the amount is invalid, or the amount exceeds
    [totalDonations - totalSpend]), it has issued no [putState]; the write
    set is empty and committing it leaves the world state as it was. *)
Theorem allocateSpend_rejection_no_put fuel (st : gmap string (payload num)) txID
    spend e log' :
  allocateSpend fuel st txID spend [] = (Throw e, log') ->
  rejection e = true ->
  log' = [] /\ commit st log' = st.
Proof.
  unfold allocateSpend, tx_bind, tx_lift, putState, tx_ret.
  intros E R.
  repeat (case_match; simplify_eq; try done);
    match goal with
    | H : allocate_loop _ _ _ _ _ _ _ = (Throw _, _) |- _ =>
        apply allocate_loop_throw in H as [-> | [-> | ->]]; discriminate
    end.
Qed.

Lemma allocate_loop_supported fuel txID spend ngo donationMap :
  forall (s : @alloc_state num) log log',
    allocate_loop fuel txID spend ngo donationMap s log <> (Unsupported, log').
Proof.
  induction fuel as [|fuel IH]; intros s log log'; simpl.
  - unfold tx_lift. congruence.
  - destruct (num_leb (spendAmount s) num_zero); [unfold tx_ret; congruence|].
    destruct (negb _); [unfold tx_lift; congruence|].
    destruct (_ =? _)%nat; [unfold tx_lift; congruence|].
    destruct (negb _); [unfold tx_lift; congruence|].
    unfold tx_bind.
    destruct (allocate_round_ok txID spend ngo
                (num_div (spendAmount s)
                   (num_of_nat (count_available donationMap (donationSpendMap s))))
                donationMap s log) as (s' & l' & ->).
    apply IH.
Qed.

(** Whatever the outcome, a write log that is not empty means that all
    checks before line 253 were passed: the call then ends normally, in one
    of the three error branches of the loop, or is cut off by the fuel. *)
Lemma allocateSpend_puts_after_checks fuel (st : gmap string (payload num)) txID
    spend r log' :
  allocateSpend fuel st txID spend [] = (r, log') ->
  log' <> [] ->
  (exists spend', r = Ok spend')
  \/ (exists e, r = Throw e /\ loop_error e)
  \/ r = OutOfFuel.
Proof.
  unfold allocateSpend, tx_bind, tx_lift, putState, tx_ret.
  intros E Hlog.
  repeat (case_match; simplify_eq; try done); eauto.
  - match goal with
    | H : allocate_loop _ _ _ _ _ _ _ = (Throw _, _) |- _ =>
        apply allocate_loop_throw in H; eauto
    end.
  - match goal with
    | H : allocate_loop _ _ _ _ _ _ _ = (Unsupported, _) |- _ =>
        by apply allocate_loop_supported in H
    end.
Qed.

End Rejection.

(** ** Point lookup *)

Section PointLookup.
Context {num : Type} `{!JSNumber num}.

(** C9 (as the code has it). [stub.getState] never throws: it yields the
    stored payload, or the empty buffer for an absent key.  [queryByKey]
    turns absence into an exception: it throws "does not exist" exactly
    when the key is absent or holds an empty payload, and returns the
    stored payload otherwise. *)
Theorem queryByKey_throws_iff_absent (st : gmap string (payload num)) (key : string) :
  match st !! key with
  | None =>
      getState st key = Raw "" /\ queryByKey st key = Throw (ErrKeyDoesNotExist key)
  | Some p =>
      getState st key = p /\
      queryByKey st key = (if is_empty p then Throw (ErrKeyDoesNotExist key) else Ok p)
  end.
Proof.
  unfold queryByKey, getState.
  destruct (st !! key) as [p|]; simpl; [|done].
  split; [done|]. by destruct (is_empty p).
Qed.

(** Line 162 rejects before anything else is read or written; the
    message of line 163 needs the amount as text. *)
Lemma allocateSpend_invalid_amount fuel (st : gmap string (payload num)) txID spend log :
  valid_amount spend = None ->
  allocateSpend fuel st txID spend log
  = (Throw (if printable_opt (alist_get spend "spendAmount")
            then ErrSpendAmountInvalid else ErrTypeError), log).
Proof. unfold allocateSpend. by intros ->. Qed.

(** An absent NGO is rejected by [queryByKey], after the checks of the
    amount and of the spend id. *)
Lemma allocateSpend_ngo_absent fuel (st : gmap string (payload num)) txID spend log x ngo :
  valid_amount spend = Some x ->
  truthy (alist_get spend "spendId") = true ->
  to_string (alist_get spend "ngoRegistrationNumber") = Some ngo ->
  st !! ("ngo" +:+ ngo) = None ->
  allocateSpend fuel st txID spend log = (Throw (ErrKeyDoesNotExist ("ngo" +:+ ngo)), log).
Proof.
  unfold allocateSpend. intros -> -> -> E. simpl.
  unfold tx_bind, tx_lift, queryByKey, getState. simpl. by rewrite E.
Qed.

End PointLookup.

(** What line 162 accepts on binary64 numbers: every number other than
    0, NaN and the infinities, whatever its sign. *)
Lemma valid_amount_float (spend : @obj float) (x : float) :
  valid_amount spend = Some x <->
  alist_get spend "spendAmount" = Some (VNum x)
  /\ PrimFloat.eqb x 0%float = false /\ PrimFloat.is_nan x = false
  /\ PrimFloat.is_infinity x = false.
Proof.
  unfold valid_amount, num_truthy, num_isFinite, float_number, PrimFloat.is_nan.
  destruct (alist_get spend "spendAmount") as [[| |y| | |]|];
    try (split; [done|intros [? _]; done]).
  destruct (PrimFloat.eqb y 0) eqn:E0, (PrimFloat.eqb y y) eqn:En,
    (PrimFloat.is_infinity y) eqn:Ei; simpl; split;
    try discriminate;
    try (intros [[= <-] (H1 & H2 & H3)]; rewrite ?E0, ?En, ?Ei in *; discriminate).
  - intros [= <-]. by rewrite E0, En, Ei.
  - by intros [[= <-] _].
Qed.

(** ** Objects and commits *)

Section Objects.
Context {V : Type}.

Lemma alist_get_set_eq (m : list (string * V)) k v :
  alist_get (alist_set m k v) k = Some v.
Proof.
  induction m as [|[k' v'] m IH]; simpl.
  - by rewrite String.eqb_refl.
  - destruct (String.eqb k k') eqn:E; simpl.
    + by rewrite String.eqb_refl.
    + by rewrite E.
Qed.

Lemma alist_get_set_ne (m : list (string * V)) k k' v :
  k <> k' -> alist_get (alist_set m k v) k' = alist_get m k'.
Proof.
  intros Hne. induction m as [|[k0 v0] m IH]; simpl.
  - destruct (String.eqb k' k) eqn:E; [|done].
    apply String.eqb_eq in E. congruence.
  - destruct (String.eqb k k0) eqn:E; simpl.
    + apply String.eqb_eq in E as <-.
      destruct (String.eqb k' k) eqn:E'; [|done].
      apply String.eqb_eq in E'. congruence.
    + by rewrite IH.
Qed.

Lemma alist_set_idem (m : list (string * V)) k v :
  alist_set (alist_set m k v) k v = alist_set m k v.
Proof.
  induction m as [|[k' v'] m IH]; simpl.
  - by rewrite String.eqb_refl.
  - destruct (String.eqb k k') eqn:E; simpl.
    + by rewrite String.eqb_refl.
    + by rewrite E, IH.
Qed.

End Objects.

Section Commit.
Context {num : Type} `{!JSNumber num}.

Lemma commit_snoc (st : gmap string (payload num)) log k v :
  commit st (log ++ [(k, v)]) = <[k := v]> (commit st log).
Proof. unfold commit. by rewrite foldl_app. Qed.


End Commit.

(** ** Query filtering *)

Section QueryFilter.
Context {num : Type} `{!JSNumber num}.

#[local] Arguments truthy : simpl never.
#[local] Arguments loose_eq : simpl never.
#[local] Arguments to_string : simpl never.

Lemma scan_loop_unfiltered (kv : string * value num) (scanned : list (string * payload num)) :
  scan_loop [kv] scanned
  = Ok (map to_entry (List.filter (fun e => negb (is_empty e.2)) scanned)).
Proof.
  induction scanned as [|[k p] rest IH]; simpl; [done|].
  destruct (is_empty p); simpl; [done|]. by rewrite IH.
Qed.


Lemma builtin_member_inherited (f : string) :
  builtin_member f = false -> inherited f = false.
Proof.
  unfold builtin_member. destruct (inherited f); [done|reflexivity].
Qed.

(** The [for ... in] loop over a selector with one field besides
    [docType], in either order. *)
Lemma filter_pushes_one jsonRecord dt f wanted (jsonRes : @entry num) :
  f <> "docType" -> builtin_member f = false ->
  printable dt = true -> printable wanted = true ->
  jsonRecord = [("docType", dt); (f, wanted)] \/ jsonRecord = [(f, wanted); ("docType", dt)] ->
  comparable f wanted (Rec jsonRes) ->
  filter_pushes jsonRecord jsonRes
  = Ok (if field_matches f wanted (Rec jsonRes) then [jsonRes] else []).
Proof.
  intros Hf Hb Hdt Hw Hsel Hcmp.
  pose proof (builtin_member_inherited f Hb) as Hinh.
  assert (String.eqb f "docType" = false) as Ef by by apply String.eqb_neq.
  unfold comparable, field_matches in *.
  destruct (Rec jsonRes) as [| | | | |o] eqn:Er; try done;
    try (destruct Hsel as [-> | ->]; simpl;
         repeat (rewrite ?Hdt, ?Hw, ?Ef, ?Er, ?Hb; simpl); done).
  revert Hcmp.
  destruct Hsel as [-> | ->]; simpl;
    repeat (rewrite ?Hdt, ?Hw, ?Ef, ?Er; simpl);
    (destruct (alist_get o f) as [g|]; simpl; [|by rewrite Hinh]);
    intros [Hg Hcmp]; rewrite Hg; simpl;
    (destruct (truthy (Some g)) eqn:Et; simpl; [|done]);
    destruct (loose_eq g wanted) as [[|]|]; simpl; try done;
    by specialize (Hcmp eq_refl).
Qed.

(** On a record that parses to [null] the loop throws at the first field
    it reads (line 114). *)
Lemma filter_pushes_null jsonRecord dt f wanted (jsonRes : @entry num) :
  f <> "docType" ->
  printable dt = true -> printable wanted = true ->
  jsonRecord = [("docType", dt); (f, wanted)] \/ jsonRecord = [(f, wanted); ("docType", dt)] ->
  Rec jsonRes = VNull ->
  filter_pushes jsonRecord jsonRes = Throw ErrTypeError.
Proof.
  intros Hf Hdt Hw Hsel Er.
  assert (String.eqb f "docType" = false) as Ef by by apply String.eqb_neq.
  destruct Hsel as [-> | ->]; simpl;
    repeat (rewrite ?Hdt, ?Hw, ?Ef, ?Er; simpl); done.
Qed.




End QueryFilter.

(** ** Determinism *)

Section Determinism.
Context {num : Type} `{!JSNumber num}.

(** The two queries of [allocateSpend] read the world state only through
    one range scan each. *)
Lemma queryByString_donations (st : gmap string (payload num)) ngo :
  queryByString st (ngo_query "donation" ngo)
  = scan_loop [("docType", VStr "donation"); ("ngoRegistrationNumber", VStr ngo)]
              (getStateByRange st "donation0" "donationz").
Proof. reflexivity. Qed.

Lemma queryByString_spendAllocations (st : gmap string (payload num)) ngo :
  queryByString st (ngo_query "spendAllocation" ngo)
  = scan_loop [("docType", VStr "spendAllocation"); ("ngoRegistrationNumber", VStr ngo)]
              (getStateByRange st "spendAllocation0" "spendAllocationz").
Proof. reflexivity. Qed.

(** C2. Determinism: from two world states with the same history (the
    same NGO documents, donation records and spend allocation records), the
    same spend request and the same transaction id, [allocateSpend] ends the
    same way with the same write log: same keys, same contents, same order.
    The log of a successful run is the spend document followed by the
    allocation records, whose ids are the transaction id, a dash and a
    counter that starts at 0 and grows by one per record. *)
Theorem allocateSpend_deterministic fuel (st1 st2 : gmap string (payload num)) txID spend :
  same_history st1 st2 ->
  allocateSpend fuel st1 txID spend [] = allocateSpend fuel st2 txID spend []
  /\ forall spend' log,
       allocateSpend fuel st1 txID spend [] = (Ok spend', log) ->
       exists spendId,
         to_string (alist_get spend "spendId") = Some spendId
         /\ map fst log = ("spend" +:+ spendId)
                          :: map (allocation_key txID) (seq 0 (length log - 1))
         /\ allocation_writes txID spend' (alist_get spend "ngoRegistrationNumber")
                              0 (tail log).
Proof.
  intros (Hngo & Hd & Hs). split.
  - unfold allocateSpend, queryByKey.
    destruct (valid_amount spend); [|done].
    destruct (negb _); [done|].
    unfold tx_bind, tx_lift.
    destruct (supported _) as [ngoStr| | |]; try done.
    rewrite !queryByString_donations, !queryByString_spendAllocations.
    by rewrite Hngo, Hd, Hs.
  - intros spend' log E.
    apply allocateSpend_ok_log in E as (-> & spendId & new & Hid & -> & Hnew).
    rewrite alist_get_set_ne in Hid by done.
    exists spendId. split; [done|]. simpl. rewrite Nat.sub_0_r.
    split; [|done]. f_equal. by eapply (allocation_writes_keys _ _ _ _ 0).
Qed.

End Determinism.

(** ** The allocation round in exact arithmetic *)

Section ExactRound.
Local Open Scope Q_scope.

#[local] Arguments availableAmountForDonor : simpl never.
#[local] Arguments add_spend : simpl never.
#[local] Arguments take : simpl never.

Lemma Qsum_app (l1 l2 : list Q) : Qsum (l1 ++ l2) == Qsum l1 + Qsum l2.
Proof.
  induction l1 as [|x l1 IH]; simpl; [lra|]. rewrite IH. lra.
Qed.

Lemma allocations_app {num : Type} (l1 l2 : list (@write num)) :
  allocations (l1 ++ l2) = allocations l1 ++ allocations l2.
Proof. unfold allocations. apply omap_app. Qed.

Lemma amounts_for_app {num : Type} id (l1 l2 : list (string * num)) :
  amounts_for id (l1 ++ l2) = amounts_for id l1 ++ amounts_for id l2.
Proof. unfold amounts_for. by rewrite List.filter_app, map_app. Qed.

(** An allocation record is read back as its donation and amount. *)
Lemma allocation_of_record {num : Type} txID (spend : @obj num) ngo i donationId amount :
  allocation_of ((spendAllocationRecord txID spend ngo i donationId amount).1,
                 Json (VObj (spendAllocationRecord txID spend ngo i donationId amount).2))
  = Some (donationId, amount).
Proof.
  unfold allocation_of, spendAllocationRecord, field. simpl.
  by destruct (alist_get spend "spendDate"), (alist_get spend "spendDescription").
Qed.

Lemma spent_add_spend_eq sm k a : spent (add_spend sm k a) k == spent sm k + a.
Proof.
  unfold add_spend, spent.
  destruct (alist_get sm k) as [x|] eqn:E; rewrite alist_get_set_eq; simpl; lra.
Qed.

Lemma spent_add_spend_ne sm k k' a : k <> k' -> spent (add_spend sm k a) k' = spent sm k'.
Proof.
  intros Hne. unfold add_spend, spent.
  destruct (alist_get sm k); by rewrite alist_get_set_ne.
Qed.

Lemma available_spent sm (d : string * Q) :
  availableAmountForDonor sm d = d.2 - spent sm d.1.
Proof. reflexivity. Qed.

Lemma available_add_spend_ne sm k a (d : string * Q) :
  k <> d.1 ->
  availableAmountForDonor (add_spend sm k a) d = availableAmountForDonor sm d.
Proof. intros Hne. by rewrite !available_spent, spent_add_spend_ne. Qed.

Lemma round_total_add_spend share dm sm k a :
  k ∉ map fst dm ->
  round_total share dm (add_spend sm k a) = round_total share dm sm.
Proof.
  induction dm as [|d rest IH]; simpl; [done|].
  intros Hk. apply not_elem_of_cons in Hk as [Hne Hk].
  by rewrite IH, available_add_spend_ne.
Qed.

Lemma taken_by_add_spend id share dm sm k a :
  k ∉ map fst dm ->
  taken_by id share dm (add_spend sm k a) = taken_by id share dm sm.
Proof.
  induction dm as [|d rest IH]; simpl; [done|].
  intros Hk. apply not_elem_of_cons in Hk as [Hne Hk].
  by rewrite IH, available_add_spend_ne.
Qed.

Lemma taken_by_absent id share dm sm :
  id ∉ map fst dm -> taken_by id share dm sm == 0.
Proof.
  induction dm as [|d rest IH]; simpl; [lra|].
  intros Hk. apply not_elem_of_cons in Hk as [Hne Hk].
  rewrite IH by done.
  destruct (String.eqb d.1 id) eqn:E; [|lra].
  apply String.eqb_eq in E. congruence.
Qed.

Lemma allocate_inv {num : Type} `{!JSNumber num} txID spend ngo donationId amount
    (s s' : @alloc_state num) log log' :
  allocate txID spend ngo donationId amount s log = (Ok s', log') ->
  (exists w, log' = log ++ [w] /\ allocation_of w = Some (donationId, amount))
  /\ spendAmount s' = num_sub (spendAmount s) amount
  /\ donationSpendMap s' = add_spend (donationSpendMap s) donationId amount.
Proof.
  unfold allocate, tx_bind, putState, tx_ret. intros [= <- <-].
  split; [|done]. eexists. split; [reflexivity|]. apply allocation_of_record.
Qed.

Lemma amounts_for_one id (d : string) (a : Q) :
  Qsum (amounts_for id [(d, a)]) == if String.eqb d id then a else 0.
Proof. unfold amounts_for. simpl. destruct (String.eqb d id); simpl; lra. Qed.

(** One round in exact arithmetic: every donation receives [take] of what
    was available to it when the round began. *)
Lemma allocate_round_exact txID spend ngo share dm :
  forall (s s' : @alloc_state Q) log log',
    NoDup (map fst dm) ->
    allocate_round txID spend ngo share dm s log = (Ok s', log') ->
    exists new,
      log' = log ++ new
      /\ spendAmount s' == spendAmount s - round_total share dm (donationSpendMap s)
      /\ (forall id, spent (donationSpendMap s') id
                     == spent (donationSpendMap s) id
                        + taken_by id share dm (donationSpendMap s))
      /\ (forall id, Qsum (amounts_for id (allocations new))
                     == taken_by id share dm (donationSpendMap s))
      /\ Qsum (map snd (allocations new)) == round_total share dm (donationSpendMap s).
Proof.
  induction dm as [|d rest IH]; intros s s' log log' Hnd; simpl.
  - intros [= <- <-]. exists []. rewrite app_nil_r. simpl.
    repeat split; intros; simpl; lra.
  - apply NoDup_cons in Hnd as [Hd Hnd].
    unfold tx_bind at 1.
    set (step := if Qle_bool share _ then _ else _).
    destruct (step log) as [[s1| | |] log1] eqn:E; try discriminate.
    intros Hrest. apply (IH _ _ _ _ Hnd) in Hrest as (new & -> & HS & Hsp & Ham & Htot).
    subst step. unfold take.
    destruct (Qle_bool share (availableAmountForDonor (donationSpendMap s) d)) eqn:E1;
      [|destruct (Qltb 0 (availableAmountForDonor (donationSpendMap s) d)) eqn:E2].
    1,2: apply allocate_inv in E as ((w & -> & Hw) & HS1 & Hm1); simpl in HS1;
         rewrite HS1 in HS; rewrite Hm1 in *;
         rewrite round_total_add_spend in * by done;
         exists (w :: new); rewrite <- app_assoc; split; [done|];
         split; [lra|];
         assert (allocations (w :: new) = (d.1, _) :: allocations new) as ->
           by (unfold allocations; simpl; by rewrite Hw);
         (split; [|split]);
         [ intros id; rewrite Hsp, taken_by_add_spend by done;
           destruct (String.eqb d.1 id) eqn:Eid;
           [ apply String.eqb_eq in Eid as <-; rewrite spent_add_spend_eq; lra
           | apply String.eqb_neq in Eid; rewrite spent_add_spend_ne by done; lra ]
         | intros id;
           change ((d.1, ?a) :: allocations new) with ([(d.1, a)] ++ allocations new);
           rewrite amounts_for_app, Qsum_app, amounts_for_one, Ham,
             taken_by_add_spend by done; lra
         | simpl; rewrite Htot; lra ].
    injection E as <- <-. exists new. split; [done|]. split; [lra|].
    split; [|split].
    + intros id. rewrite Hsp. destruct (String.eqb d.1 id); lra.
    + intros id. rewrite Ham. destruct (String.eqb d.1 id); lra.
    + rewrite Htot. lra.
Qed.

Lemma Qle_bool_false x y : Qle_bool x y = false <-> y < x.
Proof.
  rewrite <- not_true_iff_false, Qle_bool_iff. split; [apply Qnot_le_lt|apply Qlt_not_le].
Qed.

Lemma Qltb_true x y : Qltb x y = true <-> x < y.
Proof. unfold Qltb. by rewrite negb_true_iff, Qle_bool_false. Qed.

Lemma Qltb_false x y : Qltb x y = false <-> y <= x.
Proof. unfold Qltb. by rewrite negb_false_iff, Qle_bool_iff. Qed.

(** [take] never exceeds the share nor what is available, and is zero for
    a donation without available funds. *)
Lemma take_spec share a :
  0 < share ->
  0 <= take share a /\ take share a <= share
  /\ (0 < a -> take share a <= a /\ 0 < take share a)
  /\ (a <= 0 -> take share a == 0)
  /\ (share <= a -> take share a == share)
  /\ (0 < a -> a < share -> take share a == a).
Proof.
  intros Hs. unfold take.
  destruct (Qle_bool share a) eqn:E1.
  - apply Qle_bool_iff in E1. repeat split; intros; lra.
  - apply Qle_bool_false in E1.
    destruct (Qltb 0 a) eqn:E2.
    + apply Qltb_true in E2. repeat split; intros; lra.
    + apply Qltb_false in E2. repeat split; intros; lra.
Qed.

Lemma count_available_cons (d : string * Q) rest sm :
  count_available (d :: rest) sm
  = ((if Qltb 0 (availableAmountForDonor sm d) then 1 else 0)
     + count_available rest sm)%nat.
Proof. reflexivity. Qed.

(** A round takes at most one share per donation that has funds. *)
Lemma round_total_bound share dm sm :
  0 < share ->
  0 <= round_total share dm sm
  /\ round_total share dm sm <= inject_Z (Z.of_nat (count_available dm sm)) * share.
Proof.
  intros Hs. induction dm as [|d rest [IH0 IH]].
  - simpl. change (inject_Z (Z.of_nat 0)) with 0. lra.
  - rewrite count_available_cons. simpl round_total.
    pose proof (take_spec share (availableAmountForDonor sm d) Hs)
      as (H0 & H1 & _ & H3 & _).
    rewrite Nat2Z.inj_add, inject_Z_plus.
    destruct (Qltb 0 (availableAmountForDonor sm d)) eqn:E.
    + change (inject_Z (Z.of_nat 1)) with 1. split; [lra|]. lra.
    + apply Qltb_false in E. specialize (H3 E).
      change (inject_Z (Z.of_nat 0)) with 0. split; [lra|]. lra.
Qed.

Lemma taken_by_in id d share dm sm :
  NoDup (map fst dm) -> (id, d) ∈ dm ->
  taken_by id share dm sm == take share (availableAmountForDonor sm (id, d)).
Proof.
  induction dm as [|d0 rest IH]; intros Hnd Hin; [by apply elem_of_nil in Hin|].
  apply NoDup_cons in Hnd as [Hd Hnd]. simpl.
  apply elem_of_cons in Hin as [<- | Hin].
  - simpl. rewrite String.eqb_refl, taken_by_absent by done. lra.
  - rewrite IH by done.
    destruct (String.eqb d0.1 id) eqn:E; [|lra].
    apply String.eqb_eq in E. exfalso. apply Hd. rewrite E.
    apply list_elem_of_In, (in_map fst _ (id, d)). by apply list_elem_of_In.
Qed.

Lemma taken_by_nonneg id share dm sm : 0 < share -> 0 <= taken_by id share dm sm.
Proof.
  intros Hs. induction dm as [|d rest IH]; simpl; [lra|].
  pose proof (take_spec share (availableAmountForDonor sm d) Hs) as (H0 & _).
  destruct (String.eqb d.1 id); lra.
Qed.

(** The share of a round is positive and [n] shares make up the amount
    that is left. *)
Lemma share_spec (S : Q) (n : nat) :
  0 < S -> (n =? 0)%nat = false ->
  0 < S / inject_Z (Z.of_nat n)
  /\ inject_Z (Z.of_nat n) * (S / inject_Z (Z.of_nat n)) == S.
Proof.
  intros HS Hn. apply Nat.eqb_neq in Hn.
  assert (0 < inject_Z (Z.of_nat n)) as HN.
  { change 0 with (inject_Z 0). rewrite <- Zlt_Qlt. lia. }
  split.
  - apply Qlt_shift_div_l; [done|]. lra.
  - field. lra.
Qed.

(** The loop in exact arithmetic, when it ends normally: the records it
    writes add up to the amount it started with, and no donation that was
    within its amount is pushed beyond it. *)
Lemma allocate_loop_exact fuel txID spend ngo dm :
  forall (s : @alloc_state Q) log log',
    NoDup (map fst dm) ->
    0 <= spendAmount s ->
    allocate_loop fuel txID spend ngo dm s log = (Ok tt, log') ->
    exists new sm',
      log' = log ++ new
      /\ Qsum (map snd (allocations new)) == spendAmount s
      /\ (forall id, spent sm' id
                     == spent (donationSpendMap s) id
                        + Qsum (amounts_for id (allocations new)))
      /\ (forall id d, (id, d) ∈ dm ->
                       spent (donationSpendMap s) id <= d -> spent sm' id <= d)
      /\ (forall id, 0 <= Qsum (amounts_for id (allocations new))).
Proof.
  induction fuel as [|fuel IH]; intros s log log' Hnd H0; simpl; [discriminate|].
  destruct (Qle_bool (spendAmount s) 0) eqn:E0.
  { apply Qle_bool_iff in E0. intros [= <-].
    exists [], (donationSpendMap s). rewrite app_nil_r. simpl.
    repeat split; intros; simpl; try lra. }
  apply Qle_bool_false in E0.
  destruct (negb _); [discriminate|].
  destruct (_ =? _)%nat eqn:En; [discriminate|].
  destruct (negb _); [discriminate|].
  set (n := count_available dm (donationSpendMap s)) in *.
  destruct (share_spec (spendAmount s) n E0 En) as [Hshare Hn].
  set (share := spendAmount s / inject_Z (Z.of_nat n)) in *.
  unfold tx_bind.
  destruct (allocate_round _ _ _ _ _ _ _) as [[s1| | |] log1] eqn:E; try discriminate.
  apply (allocate_round_exact _ _ _ _ _ _ _ _ _ Hnd) in E
    as (new1 & -> & HS1 & Hsp1 & Ham1 & Htot1).
  pose proof (round_total_bound share dm (donationSpendMap s) Hshare) as [Hr0 Hr].
  fold n in Hr.
  intros Hrest. apply IH in Hrest as (new2 & sm' & -> & Hsum2 & Hsp2 & Hle2 & Hnn2);
    [|done|lra].
  exists (new1 ++ new2), sm'. rewrite app_assoc. split; [done|].
  rewrite allocations_app, map_app, Qsum_app.
  split; [lra|]. split; [|split].
  - intros id. rewrite amounts_for_app, Qsum_app, Hsp2, Hsp1, Ham1. lra.
  - intros id d Hin Hle. apply (Hle2 id d Hin).
    rewrite Hsp1, (taken_by_in id d) by done.
    pose proof (take_spec share (availableAmountForDonor (donationSpendMap s) (id, d))
                  Hshare) as (_ & _ & Hpos & Hneg & _).
    rewrite available_spent in *. simpl in *.
    destruct (Qlt_le_dec 0 (d - spent (donationSpendMap s) id)) as [Hp|Hp].
    + destruct (Hpos Hp). lra.
    + rewrite (Hneg Hp). lra.
  - intros id. rewrite amounts_for_app, Qsum_app, Ham1.
    pose proof (taken_by_nonneg id share dm (donationSpendMap s) Hshare).
    specialize (Hnn2 id). lra.
Qed.

End ExactRound.

(** ** Conservation in exact arithmetic *)

Section ExactCall.
Local Open Scope Q_scope.

Lemma alist_set_keys {V : Type} (m : list (string * V)) k v k' :
  k' ∈ map fst (alist_set m k v) -> k' = k \/ k' ∈ map fst m.
Proof.
  induction m as [|[k0 v0] m IH]; simpl.
  - intros Hin. apply list_elem_of_singleton in Hin. by left.
  - destruct (String.eqb k k0) eqn:E; simpl.
    + apply String.eqb_eq in E as <-. by right.
    + intros Hin. apply elem_of_cons in Hin as [-> | Hin].
      * right. apply elem_of_cons. by left.
      * destruct (IH Hin) as [-> | H]; [by left|].
        right. apply elem_of_cons. by right.
Qed.

(** A [Map] never holds a key twice. *)
Lemma alist_set_NoDup {V : Type} (m : list (string * V)) k v :
  NoDup (map fst m) -> NoDup (map fst (alist_set m k v)).
Proof.
  induction m as [|[k0 v0] m IH]; simpl.
  - intros _. apply NoDup_singleton.
  - intros Hnd. apply NoDup_cons in Hnd as [Hk0 Hnd].
    destruct (String.eqb k k0) eqn:E; simpl.
    + apply String.eqb_eq in E as <-. by apply NoDup_cons.
    + apply String.eqb_neq in E. apply NoDup_cons. split; [|by apply IH].
      intros Hin. apply alist_set_keys in Hin as [-> | Hin]; done.
Qed.

Lemma load_donations_NoDup {num : Type} `{!JSNumber num} (ds : list (@entry num)) :
  forall total dm total' dm',
    NoDup (map fst dm) ->
    load_donations ds total dm = Ok (total', dm') ->
    NoDup (map fst dm').
Proof.
  induction ds as [|d ds IH]; intros total dm total' dm' Hnd; simpl.
  - by intros [= _ <-].
  - destruct (get_prop (Rec d) "donationAmount") as [amount| | |]; try discriminate.
    simpl. destruct (supported (get_number amount)) as [x| | |]; try discriminate.
    simpl. destruct (get_prop (Rec d) "donationId") as [id| | |]; try discriminate.
    simpl. destruct (supported (get_string id)) as [i| | |]; try discriminate.
    simpl. apply IH. by apply alist_set_NoDup.
Qed.

(** The spend document is not counted as an allocation record. *)
Lemma allocation_of_spend {num : Type} key (spend : @obj num) :
  allocation_of (key, Json (VObj (alist_set spend "docType" (VStr "spend")))) = None.
Proof. unfold allocation_of. simpl. by rewrite alist_get_set_eq. Qed.

(** C1 (as the code has it). Conservation in exact arithmetic: when
    [allocateSpend] completes for a request with a positive amount, the
    amounts of the allocation records it writes add up to the spend amount
    exactly, provided no operation rounds.  On binary64 the sum agrees with
    the spend amount only up to rounding. *)
Theorem allocateSpend_conservation_exact fuel (st : gmap string (payload Q)) txID
    spend spend' log amount :
  allocateSpend fuel st txID spend [] = (Ok spend', log) ->
  valid_amount spend = Some amount ->
  0 < amount ->
  Qsum (map snd (allocations log)) == amount.
Proof.
  intros E Ha Hpos.
  apply allocateSpend_ok_inv in E
    as (amount' & ngoStr & ds & td & dm & sas & ts & sm & spendId
        & Ha' & _ & _ & _ & _ & Hld & _ & _ & _ & -> & _ & Hloop).
  assert (amount' = amount) as -> by congruence.
  apply load_donations_NoDup in Hld; [|apply NoDup_nil_2].
  apply allocate_loop_exact in Hloop as (new & sm' & -> & Hsum & _);
    [|done|simpl; lra].
  simpl app. unfold allocations at 1. simpl omap.
  rewrite allocation_of_spend. exact Hsum.
Qed.

End ExactCall.

(** ** Progress of the loop in exact arithmetic *)

Section ExactProgress.
Local Open Scope Q_scope.

#[local] Arguments availableAmountForDonor : simpl never.
#[local] Arguments take : simpl never.

Lemma available_total_after_round share dm sm sm1 :
  0 < share -> after_round share dm sm sm1 ->
  available_total dm sm1 == available_total dm sm - round_total share dm sm.
Proof.
  intros Hs. unfold after_round. induction 1 as [|d rest Hd _ IH]; simpl; [lra|].
  rewrite IH.
  pose proof (take_spec share (availableAmountForDonor sm d) Hs)
    as (H0 & H1 & Hpos & Hneg & Hge & Hlt).
  destruct (Qltb 0 (availableAmountForDonor sm1 d)) eqn:E1;
    destruct (Qltb 0 (availableAmountForDonor sm d)) eqn:E;
    rewrite ?Qltb_true, ?Qltb_false in *.
  - lra.
  - specialize (Hneg E). lra.
  - destruct (Hpos E). lra.
  - specialize (Hneg E). lra.
Qed.

(** A round never makes a donation eligible again; if no donation drops
    out, every eligible one received a full share. *)
Lemma count_available_after_round share dm sm sm1 :
  0 < share -> after_round share dm sm sm1 ->
  (count_available dm sm1 <= count_available dm sm)%nat
  /\ (count_available dm sm1 = count_available dm sm ->
      round_total share dm sm == inject_Z (Z.of_nat (count_available dm sm)) * share).
Proof.
  intros Hs. unfold after_round.
  induction 1 as [|d rest Hd _ [IHle IHeq]].
  - simpl. split; [lia|]. intros _. change (inject_Z (Z.of_nat 0)) with 0. lra.
  - rewrite !count_available_cons. simpl round_total.
    pose proof (take_spec share (availableAmountForDonor sm d) Hs)
      as (H0 & H1 & Hpos & Hneg & Hge & Hlt).
    rewrite Nat2Z.inj_add, inject_Z_plus.
    destruct (Qltb 0 (availableAmountForDonor sm1 d)) eqn:E1;
      destruct (Qltb 0 (availableAmountForDonor sm d)) eqn:E;
      rewrite ?Qltb_true, ?Qltb_false in *.
    + split; [lia|]. intros Heq. rewrite IHeq by lia.
      change (inject_Z (Z.of_nat 1)) with 1.
      destruct (Qlt_le_dec (availableAmountForDonor sm d) share) as [Hl|Hl].
      * specialize (Hlt E Hl). lra.
      * specialize (Hge Hl). lra.
    + specialize (Hneg E). lra.
    + split; [lia|]. intros Heq. lia.
    + split; [lia|]. intros Heq. rewrite IHeq by lia.
      change (inject_Z (Z.of_nat 0)) with 0. specialize (Hneg E). lra.
Qed.

Lemma available_total_none dm sm :
  count_available dm sm = 0%nat -> available_total dm sm == 0.
Proof.
  induction dm as [|d rest IH]; simpl; [lra|].
  destruct (Qltb 0 (availableAmountForDonor sm d)); [discriminate|].
  simpl. intros H. rewrite IH by done. lra.
Qed.

Lemma allocate_round_after txID spend ngo share dm (s s' : @alloc_state Q) log log' :
  NoDup (map fst dm) ->
  allocate_round txID spend ngo share dm s log = (Ok s', log') ->
  after_round share dm (donationSpendMap s) (donationSpendMap s').
Proof.
  intros Hnd E.
  apply (allocate_round_exact _ _ _ _ _ _ _ _ _ Hnd) in E as (new & _ & _ & Hsp & _).
  unfold after_round. apply Forall_forall. intros [id d] Hin.
  rewrite !available_spent. simpl. rewrite Hsp, (taken_by_in id d) by done.
  rewrite available_spent. simpl. lra.
Qed.

(** In exact arithmetic the loop ends normally: as long as the amount
    left is covered by the available funds, some donation is eligible, and
    every round either allocates all that is left or exhausts a donation. *)
Lemma allocate_loop_completes fuel txID spend ngo dm :
  forall (s : @alloc_state Q) log,
    NoDup (map fst dm) ->
    spendAmount s <= available_total dm (donationSpendMap s) ->
    (count_available dm (donationSpendMap s) < fuel)%nat ->
    exists log', allocate_loop fuel txID spend ngo dm s log = (Ok tt, log').
Proof.
  induction fuel as [|fuel IH]; intros s log Hnd Hinv Hfuel; [lia|].
  simpl.
  destruct (Qle_bool (spendAmount s) 0) eqn:E0; [by eexists|].
  apply Qle_bool_false in E0.
  assert (Qeq_bool (spendAmount s) 0 = false) as ->.
  { apply not_true_iff_false. rewrite Qeq_bool_iff. lra. }
  simpl.
  destruct (count_available dm (donationSpendMap s) =? 0)%nat eqn:En.
  { apply Nat.eqb_eq in En. apply available_total_none in En. lra. }
  destruct (share_spec (spendAmount s) _ E0 En) as [Hshare Hn].
  set (n := count_available dm (donationSpendMap s)) in *.
  set (share := spendAmount s / inject_Z (Z.of_nat n)) in *.
  assert (Qeq_bool share 0 = false) as ->.
  { apply not_true_iff_false. rewrite Qeq_bool_iff. lra. }
  simpl. unfold tx_bind.
  destruct (allocate_round_ok txID spend ngo share dm s log) as (s1 & log1 & E).
  rewrite E.
  pose proof (allocate_round_after _ _ _ _ _ _ _ _ _ Hnd E) as Hafter.
  apply (allocate_round_exact _ _ _ _ _ _ _ _ _ Hnd) in E as (new & _ & HS1 & _).
  pose proof (available_total_after_round _ _ _ _ Hshare Hafter) as Htot.
  pose proof (count_available_after_round _ _ _ _ Hshare Hafter) as [Hle Heq].
  fold n in Hle, Heq.
  destruct (decide (count_available dm (donationSpendMap s1) = n)) as [Hsame|Hless].
  - specialize (Heq Hsame).
    destruct fuel as [|fuel']; [apply Nat.eqb_neq in En; lia|].
    simpl.
    assert (Qle_bool (spendAmount s1) 0 = true) as ->; [|by eexists].
    apply Qle_bool_iff. lra.
  - apply IH; [done|lra|lia].
Qed.

Lemma count_available_length {num : Type} `{!JSNumber num} (dm sm : list (string * num)) :
  (count_available dm sm <= length dm)%nat.
Proof.
  induction dm as [|d rest IH]; simpl; [lia|].
  destruct (num_ltb _ _); lia.
Qed.

Lemma donations_of_unfold {num : Type} `{!JSNumber num} (st : gmap string (payload num))
    ngo :
  donations_of st ngo
  = if json_safe ngo
    then let* ds := queryByString st (ngo_query "donation" ngo) in
         load_donations ds num_zero []
    else Unsupported.
Proof. unfold donations_of. by destruct (json_safe ngo). Qed.

Lemma allocated_of_unfold {num : Type} `{!JSNumber num} (st : gmap string (payload num))
    ngo :
  allocated_of st ngo
  = if json_safe ngo
    then let* sas := queryByString st (ngo_query "spendAllocation" ngo) in
         load_spend sas num_zero []
    else Unsupported.
Proof. unfold allocated_of. by destruct (json_safe ngo). Qed.

(** [allocateSpend] past its checks is the spend record followed by the
    loop. *)
Lemma allocateSpend_run {num : Type} `{!JSNumber num} fuel (st : gmap string (payload num))
    txID spend log amount spendId ngoStr td dm ts sm log' :
  let spend' := alist_set spend "docType" (VStr "spend") in
  valid_amount spend = Some amount ->
  truthy (alist_get spend "spendId") = true ->
  to_string (alist_get spend "spendId") = Some spendId ->
  to_string (alist_get spend "ngoRegistrationNumber") = Some ngoStr ->
  is_empty (getState st ("ngo" +:+ ngoStr)) = false ->
  json_safe ngoStr = true ->
  donations_of st ngoStr = Ok (td, dm) ->
  allocated_of st ngoStr = Ok (ts, sm) ->
  num_ltb (num_sub td ts) amount = false ->
  allocate_loop fuel txID spend' (alist_get spend "ngoRegistrationNumber") dm
                (mkState amount sm 0)
                (log ++ [("spend" +:+ spendId, Json (VObj spend'))]) = (Ok tt, log') ->
  allocateSpend fuel st txID spend log = (Ok spend', log').
Proof.
  intros spend' Ha Hid Hids Hngo He Hs Hd Hal Hf Hloop.
  unfold allocateSpend, tx_bind, tx_lift, putState, tx_ret, queryByKey.
  rewrite Ha, Hid, Hngo. simpl. rewrite He, Hs. simpl.
  rewrite donations_of_unfold, Hs in Hd. rewrite allocated_of_unfold, Hs in Hal.
  destruct (queryByString st (ngo_query "donation" ngoStr)) as [ds| | |]; try discriminate.
  simpl in Hd. rewrite Hd.
  destruct (queryByString st (ngo_query "spendAllocation" ngoStr)) as [sas| | |];
    try discriminate.
  simpl in Hal. rewrite Hal, Hf.
  rewrite alist_get_set_ne by done. rewrite Hids. simpl.
  rewrite He. cbv beta iota. subst spend'.
  destruct (allocate_loop _ _ _ _ _ _ _) as [r l] eqn:E'.
  by injection Hloop as -> ->.
Qed.

(** In exact arithmetic a spend request that passes the checks of
    [allocateSpend] is carried out: when the funds it asks for are covered
    by the positive balances of the donations ([totalDonations - totalSpend]
    is at most their sum), the loop never reaches one of its three error
    branches and ends within one round per donation, plus one. *)
Theorem allocateSpend_completes_exact fuel (st : gmap string (payload Q)) txID spend
    amount spendId ngoStr td dm ts sm :
  valid_amount spend = Some amount ->
  truthy (alist_get spend "spendId") = true ->
  to_string (alist_get spend "spendId") = Some spendId ->
  to_string (alist_get spend "ngoRegistrationNumber") = Some ngoStr ->
  is_empty (getState st ("ngo" +:+ ngoStr)) = false ->
  json_safe ngoStr = true ->
  donations_of st ngoStr = Ok (td, dm) ->
  allocated_of st ngoStr = Ok (ts, sm) ->
  amount <= td - ts ->
  td - ts <= available_total dm sm ->
  (length dm < fuel)%nat ->
  exists spend' log, allocateSpend fuel st txID spend [] = (Ok spend', log).
Proof.
  intros Ha Hid Hids Hngo He Hs Hd Hal Hfunds Htot Hfuel.
  assert (NoDup (map fst dm)) as Hnd.
  { rewrite donations_of_unfold, Hs in Hd.
    destruct (queryByString st (ngo_query "donation" ngoStr)) as [ds| | |];
      try discriminate.
    simpl in Hd. apply load_donations_NoDup in Hd; [done|apply NoDup_nil_2]. }
  destruct (allocate_loop_completes fuel txID (alist_set spend "docType" (VStr "spend"))
              (alist_get spend "ngoRegistrationNumber") dm (mkState amount sm 0)
              ([] ++ [("spend" +:+ spendId,
                       Json (VObj (alist_set spend "docType" (VStr "spend"))))]))
    as [log' Hloop]; [done|simpl; lra| |].
  { simpl. pose proof (count_available_length dm sm). lia. }
  eexists _, log'.
  eapply allocateSpend_run; try done.
  simpl. apply Qltb_false. lra.
Qed.

End ExactProgress.

(** ** Range scans after a commit *)

Section StoreScan.
Context {num : Type} `{!JSNumber num}.

Lemma commit_cons (st : gmap string (payload num)) (w : string * payload num)
    (log : list (string * payload num)) :
  commit st (w :: log) = commit (<[w.1 := w.2]> st) log.
Proof. reflexivity. Qed.

(** A write outside a key range does not change the scan of the range. *)
Lemma scan_insert_outside (st : gmap string (payload num)) k v lo hi :
  in_range lo hi k = false ->
  getStateByRange (<[k := v]> st) lo hi = getStateByRange st lo hi.
Proof.
  intros Hk. unfold getStateByRange.
  rewrite map_filter_insert_not; [done|].
  intros y Hy. simpl in Hy. by rewrite Hk in Hy.
Qed.

(** A write of a new key inside the range adds one entry to the scan. *)
Lemma scan_insert_fresh (st : gmap string (payload num)) k v lo hi :
  in_range lo hi k = true -> st !! k = None ->
  getStateByRange (<[k := v]> st) lo hi ≡ₚ (k, v) :: getStateByRange st lo hi.
Proof.
  intros Hk Hfresh. unfold getStateByRange.
  rewrite map_filter_insert_True by (simpl; by rewrite Hk).
  rewrite !merge_sort_Permutation.
  apply map_to_list_insert. apply map_lookup_filter_None. by left.
Qed.

Lemma scan_commit_outside lo hi (log : list (string * payload num)) :
  forall st : gmap string (payload num),
    Forall (fun w => in_range lo hi w.1 = false) log ->
    getStateByRange (commit st log) lo hi = getStateByRange st lo hi.
Proof.
  induction log as [|w log IH]; intros st Hall; [done|].
  apply Forall_cons in Hall as [Hw Hall].
  rewrite commit_cons, IH by done. by apply scan_insert_outside.
Qed.

Lemma scan_commit_fresh lo hi (log : list (string * payload num)) :
  forall st : gmap string (payload num),
    NoDup (map fst log) ->
    Forall (fun w => in_range lo hi w.1 = true /\ st !! w.1 = None) log ->
    getStateByRange (commit st log) lo hi ≡ₚ log ++ getStateByRange st lo hi.
Proof.
  induction log as [|w log IH]; intros st Hnd Hall; [done|].
  simpl in Hnd. apply NoDup_cons in Hnd as [Hw Hnd].
  apply Forall_cons in Hall as [[Hin Hfresh] Hall].
  rewrite commit_cons, IH; [|done|].
  - rewrite scan_insert_fresh by done. simpl.
    destruct w as [k v]. simpl. symmetry. apply Permutation_middle.
  - apply Forall_forall. intros w' Hw'.
    rewrite Forall_forall in Hall. destruct (Hall w' Hw') as [Hin' Hfresh'].
    split; [done|]. rewrite lookup_insert_ne; [done|].
    intros Heq. apply Hw. rewrite Heq.
    apply list_elem_of_In, (in_map fst). by apply list_elem_of_In.
Qed.

End StoreScan.

(** The allocation records of one transaction have pairwise different
    keys. *)
Lemma append_inj_r (p s t : string) : p +:+ s = p +:+ t -> s = t.
Proof. induction p as [|c p IH]; simpl; [done|]. intros [= H]. by apply IH. Qed.

Lemma decimal_inj i j : decimal i = decimal j -> i = j.
Proof.
  unfold decimal. intros H.
  apply DecimalNat.Unsigned.to_uint_inj.
  assert (Some (Nat.to_uint i) = Some (Nat.to_uint j)) as [= E]; [|done].
  by rewrite <- !NilEmpty.usu, H.
Qed.

Lemma allocation_key_inj txID i j : allocation_key txID i = allocation_key txID j -> i = j.
Proof.
  unfold allocation_key. intros H.
  apply decimal_inj.
  by repeat apply append_inj_r in H.
Qed.

(** ** Queries over a permuted scan *)

Section QueryPermutation.
Context {num : Type} `{!JSNumber num}.

Lemma rbind_ok {A B} (r : result A) (k : A -> result B) b :
  rbind r k = Ok b -> exists a, r = Ok a /\ k a = Ok b.
Proof. destruct r; simpl; try discriminate. intros E. by eexists. Qed.

Lemma scan_loop_cons jsonRecord (e : string * payload num) l :
  scan_loop jsonRecord (e :: l)
  = let* a := scan_one jsonRecord e in
    let* b := scan_loop jsonRecord l in
    Ok (a ++ b).
Proof.
  destruct e as [k p]. unfold scan_one. simpl.
  destruct (is_empty p); simpl; [by destruct (scan_loop jsonRecord l)|done].
Qed.

Lemma scan_loop_app jsonRecord (l1 l2 : list (string * payload num)) :
  scan_loop jsonRecord (l1 ++ l2)
  = let* a := scan_loop jsonRecord l1 in
    let* b := scan_loop jsonRecord l2 in
    Ok (a ++ b).
Proof.
  induction l1 as [|e l1 IH].
  - simpl. by destruct (scan_loop jsonRecord l2).
  - rewrite <- app_comm_cons, !scan_loop_cons, IH.
    destruct (scan_one jsonRecord e) as [a| | |]; simpl; try done.
    destruct (scan_loop jsonRecord l1) as [b| | |]; simpl; try done.
    destruct (scan_loop jsonRecord l2) as [c| | |]; simpl; try done.
    by rewrite app_assoc.
Qed.

(** The order of the scanned entries decides the order of the results,
    not whether the query succeeds nor which entries it returns. *)
Lemma scan_loop_perm jsonRecord (l l' : list (string * payload num)) :
  l ≡ₚ l' ->
  forall r, scan_loop jsonRecord l = Ok r ->
            exists r', scan_loop jsonRecord l' = Ok r' /\ r ≡ₚ r'.
Proof.
  induction 1 as [|x l l' _ IH|x y l|l l' l'' _ IH1 _ IH2]; intros r.
  - intros E. by exists r.
  - rewrite !scan_loop_cons. intros E.
    apply rbind_ok in E as (a & Ea & E). apply rbind_ok in E as (b & Eb & [= <-]).
    destruct (IH b Eb) as (b' & Eb' & Hb).
    exists (a ++ b'). rewrite Ea, Eb'. simpl. split; [done|]. by rewrite Hb.
  - rewrite !scan_loop_cons. intros E.
    apply rbind_ok in E as (a & Ea & E). apply rbind_ok in E as (b & E & [= <-]).
    apply rbind_ok in E as (c & Ec & E). apply rbind_ok in E as (d & Ed & [= <-]).
    exists (c ++ a ++ d). rewrite Ec, Ea, Ed. simpl. split; [done|].
    rewrite !app_assoc. apply Permutation_app_tail, Permutation_app_comm.
  - intros E. destruct (IH1 r E) as (r1 & E1 & H1).
    destruct (IH2 r1 E1) as (r2 & E2 & H2).
    exists r2. split; [done|]. by rewrite H1.
Qed.

Lemma load_spend_cons (e : @entry num) l ts sm :
  load_spend (e :: l) ts sm
  = let* p := entry_alloc e in
    load_spend l (num_add ts p.2) (add_spend sm p.1 p.2).
Proof.
  unfold entry_alloc. simpl.
  destruct (get_prop (Rec e) "spendAllocationAmount") as [a| | |]; simpl; try done.
  destruct (supported (get_number a)) as [x| | |]; simpl; try done.
  destruct (get_prop (Rec e) "donationId") as [i| | |]; simpl; try done.
  by destruct (supported (get_string i)) as [d| | |].
Qed.

(** [load_spend] succeeds exactly when every result can be read. *)
Lemma load_spend_ok_iff (l : list (@entry num)) :
  forall ts sm,
    (exists r, load_spend l ts sm = Ok r)
    <-> Forall (fun e => exists p, entry_alloc e = Ok p) l.
Proof.
  induction l as [|e l IH]; intros ts sm.
  - simpl. split; [by constructor|]. intros _. by eexists.
  - rewrite load_spend_cons, Forall_cons. split.
    + intros [r E]. apply rbind_ok in E as (p & Ep & E).
      split; [by eexists|]. apply (IH (num_add ts p.2) (add_spend sm p.1 p.2)).
      by eexists.
    + intros [[p Ep] Hl]. rewrite Ep. simpl. by apply IH.
Qed.

End QueryPermutation.

(** ** Allocation records read back by a later call *)

Section ReadBack.
Local Open Scope Q_scope.

#[local] Arguments add_spend : simpl never.

Lemma entries_sum_app id (l1 l2 : list (@entry Q)) :
  entries_sum id (l1 ++ l2) == entries_sum id l1 + entries_sum id l2.
Proof. induction l1 as [|e l1 IH]; simpl; [lra|]. rewrite IH. lra. Qed.

Lemma entries_sum_perm id (l l' : list (@entry Q)) :
  l ≡ₚ l' -> entries_sum id l == entries_sum id l'.
Proof.
  induction 1 as [|x l l' _ IH|x y l|l l' l'' _ IH1 _ IH2]; simpl; try lra.
Qed.

(** [donationSpendMap] holds, per donation, the sum of the amounts of the
    records that were loaded. *)
Lemma load_spend_spent (l : list (@entry Q)) :
  forall ts sm ts' sm',
    load_spend l ts sm = Ok (ts', sm') ->
    forall id, spent sm' id == spent sm id + entries_sum id l.
Proof.
  induction l as [|e l IH]; intros ts sm ts' sm'.
  - simpl. intros [= _ <-] id. lra.
  - rewrite load_spend_cons. intros E id.
    apply rbind_ok in E as ([i a] & Ep & E). simpl in E.
    rewrite (IH _ _ _ _ E id). simpl. rewrite Ep.
    destruct (String.eqb i id) eqn:Ei.
    + apply String.eqb_eq in Ei as ->. rewrite spent_add_spend_eq. lra.
    + apply String.eqb_neq in Ei. rewrite spent_add_spend_ne by done. lra.
Qed.

(** What the allocation query of NGO [g] makes of a record written for
    NGO [g0]: it returns the record when [g0 = g] and skips it otherwise,
    and [load_spend] reads from it the donation and amount it was written
    with. *)
Lemma scan_one_allocation_write g g0 txID (spend : @obj Q) i (w : @write Q) :
  allocation_write txID spend (Some (VStr g0)) i w -> g0 <> "" ->
  exists e d a,
    scan_one (allocation_selector g) w = Ok (if String.eqb g0 g then [e] else [])
    /\ allocation_of w = Some (d, a)
    /\ entry_alloc e = Ok (d, a).
Proof.
  intros (d & a & ->) Hg0.
  exists (mkEntry (spendAllocationRecord txID spend (Some (VStr g0)) i d a).1
                  (VObj (spendAllocationRecord txID spend (Some (VStr g0)) i d a).2)),
    d, a.
  split; [|split].
  - unfold scan_one, spendAllocationRecord, field. simpl.
    apply String.eqb_neq in Hg0.
    destruct (alist_get spend "spendDate"), (alist_get spend "spendDescription");
      simpl; rewrite Hg0; simpl; by destruct (String.eqb g0 g).
  - apply allocation_of_record.
  - unfold entry_alloc, spendAllocationRecord, field. simpl.
    by destruct (alist_get spend "spendDate"), (alist_get spend "spendDescription").
Qed.

Lemma scan_loop_allocation_writes g g0 txID (spend : @obj Q)
    (ws : list (string * payload Q)) :
  g0 <> "" ->
  forall c,
    allocation_writes txID spend (Some (VStr g0)) c ws ->
    exists es,
      scan_loop (allocation_selector g) ws = Ok es
      /\ Forall (fun e => exists p, entry_alloc e = Ok p) es
      /\ forall id, entries_sum id es
                    == if String.eqb g0 g
                       then Qsum (amounts_for id (allocations ws)) else 0.
Proof.
  intros Hg0. induction ws as [|w ws IH]; intros c.
  - intros _. exists []. simpl. split; [done|]. split; [constructor|].
    intros id. unfold amounts_for. simpl. destruct (String.eqb g0 g); lra.
  - intros [Hw Hws]. destruct (IH _ Hws) as (es & Ees & Hes & Hsum).
    destruct (scan_one_allocation_write g g0 txID spend c w Hw Hg0)
      as (e & d & a & Ee & Hof & Hea).
    assert (allocations (w :: ws) = (d, a) :: allocations ws) as ->
      by (unfold allocations; simpl; by rewrite Hof).
    rewrite scan_loop_cons, Ee, Ees. simpl.
    eexists. split; [reflexivity|].
    destruct (String.eqb g0 g) eqn:Eg; simpl.
    + split; [constructor; [by eexists|done]|].
      intros id. rewrite Hea, Hsum.
      change ((d, a) :: allocations ws) with ([(d, a)] ++ allocations ws).
      rewrite amounts_for_app, Qsum_app, amounts_for_one. lra.
    + split; [done|]. intros id. rewrite Hsum. lra.
Qed.

Lemma in_donation_range_spend x :
  in_range "donation0" "donationz" ("spend" +:+ x) = false.
Proof. reflexivity. Qed.

Lemma allocation_writes_keys_spec {num : Type} txID (spend : @obj num) ngo
    (ws : list (string * payload num)) :
  forall c,
    allocation_writes txID spend ngo c ws ->
    NoDup (map fst ws)
    /\ Forall (fun w => exists i, (c <= i)%nat /\ w.1 = allocation_key txID i) ws.
Proof.
  induction ws as [|w ws IH]; intros c; simpl.
  - intros _. split; constructor.
  - intros [(d & a & ->) Hws]. destruct (IH _ Hws) as [Hnd Hall]. split.
    + apply NoDup_cons. split; [|done].
      intros Hin. apply list_elem_of_In, in_map_iff in Hin as (w' & Hk & Hw').
      apply list_elem_of_In in Hw'. rewrite Forall_forall in Hall.
      destruct (Hall w' Hw') as (i & Hi & Hki).
      simpl in Hk. rewrite Hki in Hk. apply allocation_key_inj in Hk. lia.
    + constructor; [exists c; by split|].
      eapply Forall_impl; [exact Hall|]. intros w' (i & Hi & Hki).
      exists i. split; [lia|done].
Qed.

(** What a committed call changes in the two views that [allocateSpend]
    takes of the world state: the donations stay as they were, and the
    allocations of the NGO of the call grow by the records just written. *)
Lemma views_after_call fuel (st : gmap string (payload Q)) txID spend spend' log g0 :
  allocateSpend fuel st txID spend [] = (Ok spend', log) ->
  alist_get spend "ngoRegistrationNumber" = Some (VStr g0) -> g0 <> "" ->
  (forall spendId,
     to_string (alist_get spend "spendId") = Some spendId ->
     in_range "spendAllocation0" "spendAllocationz" ("spend" +:+ spendId) = false) ->
  (forall i,
     in_range "spendAllocation0" "spendAllocationz" (allocation_key txID i) = true
     /\ st !! allocation_key txID i = None) ->
  (forall g, donations_of (commit st log) g = donations_of st g)
  /\ forall g ts' sm',
       allocated_of (commit st log) g = Ok (ts', sm') ->
       exists ts sm,
         allocated_of st g = Ok (ts, sm)
         /\ forall id, spent sm' id
                       == spent sm id
                          + if String.eqb g0 g
                            then Qsum (amounts_for id (allocations log)) else 0.
Proof.
  intros E Hngo Hg0 Hspend Hkeys.
  apply allocateSpend_ok_log in E as (-> & spendId & new & Hid & -> & Hnew).
  rewrite Hngo in Hnew. rewrite alist_get_set_ne in Hid by done.
  specialize (Hspend spendId Hid).
  destruct (allocation_writes_keys_spec _ _ _ _ _ Hnew) as [Hnd Hall].
  simpl app. split.
  - intros g. rewrite !donations_of_unfold. destruct (json_safe g); [|done].
    rewrite !queryByString_donations, scan_commit_outside; [done|].
    constructor; [apply in_donation_range_spend|].
    eapply Forall_impl; [exact Hall|]. by intros w (i & _ & ->).
  - intros g ts' sm'. rewrite !allocated_of_unfold.
    destruct (json_safe g); [|done].
    rewrite !queryByString_spendAllocations.
    change (scan_loop _) with (scan_loop (@allocation_selector Q g)).
    intros E. apply rbind_ok in E as (sas' & Escan & Eload).
    assert (getStateByRange
              (commit st (("spend" +:+ spendId,
                           Json (VObj (alist_set spend "docType" (VStr "spend")))) :: new))
              "spendAllocation0" "spendAllocationz"
            ≡ₚ new ++ getStateByRange st "spendAllocation0" "spendAllocationz") as Hperm.
    { rewrite commit_cons, scan_commit_fresh; [|done|].
      - simpl. by rewrite scan_insert_outside.
      - eapply Forall_impl; [exact Hall|]. intros w (i & _ & Hw).
        destruct (Hkeys i) as [Hin Hfresh]. rewrite Hw. split; [done|].
        simpl. rewrite lookup_insert_ne; [done|].
        intros Heq. rewrite <- Heq in Hin. congruence. }
    destruct (scan_loop_perm _ _ _ Hperm _ Escan) as (r2 & Er2 & Hr2).
    rewrite scan_loop_app in Er2.
    apply rbind_ok in Er2 as (es & Ees & Er2).
    apply rbind_ok in Er2 as (old & Eold & [= <-]).
    destruct (scan_loop_allocation_writes g g0 txID _ new Hg0 0 Hnew)
      as (es' & Ees' & Hes & Hsum).
    assert (es' = es) as -> by congruence.
    assert (Forall (fun e : @entry Q => exists p, entry_alloc e = Ok p) old) as Hold.
    { assert (Forall (fun e : @entry Q => exists p, entry_alloc e = Ok p) sas') as Hsas
        by (apply (load_spend_ok_iff sas' 0 []); by eexists).
      rewrite Hr2 in Hsas. by apply Forall_app in Hsas as [_ ?]. }
    apply (load_spend_ok_iff old 0 []) in Hold as [[ts sm] Eold'].
    exists ts, sm. rewrite Eold. simpl. split; [done|].
    intros id.
    rewrite (load_spend_spent _ _ _ _ _ Eload id), (load_spend_spent _ _ _ _ _ Eold' id).
    rewrite (entries_sum_perm id _ _ Hr2), entries_sum_app, Hsum.
    unfold allocations at 2. simpl omap. rewrite allocation_of_spend.
    fold (allocations new). lra.
Qed.

End ReadBack.

(** ** Totals and balances in exact arithmetic *)

Section Totals.
Local Open Scope Q_scope.

#[local] Arguments availableAmountForDonor : simpl never.
#[local] Arguments add_spend : simpl never.

Lemma load_donations_cons {num : Type} `{!JSNumber num} (e : @entry num) l t m :
  load_donations (e :: l) t m
  = let* p := entry_donation e in
    load_donations l (num_add t p.2) (alist_set m p.1 p.2).
Proof.
  unfold entry_donation. simpl.
  destruct (get_prop (Rec e) "donationAmount") as [a| | |]; simpl; try done.
  destruct (supported (get_number a)) as [x| | |]; simpl; try done.
  destruct (get_prop (Rec e) "donationId") as [i| | |]; simpl; try done.
  by destruct (supported (get_string i)) as [d| | |].
Qed.

Lemma alist_get_None {V : Type} (m : list (string * V)) k :
  alist_get m k = None <-> k ∉ map fst m.
Proof.
  induction m as [|[k0 v0] m IH]; simpl.
  - split; [intros _; apply not_elem_of_nil|done].
  - rewrite not_elem_of_cons, <- IH.
    destruct (String.eqb k k0) eqn:E.
    + apply String.eqb_eq in E. split; [done|]. intros [? _]. congruence.
    + apply String.eqb_neq in E. split; [done|]. by intros [_ ?].
Qed.

Lemma alist_set_absent {V : Type} (m : list (string * V)) k v :
  k ∉ map fst m -> alist_set m k v = m ++ [(k, v)].
Proof.
  induction m as [|[k0 v0] m IH]; simpl; [done|].
  intros Hk. apply not_elem_of_cons in Hk as [Hne Hk].
  apply String.eqb_neq in Hne. rewrite Hne. by rewrite IH.
Qed.

(** With pairwise different donation ids, [totalDonations] is the sum of
    the amounts in [donationMap]. *)
Lemma load_donations_total (ds : list (@entry Q)) :
  forall t m td dm,
    load_donations ds t m = Ok (td, dm) ->
    NoDup (donation_ids ds) ->
    (forall id, id ∈ donation_ids ds -> id ∉ map fst m) ->
    td - Qsum (map snd dm) == t - Qsum (map snd m).
Proof.
  induction ds as [|e ds IH]; intros t m td dm.
  - simpl. intros [= <- <-] _ _. lra.
  - rewrite load_donations_cons. unfold donation_ids. simpl.
    destruct (entry_donation e) as [[i a]| | |] eqn:Ee; simpl; try discriminate.
    fold (donation_ids ds). intros E Hnd Hfresh.
    apply NoDup_cons in Hnd as [Hi Hnd].
    assert (i ∉ map fst m) as Him by (apply Hfresh; by left).
    rewrite alist_set_absent in E by done.
    rewrite (IH _ _ _ _ E Hnd).
    + rewrite map_app, Qsum_app. simpl. lra.
    + intros id Hid. rewrite map_app. simpl. intros Hin.
      apply elem_of_app in Hin as [Hin|Hin].
      * apply (Hfresh id); [by right|done].
      * apply list_elem_of_singleton in Hin as ->. done.
Qed.

Lemma load_spend_total (l : list (@entry Q)) :
  forall ts sm ts' sm',
    load_spend l ts sm = Ok (ts', sm') -> ts' == ts + entries_total l.
Proof.
  induction l as [|e l IH]; intros ts sm ts' sm'.
  - simpl. intros [= <- _]. lra.
  - rewrite load_spend_cons. intros E.
    apply rbind_ok in E as (p & Ep & E).
    rewrite (IH _ _ _ _ E). simpl. rewrite Ep. lra.
Qed.

(** One amount counts for at most one of several different ids. *)
Lemma one_id_sum i a (ids : list string) :
  NoDup ids -> 0 <= a ->
  Qsum (map (fun id => if String.eqb i id then a else 0) ids) <= a
  /\ 0 <= Qsum (map (fun id => if String.eqb i id then a else 0) ids)
  /\ (i ∉ ids -> Qsum (map (fun id => if String.eqb i id then a else 0) ids) == 0).
Proof.
  intros Hnd Ha. induction Hnd as [|id ids Hid Hnd (IH1 & IH2 & IH3)]; simpl.
  - repeat split; intros; lra.
  - destruct (String.eqb i id) eqn:E.
    + apply String.eqb_eq in E as ->. rewrite (IH3 Hid).
      split; [lra|]. split; [lra|]. intros Hn. exfalso. apply Hn. by left.
    + apply String.eqb_neq in E. split; [lra|]. split; [lra|].
      intros Hn. apply not_elem_of_cons in Hn as [_ Hn]. rewrite (IH3 Hn). lra.
Qed.

(** The allocations to different donations together are at most the
    allocations to all donations, when none is negative. *)
Lemma entries_sum_le_total (ids : list string) (l : list (@entry Q)) :
  NoDup ids -> nonnegative_allocations l ->
  Qsum (map (fun id => entries_sum id l) ids) <= entries_total l.
Proof.
  intros Hnd. unfold nonnegative_allocations.
  induction 1 as [|e l He _ IH]; simpl.
  - induction ids as [|id ids IHids]; simpl; [lra|].
    apply NoDup_cons in Hnd as [_ Hnd]. specialize (IHids Hnd). lra.
  - assert (forall f g : string -> Q,
              Qsum (map (fun id => f id + g id) ids)
              == Qsum (map f ids) + Qsum (map g ids)) as Hadd.
    { intros f g. clear. induction ids as [|id ids IHids]; simpl; [lra|].
      rewrite IHids. lra. }
    rewrite Hadd.
    destruct (entry_alloc e) as [[i a]| | |] eqn:Ee; simpl.
    + specialize (He _ eq_refl). simpl in He.
      destruct (one_id_sum i a ids Hnd He) as (H1 & _). lra.
    + assert (Qsum (map (fun _ : string => 0) ids) == 0) as ->; [|lra].
      clear. induction ids as [|id ids IHids]; simpl; [lra|]. rewrite IHids. lra.
    + assert (Qsum (map (fun _ : string => 0) ids) == 0) as ->; [|lra].
      clear. induction ids as [|id ids IHids]; simpl; [lra|]. rewrite IHids. lra.
    + assert (Qsum (map (fun _ : string => 0) ids) == 0) as ->; [|lra].
      clear. induction ids as [|id ids IHids]; simpl; [lra|]. rewrite IHids. lra.
Qed.

(** The positive balances cover the sum of all balances. *)
Lemma available_total_ge dm sm :
  Qsum (map snd dm) - Qsum (map (fun id => spent sm id) (map fst dm))
  <= available_total dm sm.
Proof.
  induction dm as [|[id d] dm IH]; simpl; [lra|].
  rewrite available_spent. simpl.
  destruct (Qltb 0 (d - spent sm id)) eqn:E.
  - lra.
  - apply Qltb_false in E. lra.
Qed.

(** When the donation ids are pairwise different and no allocation is
    negative, what the funds check compares the spend with,
    [totalDonations - totalSpend], is covered by the positive balances of
    the donations. *)
Lemma totals_covered (ds sas : list (@entry Q)) td dm ts sm :
  load_donations ds 0 [] = Ok (td, dm) ->
  load_spend sas 0 [] = Ok (ts, sm) ->
  NoDup (donation_ids ds) ->
  nonnegative_allocations sas ->
  td - ts <= available_total dm sm.
Proof.
  intros Hld Hls Hnd Hnn.
  pose proof (load_donations_total ds 0 [] td dm Hld Hnd) as Htd.
  simpl in Htd. specialize (Htd ltac:(intros; apply not_elem_of_nil)).
  pose proof (load_spend_total sas 0 [] ts sm Hls) as Hts.
  pose proof (load_donations_NoDup ds 0 [] td dm (NoDup_nil_2) Hld) as Hdm.
  pose proof (entries_sum_le_total (map fst dm) sas Hdm Hnn) as Hle.
  pose proof (available_total_ge dm sm) as Hav.
  assert (Qsum (map (fun id => spent sm id) (map fst dm))
          == Qsum (map (fun id => entries_sum id sas) (map fst dm))) as Hsp.
  { clear -Hls. induction (map fst dm) as [|id ids IH]; simpl; [lra|].
    rewrite IH, (load_spend_spent _ _ _ _ _ Hls id). unfold spent. simpl. lra. }
  lra.
Qed.

(** In exact arithmetic no error branch of the loop is reachable from a
    valid history: if the donation ids of the NGO are pairwise different,
    no allocation record of the NGO carries a negative amount and the funds
    check passes, [allocateSpend] succeeds within one round per donation,
    plus one. *)
Theorem allocateSpend_valid_history_completes fuel (st : gmap string (payload Q)) txID
    spend amount spendId ngoStr ds td dm sas ts sm :
  valid_amount spend = Some amount ->
  truthy (alist_get spend "spendId") = true ->
  to_string (alist_get spend "spendId") = Some spendId ->
  to_string (alist_get spend "ngoRegistrationNumber") = Some ngoStr ->
  is_empty (getState st ("ngo" +:+ ngoStr)) = false ->
  json_safe ngoStr = true ->
  queryByString st (ngo_query "donation" ngoStr) = Ok ds ->
  load_donations ds 0 [] = Ok (td, dm) ->
  queryByString st (ngo_query "spendAllocation" ngoStr) = Ok sas ->
  load_spend sas 0 [] = Ok (ts, sm) ->
  NoDup (donation_ids ds) ->
  nonnegative_allocations sas ->
  amount <= td - ts ->
  (length dm < fuel)%nat ->
  exists spend' log, allocateSpend fuel st txID spend [] = (Ok spend', log).
Proof.
  intros Ha Hid Hids Hngo He Hs Hqd Hld Hqs Hls Hnd Hnn Hfunds Hfuel.
  apply (allocateSpend_completes_exact fuel st txID spend amount spendId ngoStr
           td dm ts sm); try done.
  - by rewrite donations_of_unfold, Hs, Hqd.
  - by rewrite allocated_of_unfold, Hs, Hqs.
  - by apply (totals_covered ds sas).
Qed.

End Totals.

(** ** No over-allocation *)

Section NoOverAllocation.
Local Open Scope Q_scope.

(** Whatever amount the loop starts with, a donation that was within its
    amount stays within it. *)
Lemma allocate_loop_within fuel txID spend ngo dm (s : @alloc_state Q) log log' :
  NoDup (map fst dm) ->
  allocate_loop fuel txID spend ngo dm s log = (Ok tt, log') ->
  exists new,
    log' = log ++ new
    /\ forall id d, (id, d) ∈ dm ->
                    spent (donationSpendMap s) id <= d ->
                    spent (donationSpendMap s) id
                    + Qsum (amounts_for id (allocations new)) <= d.
Proof.
  intros Hnd E.
  destruct (Qlt_le_dec (spendAmount s) 0) as [Hneg|Hpos].
  - destruct fuel as [|fuel]; [discriminate|]. simpl in E.
    assert (Qle_bool (spendAmount s) 0 = true) as H0 by (apply Qle_bool_iff; lra).
    rewrite H0 in E. injection E as <-.
    exists []. rewrite app_nil_r. split; [done|].
    intros id d _ Hle. unfold amounts_for. simpl. lra.
  - apply allocate_loop_exact in E as (new & sm' & -> & _ & Hsp & Hle & _); [|done..].
    exists new. split; [done|]. intros id d Hin Hd.
    rewrite <- Hsp. by apply (Hle id d).
Qed.

(** One committed call keeps every NGO free of over-allocation. *)
Lemma no_over_allocation_step fuel (st : gmap string (payload Q)) txID spend spend' log g :
  no_over_allocation st g ->
  genuine_keys st txID spend ->
  allocateSpend fuel st txID spend [] = (Ok spend', log) ->
  no_over_allocation (commit st log) g.
Proof.
  intros Hinv ((g0 & Hngo & Hg0) & Hspend & Hkeys) E.
  destruct (views_after_call _ _ _ _ _ _ _ E Hngo Hg0 Hspend Hkeys) as [Hd Ha].
  intros td dm ts' sm' Hdon Hal id d Hin.
  rewrite Hd in Hdon.
  destruct (Ha g ts' sm' Hal) as (ts & sm & Hal0 & Hsp).
  rewrite Hsp. pose proof (Hinv td dm ts sm Hdon Hal0 id d Hin) as Hle.
  destruct (String.eqb g0 g) eqn:Eg; [|lra].
  apply String.eqb_eq in Eg as ->.
  apply allocateSpend_ok_inv in E
    as (amount & ngoStr & ds & td0 & dm0 & sas & ts0 & sm0 & spendId
        & _ & Hstr & _ & _ & Hqd & Hld & Hqs & Hls & _ & -> & _ & Hloop).
  rewrite Hngo in Hstr. injection Hstr as <-.
  rewrite donations_of_unfold in Hdon. rewrite allocated_of_unfold in Hal0.
  destruct (json_safe g); [|discriminate].
  rewrite Hqd in Hdon. simpl in Hdon.
  rewrite Hqs in Hal0. simpl in Hal0.
  pose proof (eq_trans (eq_sym Hld) Hdon) as [= _ ->].
  pose proof (eq_trans (eq_sym Hls) Hal0) as [= _ ->].
  apply load_donations_NoDup in Hld; [|apply NoDup_nil_2].
  apply allocate_loop_within in Hloop as (new & -> & Hwithin); [|done].
  simpl app. unfold allocations. simpl omap. rewrite allocation_of_spend.
  by apply (Hwithin id d).
Qed.

(** A round gives a donation nothing when it has no balance left, and at
    most its balance otherwise. *)
Lemma allocate_round_within txID spend ngo share dm (s s' : @alloc_state Q) log log' :
  NoDup (map fst dm) -> 0 < share ->
  allocate_round txID spend ngo share dm s log = (Ok s', log') ->
  exists new,
    log' = log ++ new
    /\ forall id d, (id, d) ∈ dm ->
         let remaining := d - spent (donationSpendMap s) id in
         0 <= Qsum (amounts_for id (allocations new))
         /\ (0 < remaining -> Qsum (amounts_for id (allocations new)) <= remaining)
         /\ (remaining <= 0 -> Qsum (amounts_for id (allocations new)) == 0).
Proof.
  intros Hnd Hshare E.
  apply (allocate_round_exact _ _ _ _ _ _ _ _ _ Hnd) in E as (new & -> & _ & _ & Ham & _).
  exists new. split; [done|]. intros id d Hin. cbv zeta.
  rewrite Ham, (taken_by_in id d) by done.
  pose proof (take_spec share (availableAmountForDonor (donationSpendMap s) (id, d))
                Hshare) as (H0 & _ & Hpos & Hneg & _).
  rewrite available_spent in *. simpl in *.
  split; [done|]. split; [|done]. intros Hr. by destruct (Hpos Hr).
Qed.

(** What holds of the bound in exact arithmetic.  Take any sequence of
    successful [allocateSpend] calls, each committed before the next, whose
    keys keep the records apart ([genuine_keys]).  If no donation of an NGO
    was over-allocated before the sequence, none is after it: for every
    donation, the amounts of the allocation records of the NGO that
    reference it add up to at most the donation amount.  And within a call,
    every round gives a donation at most its remaining balance, the
    donation amount less what is already allocated to it. *)
Theorem no_over_allocation_preserved (st st' : gmap string (payload Q)) (ngo : string) :
  no_over_allocation st ngo ->
  allocated_from st st' ->
  no_over_allocation st' ngo
  /\ forall txID spend ngo' share dm (s s' : @alloc_state Q) log log',
       NoDup (map fst dm) -> 0 < share ->
       allocate_round txID spend ngo' share dm s log = (Ok s', log') ->
       exists new,
         log' = log ++ new
         /\ forall id d, (id, d) ∈ dm ->
              let remaining := d - spent (donationSpendMap s) id in
              0 <= Qsum (amounts_for id (allocations new))
              /\ (0 < remaining -> Qsum (amounts_for id (allocations new)) <= remaining)
              /\ (remaining <= 0 -> Qsum (amounts_for id (allocations new)) == 0).
Proof.
  intros Hinv Hseq. split.
  - induction Hseq as [|st1 fuel txID spend spend' log _ IH Hkeys E]; [done|].
    by apply (no_over_allocation_step fuel st1 txID spend spend' log).
  - intros. by eapply allocate_round_within.
Qed.

End NoOverAllocation.

(** ** Concrete runs *)

Section ConcreteRuns.
Import Example Example2.

Lemma allocateSpend_rejection_no_put_witness :
  allocateSpend 1 ledger_empty "tx1" (spendRequest "S1" "N1" (VNum 80%float)) []
    = (Throw (ErrKeyDoesNotExist "ngoN1"), [])
  /\ ([] : list (@write float)) = [] /\ commit ledger_empty [] = ledger_empty.
Proof.
  split; [vm_compute; reflexivity|].
  apply (allocateSpend_rejection_no_put 1 ledger_empty "tx1"
           (spendRequest "S1" "N1" (VNum 80%float)) (ErrKeyDoesNotExist "ngoN1") []);
    vm_compute; reflexivity.
Defined.

(** C6. From NGO N1 with donations D1 = 30 and D2 = 70 and no prior
    allocation, a spend of 80 succeeds (with any fuel of at least 3 rounds):
    round 1 gives D1 its whole 30 and D2 the share 40, round 2 gives D2 the
    remaining 10.  D1 receives 30 in total, D2 receives 50, together 80. *)
Theorem allocateSpend_trace_30_70 (k : nat) :
  let run := allocateSpend (3 + k) ledger_30_70 "tx1"
               (spendRequest "S3" "N1" (VNum 80%float)) [] in
  (exists spend', run.1 = Ok spend')
  /\ allocations run.2 = [("D1", 30%float); ("D2", 40%float); ("D2", 10%float)]
  /\ map float_to_Q (amounts_for "D1" (allocations run.2)) = [30%Q]
  /\ Qsum (map float_to_Q (amounts_for "D2" (allocations run.2))) == 50%Q
  /\ Qsum (map float_to_Q (map snd (allocations run.2))) == 80%Q.
Proof.
  cbv zeta. split; [eexists; vm_compute; reflexivity|].
  repeat split; vm_compute; reflexivity.
Qed.

(** C9 (as stated) fails: on an absent key [queryByKey] throws. *)
Lemma queryByKey_absent_throws :
  ledger_empty !! "ngoN1" = None
  /\ queryByKey ledger_empty "ngoN1" = Throw (ErrKeyDoesNotExist "ngoN1").
Proof. split; vm_compute; reflexivity. Qed.

(** C5 at a negative amount: NGO N1 exists, the request asks for -5.  Line
    162 lets the amount through, the funds check passes, the spend document
    is written and the loop ends at once: the call succeeds with a single
    [putState], the spend record, and no allocation. *)
Theorem allocateSpend_negative_amount_accepted (k : nat) :
  let spend := spendRequest "S9" "N1" (VNum (-5)%float) in
  let doc := alist_set spend "docType" (VStr "spend") in
  valid_amount spend = Some (-5)%float
  /\ allocateSpend (1 + k) ledger_30_70 "tx1" spend []
     = (Ok doc, [("spendS9", Json (VObj doc))]).
Proof. cbv zeta. split; vm_compute; reflexivity. Qed.


Lemma same_history_donor : same_history ledger_30_70 ledger_30_70_donor.
Proof.
  split; [|split; vm_compute; reflexivity].
  intros ngo. unfold getState, ledger_30_70_donor.
  by rewrite lookup_insert_ne.
Qed.

Lemma allocateSpend_deterministic_witness :
  let spend := spendRequest "S3" "N1" (VNum 80%float) in
  same_history ledger_30_70 ledger_30_70_donor
  /\ allocateSpend 3 ledger_30_70 "tx1" spend []
     = allocateSpend 3 ledger_30_70_donor "tx1" spend [].
Proof.
  cbv zeta. split; [exact same_history_donor|].
  apply (allocateSpend_deterministic 3 ledger_30_70 ledger_30_70_donor "tx1"
           (spendRequest "S3" "N1" (VNum 80%float)) same_history_donor).
Defined.



(** C1 (as stated) fails on binary64: six donations of 100, a spend of
    100.  The share 100/6 rounds up to 16.666666666666668, every donation
    receives it, and the loop stops with a remainder just below zero.  The
    six amounts add up to more than 100, whether they are added exactly or
    in floating point. *)
Lemma allocateSpend_rounding_breaks_conservation :
  let run := allocateSpend 2 ledger_6x100 "tx1"
               (spendRequest "S1" "N1" (VNum 100%float)) [] in
  (exists spend', run.1 = Ok spend')
  /\ map snd (allocations run.2)
     = [16.666666666666668%float; 16.666666666666668%float; 16.666666666666668%float;
        16.666666666666668%float; 16.666666666666668%float; 16.666666666666668%float]
  /\ float_sum (map snd (allocations run.2)) = 100.00000000000001%float
  /\ ~ (Qsum (map float_to_Q (map snd (allocations run.2))) == 100%Q)
  /\ (100 < Qsum (map float_to_Q (map snd (allocations run.2))))%Q.
Proof.
  cbv zeta. split; [eexists; vm_compute; reflexivity|].
  split; [vm_compute; reflexivity|].
  split; [vm_compute; reflexivity|].
  split; [intros H; vm_compute in H; discriminate H|vm_compute; reflexivity].
Qed.

Lemma allocateSpend_conservation_exact_witness :
  let run := allocateSpend 2 ledger_6x100_exact "tx1"
               (spendRequest "S1" "N1" (VNum 100%Q)) [] in
  (0 < 100)%Q /\ Qsum (map snd (allocations run.2)) == 100%Q.
Proof.
  cbv zeta. split; [reflexivity|].
  apply (allocateSpend_conservation_exact 2 ledger_6x100_exact "tx1"
           (spendRequest "S1" "N1" (VNum 100%Q))
           (alist_set (spendRequest "S1" "N1" (VNum 100%Q)) "docType" (VStr "spend"))).
  - vm_compute; reflexivity.
  - vm_compute; reflexivity.
  - reflexivity.
Defined.

(** C7 on binary64: donations of 0.1 and 0.3, a spend of 0.4.  Both
    donation amounts are valid and the funds check passes, since
    0.1 + 0.3 is 0.4.  Round 1 gives D1 its 0.1 and D2 the share 0.2, which
    leaves 0.10000000000000003 to allocate; round 2 gives D2 the
    0.09999999999999998 that the subtraction 0.3 - 0.2 leaves it; in round
    3 no donation has funds although the remaining amount, about 5.6e-17,
    is positive, and line 299 throws after four records have been
    written. *)
Theorem allocateSpend_fatal_branch_reached (k : nat) :
  let spend := spendRequest "S1" "N1" (VNum 0.4%float) in
  let run := allocateSpend (3 + k) ledger_01_03 "tx1" spend [] in
  valid_amount spend = Some 0.4%float
  /\ donations_of ledger_01_03 "N1"
     = Ok (0.4%float, [("D1", 0.1%float); ("D2", 0.3%float)])
  /\ allocated_of ledger_01_03 "N1" = Ok (0%float, [])
  /\ run.1 = Throw ErrNumberOfDonations
  /\ allocations run.2
     = [("D1", 0.1%float); ("D2", 0.2%float); ("D2", 0.09999999999999998%float)]
  /\ length run.2 = 4%nat.
Proof. cbv zeta. repeat split; vm_compute; reflexivity. Qed.

(** C3 fails in two successful calls.  The ledger holds NGO N1 with one
    donation D1 = 100 and no allocation.  Call 1 is a spend of 1 with id
    "AllocationZ" that also carries [donationId = "D1"] and
    [spendAllocationAmount = -100]: its spend document is written under
    "spendAllocationZ", inside the key range of the allocation records,
    and [queryByString] never looks at the [docType] of a record.  Call 2,
    a spend of 150, reads that document as an allocation of -100, finds
    199 available and allocates 150 to D1.  The allocation records against
    D1 now add up to 151. *)
Lemma allocateSpend_over_allocates :
  let run1 := allocateSpend 2 ledger_100 "tx1" forged_request [] in
  let run2 := allocateSpend 2 ledger_100_forged "tx2"
                (spendRequest "S2" "N1" (VNum 150%float)) [] in
  donations_of ledger_100 "N1" = Ok (100%float, [("D1", 100%float)])
  /\ allocated_of ledger_100 "N1" = Ok (0%float, [])
  /\ (exists spend', run1.1 = Ok spend') /\ allocations run1.2 = [("D1", 1%float)]
  /\ allocated_of ledger_100_forged "N1" = Ok ((-99)%float, [("D1", (-99)%float)])
  /\ (exists spend', run2.1 = Ok spend') /\ allocations run2.2 = [("D1", 150%float)]
  /\ allocations (getStateByRange ledger_100_overspent
                    "spendAllocation0" "spendAllocationz")
     = [("D1", 1%float); ("D1", 150%float)]
  /\ (100 < Qsum (map float_to_Q [1%float; 150%float]))%Q.
Proof.
  cbv zeta.
  repeat match goal with
         | |- _ /\ _ => split
         | |- exists _, _ => eexists
         end; vm_compute; reflexivity.
Qed.

(** On binary64 the bound of a donation can be missed by rounding, with
    ordinary requests: donations of 0.3 and 0.5, a spend of 0.1 and then a
    spend of 0.5.  D1 receives 0.05 and then 0.25, the balance that the
    subtraction 0.3 - 0.05 leaves it; the two amounts together exceed the
    binary64 number 0.3. *)
Example allocateSpend_rounding_over_allocates :
  let run1 := allocateSpend 2 ledger_03_05 "tx1"
                (spendRequest "S1" "N1" (VNum 0.1%float)) [] in
  let run2 := allocateSpend 2 ledger_03_05_spent "tx2"
                (spendRequest "S2" "N1" (VNum 0.5%float)) [] in
  (exists spend', run1.1 = Ok spend')
  /\ allocations run1.2 = [("D1", 0.05%float); ("D2", 0.05%float)]
  /\ (exists spend', run2.1 = Ok spend')
  /\ allocations run2.2 = [("D1", 0.25%float); ("D2", 0.25%float)]
  /\ (float_to_Q 0.3%float < float_to_Q 0.05%float + float_to_Q 0.25%float)%Q.
Proof.
  cbv zeta.
  repeat match goal with
         | |- _ /\ _ => split
         | |- exists _, _ => eexists
         end; vm_compute; reflexivity.
Qed.

Lemma ledger_100_exact_within : no_over_allocation ledger_100_exact "N1".
Proof.
  intros td dm ts sm Hd Ha id d Hin.
  vm_compute in Hd. injection Hd as <- <-.
  vm_compute in Ha. injection Ha as <- <-.
  apply list_elem_of_singleton in Hin. injection Hin as -> ->.
  vm_compute. discriminate.
Qed.

Lemma ledger_100_exact_keys :
  genuine_keys ledger_100_exact "tx1" (spendRequest "S1" "N1" (VNum 30%Q)).
Proof.
  split; [|split].
  - exists "N1". split; [reflexivity|discriminate].
  - intros spendId H. vm_compute in H. by injection H as <-.
  - intros i. split; [reflexivity|].
    apply not_elem_of_list_to_map_1. simpl.
    intros Hin. unfold allocation_key in Hin. simpl in Hin.
    repeat (apply elem_of_cons in Hin as [Hin|Hin]; [discriminate|]).
    by apply elem_of_nil in Hin.
Qed.

Lemma no_over_allocation_preserved_witness :
  no_over_allocation ledger_100_exact "N1"
  /\ allocated_from ledger_100_exact ledger_100_spent_30
  /\ no_over_allocation ledger_100_spent_30 "N1".
Proof.
  assert (allocated_from ledger_100_exact ledger_100_spent_30) as Hseq.
  { apply (allocated_step ledger_100_exact ledger_100_exact 2 "tx1"
             (spendRequest "S1" "N1" (VNum 30%Q))
             (alist_set (spendRequest "S1" "N1" (VNum 30%Q)) "docType" (VStr "spend"))).
    - apply allocated_none.
    - exact ledger_100_exact_keys.
    - vm_compute; reflexivity. }
  split; [exact ledger_100_exact_within|]. split; [exact Hseq|].
  exact (proj1 (no_over_allocation_preserved ledger_100_exact ledger_100_spent_30 "N1"
                  ledger_100_exact_within Hseq)).
Defined.

(** The spend of 0.4 against donations of 0.1 and 0.3 in exact
    arithmetic: the history is valid, and the call succeeds. *)
Example allocateSpend_exact_01_03 :
  exists spend' log,
    allocateSpend 3 ledger_01_03_exact "tx1" (spendRequest "S1" "N1" (VNum (4 # 10)%Q)) []
    = (Ok spend', log).
Proof.
  eapply (allocateSpend_valid_history_completes 3 ledger_01_03_exact "tx1"
            (spendRequest "S1" "N1" (VNum (4 # 10)%Q)) (4 # 10)%Q "S1" "N1");
    try (vm_compute; reflexivity).
  - change (NoDup ["D1"; "D2"]). apply (bool_decide_unpack _). by vm_compute.
  - constructor.
  - vm_compute. discriminate.
Qed.

End ConcreteRuns.

(** * The chaincode methods *)

(** ** What a transaction writes *)

Section MethodLogs.
Context {num : Type} `{!JSNumber num}.

#[local] Arguments writable : simpl never.
#[local] Arguments to_string : simpl never.
#[local] Arguments alist_set : simpl never.
#[local] Arguments String.append : simpl never.

Lemma method_lift_inv {A} (o : option A) (log : list (@write num)) a log' :
  method_lift o log = (Returned a, log') -> o = Some a /\ log' = log.
Proof. unfold method_lift. destruct o; intros [= <- <-]; done. Qed.

(** A [createSpend] that returned: the checks it passed and its writes. *)
Lemma createSpend_ok_log fuel (st : gmap string (payload num)) txID json log :
  createSpend fuel st txID json [] = (Ok tt, log) ->
  exists spendId ngo allocs,
    let key := "spend" +:+ spendId in
    let doc := alist_set json "docType" (VStr "spend") in
    text json "spendId" = Some spendId
    /\ text json "ngoRegistrationNumber" = Some ngo
    /\ is_empty (getState st ("ngo" +:+ ngo)) = false
    /\ is_empty (getState st key) = true
    /\ log = (key, Json (VObj doc)) :: allocs ++ [(key, Json (VObj doc))]
    /\ allocation_writes txID doc (alist_get json "ngoRegistrationNumber") 0 allocs.
Proof.
  unfold createSpend, tx_bind, tx_lift, putState, text.
  destruct (supported (to_string (alist_get json "spendId"))) as [spendId| | |] eqn:Hid;
    try discriminate.
  apply supported_ok in Hid.
  rewrite alist_get_set_ne by done.
  destruct (supported _) as [ngoStr| | |] eqn:Hngo; try discriminate.
  apply supported_ok in Hngo.
  destruct (is_empty (getState st ("ngo" +:+ ngoStr))) eqn:Hn; [discriminate|].
  destruct (is_empty (getState st ("spend" +:+ spendId))) eqn:Hs; [|discriminate].
  simpl.
  destruct (allocateSpend _ _ _ _ _) as [[json'| | |] log1] eqn:E; try discriminate.
  intros [= <-].
  apply allocateSpend_ok_log in E as (-> & spendId' & new & Hid' & -> & Hnew).
  rewrite alist_set_idem in *.
  rewrite alist_get_set_ne in Hid', Hnew by done.
  assert (spendId' = spendId) as -> by congruence.
  exists spendId, ngoStr, new. cbv zeta. by repeat (split; [done|]).
Qed.

(** The writes of a transaction that returned: its record, under a key
    that held nothing, and for a spend the allocation records between two
    writes of the record. *)
Lemma run_transaction_log (st : gmap string (payload num)) (t : transaction num) log :
  run_transaction st t [] = (Returned tt, log) ->
  exists key doc rest,
    record_of t = Some (key, doc)
    /\ key = docType_of t +:+ rest
    /\ alist_get doc "docType" = Some (VStr (docType_of t))
    /\ is_empty (getState st key) = true
    /\ (log = [(key, Json (VObj doc))]
        \/ exists fuel txID json allocs,
             t = CreateSpend fuel txID json
             /\ log = (key, Json (VObj doc)) :: allocs ++ [(key, Json (VObj doc))]
             /\ allocation_writes txID doc (alist_get json "ngoRegistrationNumber") 0 allocs).
Proof.
  destruct t as [json|now json|json|json|json|json|json|json|fuel txID json]; simpl.
  1-8: unfold createDonor, createMember, createNGO, createEmployer, createPlan,
         createDonation, createWithdrawal, createRating,
         method_bind, method_lift, method_throw, put_json, method_put, text;
       rewrite ?alist_get_set_ne by done;
       intros E; repeat case_match; simplify_eq; simpl;
       eexists _, _, _; (split; [reflexivity|]); (split; [reflexivity|]);
       (split; [rewrite ?alist_get_set_ne by done; apply alist_get_set_eq|]);
       (split; [by apply negb_false_iff|]); by left.
  destruct (writable (VObj json)); [|discriminate].
  unfold of_tx.
  destruct (createSpend fuel st txID json []) as [[[]| | |] log1] eqn:E; try discriminate.
  intros [= <-].
  apply createSpend_ok_log in E as (spendId & ngo & allocs & Hid & Hngo & Hn & Hs & -> & Hw).
  rewrite Hid. simpl.
  eexists _, _, _. split; [reflexivity|]. split; [reflexivity|].
  split; [apply alist_get_set_eq|]. split; [done|].
  right. by exists fuel, txID, json, allocs.
Qed.

Lemma commit_untouched (log : list (string * payload num)) k :
  forall st : gmap string (payload num),
    k ∉ map fst log -> commit st log !! k = st !! k.
Proof.
  induction log as [|[k' v] log IH]; intros st Hk; [done|].
  simpl in Hk. apply not_elem_of_cons in Hk as [Hne Hk].
  rewrite commit_cons, IH by done. simpl. by rewrite lookup_insert_ne.
Qed.

Lemma allocation_writes_tagged txID (spend : @obj num) ngo
    (ws : list (string * payload num)) :
  forall c,
    allocation_writes txID spend ngo c ws ->
    Forall tagged ws /\ Forall (fun w => exists i, w.1 = allocation_key txID i) ws.
Proof.
  induction ws as [|w ws IH]; intros c; simpl; [by split; constructor|].
  intros [(d & a & ->) Hws]. destruct (IH _ Hws) as [Ht Hk]. split.
  - constructor; [|done]. eexists "spendAllocation", _, _. by split.
  - constructor; [|done]. by exists c.
Qed.

(** What the writes of a transaction that returned amount to: after the
    commit the key of the record holds the record; every write is a tagged
    document; a write goes to the key of the record or to an allocation
    key of the transaction. *)
Lemma run_transaction_writes (st : gmap string (payload num)) (t : transaction num) log :
  run_transaction st t [] = (Returned tt, log) ->
  exists key doc,
    record_of t = Some (key, doc)
    /\ is_empty (getState st key) = true
    /\ commit st log !! key = Some (Json (VObj doc))
    /\ Forall tagged log
    /\ Forall (fun w => w.1 = key \/ allocation_keys t w.1) log.
Proof.
  intros E.
  apply run_transaction_log in E
    as (key & doc & rest & Hrec & Hkey & Hdt & Hempty & Hlog).
  exists key, doc. split; [done|]. split; [done|].
  assert (tagged (key, Json (VObj doc))) as Htag.
  { exists (docType_of t), rest, doc. by rewrite Hkey. }
  destruct Hlog as [-> | (fuel & txID & json & allocs & -> & -> & Hw)].
  - split; [simpl; by rewrite lookup_insert_eq|].
    split; [by constructor|]. constructor; [by left|constructor].
  - apply allocation_writes_tagged in Hw as [Ht Hk].
    split; [by rewrite app_comm_cons, commit_snoc, lookup_insert_eq|].
    split.
    + constructor; [done|]. apply Forall_app. split; [done|]. by constructor.
    + constructor; [by left|]. apply Forall_app. split.
      * eapply Forall_impl; [exact Hk|]. intros w (i & Hi). right. by exists i.
      * constructor; [by left|constructor].
Qed.

End MethodLogs.

(** ** Records read back, replayed and overwritten *)


Section Records.
Context {num : Type} `{!JSNumber num}.

#[local] Arguments writable : simpl never.
#[local] Arguments to_string : simpl never.
#[local] Arguments alist_set : simpl never.
#[local] Arguments String.append : simpl never.

Lemma getState_commit_key (st : gmap string (payload num)) log key p :
  commit st log !! key = Some p -> getState (commit st log) key = p.
Proof. unfold getState. by intros ->. Qed.

(** Documents are never written empty, so a key that holds one keeps
    holding one. *)
Lemma nonempty_commit (log : list (string * payload num)) k :
  forall st : gmap string (payload num),
    Forall tagged log ->
    is_empty (getState st k) = false ->
    is_empty (getState (commit st log) k) = false.
Proof.
  induction log as [|[k' v] log IH]; intros st Hall Hk; [done|].
  apply Forall_cons in Hall as [(dt & rest & doc & [= -> ->] & _) Hall].
  rewrite commit_cons. apply IH; [done|]. simpl. unfold getState.
  destruct (decide (k = dt +:+ rest)) as [->|Hne].
  - by rewrite lookup_insert_eq.
  - by rewrite lookup_insert_ne.
Qed.


(** A transaction that returned and was committed cannot be run a second
    time: the second run finds the key of the record taken, throws, and
    writes nothing. *)
Theorem committed_transaction_not_replayed (st : gmap string (payload num))
    (t : transaction num) log :
  run_transaction st t [] = (Returned tt, log) ->
  exists key doc,
    record_of t = Some (key, doc)
    /\ run_transaction (commit st log) t [] = (Failed (duplicate_error t key), []).
Proof.
  intros E.
  destruct (run_transaction_writes _ _ _ E) as (key & doc & Hrec & _ & Hcommit & Htag & _).
  apply getState_commit_key in Hcommit.
  pose proof (fun k => nonempty_commit log k st Htag) as Hkeep.
  exists key, doc. split; [done|].
  destruct t as [json|now json|json|json|json|json|json|json|fuel txID json];
    simpl in *.
  1-8: unfold createDonor, createMember, createNGO, createEmployer, createPlan,
         createDonation, createWithdrawal, createRating,
         method_bind, method_lift, method_throw, put_json, method_put, text in *;
       rewrite ?alist_get_set_ne in * by done;
       repeat match type of E with
              | context [to_string ?x] => destruct (to_string x) eqn:?; simpl in E; [|done]
              | context [is_empty ?x] => destruct (is_empty x) eqn:?; simpl in E; try done
              | context [writable ?x] => destruct (writable x) eqn:?; simpl in E; [|done]
              end;
       simpl in Hrec; simplify_eq;
       repeat match goal with
              | H : is_empty (getState _ ?k) = false |- _ =>
                  rewrite (Hkeep k H); clear H
              end;
       rewrite Hcommit; done.
  destruct (writable (VObj json)); [|discriminate].
  unfold of_tx in E.
  destruct (createSpend fuel st txID json []) as [[[]| | |] log1] eqn:E1; try discriminate.
  simplify_eq.
  apply createSpend_ok_log in E1 as (spendId & ngo & allocs & Hid & Hngo & Hn & _).
  rewrite Hid in Hrec. simpl in Hrec. simplify_eq.
  apply Hkeep in Hn.
  unfold text in *.
  unfold of_tx, createSpend, tx_bind, tx_lift.
  rewrite Hid. simpl. rewrite alist_get_set_ne by done. rewrite Hngo. simpl.
  by rewrite Hn, Hcommit.
Qed.

(** No transaction changes a record that is there: a key that holds a
    document before a transaction holds the same document after it, the
    keys of the allocation records of the transaction apart, which
    [allocateSpend] writes without looking. *)
Theorem record_written_once (st : gmap string (payload num)) (t : transaction num)
    log k :
  run_transaction st t [] = (Returned tt, log) ->
  is_empty (getState st k) = false ->
  ~ allocation_keys t k ->
  getState (commit st log) k = getState st k.
Proof.
  intros E Hk Hna.
  apply run_transaction_writes in E as (key & doc & _ & Hempty & _ & _ & Hkeys).
  unfold getState. rewrite commit_untouched; [done|].
  intros Hin. apply list_elem_of_In, in_map_iff in Hin as (w & <- & Hw).
  apply list_elem_of_In in Hw. rewrite Forall_forall in Hkeys.
  destruct (Hkeys w Hw) as [Heq|Ha]; [|done].
  rewrite Heq in Hk. congruence.
Qed.






Lemma append_longer (s t : string) c : s <> s +:+ String c t.
Proof.
  unfold String.append.
  induction s as [|a s IH]; [discriminate|].
  intros [= E]. by apply IH.
Qed.

(** [createMember] stores a member under ['member' + ssn + ':' +
    contractNumber] and [queryMember] reads ['member' + ssn]: called with
    the argument of the creation, [queryMember] answers what it answered
    before the member was created, while the record sits under the other
    key. *)
Theorem queryMember_misses_created_member now (st : gmap string (payload num)) json log :
  createMember now st json [] = (Returned tt, log) ->
  queryMember (commit st log) json = queryMember st json
  /\ exists ssn contractNumber,
       text json "ssn" = Some ssn
       /\ text json "contractNumber" = Some contractNumber
       /\ queryByKey (commit st log) ("member" +:+ ssn +:+ ":" +:+ contractNumber)
          = Ok (Json (VObj (alist_set (alist_set json "docType" (VStr "member"))
                                      "createDate" (VStr now)))).
Proof.
  unfold createMember, method_bind, method_lift, method_throw, put_json, method_put.
  destruct (text json "ssn") as [ssn|] eqn:Hssn; [|done].
  destruct (text json "contractNumber") as [c|] eqn:Hc; [|done].
  destruct (negb _); [done|]. destruct (writable _); [|done].
  intros [= <-]. simpl. split.
  - unfold queryMember, queryByKey, getState. rewrite Hssn. simpl.
    rewrite lookup_insert_ne; [done|].
    intros E. apply append_inj_r in E. symmetry in E. revert E.
    apply append_longer.
  - exists ssn, c. split; [done|]. split; [done|].
    unfold queryByKey, getState. by rewrite lookup_insert_eq.
Qed.

(** The key of a rating is ['rating' + ngoRegistrationNumber +
    donorUserName], without a separator: two pairs of NGO and donor whose
    concatenations agree share one key.  After a rating for one pair is
    committed, a rating for the other pair is rejected as already there,
    and the query for the other pair returns the rating of the first. *)
Theorem createRating_key_collision (st : gmap string (payload num)) json1 json2
    ngo1 donor1 ngo2 donor2 log :
  text json1 "ngoRegistrationNumber" = Some ngo1 ->
  text json1 "donorUserName" = Some donor1 ->
  text json2 "ngoRegistrationNumber" = Some ngo2 ->
  text json2 "donorUserName" = Some donor2 ->
  ngo1 +:+ donor1 = ngo2 +:+ donor2 ->
  createRating st json1 [] = (Returned tt, log) ->
  createRating (commit st log) json2 []
  = (Failed (ErrAlreadyExists ("rating" +:+ ngo2 +:+ donor2)), [])
  /\ queryDonorRatingsForNGO (commit st log) json2
     = Ok (Json (VObj (alist_set json1 "docType" (VStr "rating")))).
Proof.
  intros Hn1 Hd1 Hn2 Hd2 Hkey.
  unfold createRating, queryDonorRatingsForNGO, queryByKey,
    method_bind, method_lift, method_throw, put_json, method_put.
  rewrite Hn1, Hd1, Hn2, Hd2. simpl. rewrite Hkey.
  destruct (negb _); [done|].
  destruct (writable (VObj (alist_set json1 _ _))); [|done].
  intros [= <-]. simpl.
  unfold getState. rewrite lookup_insert_eq. done.
Qed.

End Records.

(** ** Key ranges *)

Lemma String_compare_prefix (p s t : string) :
  String.compare (p +:+ s) (p +:+ t) = String.compare s t.
Proof.
  induction p as [|a p IH]; simpl; [done|].
  unfold Ascii.compare. by rewrite N.compare_refl.
Qed.

Lemma in_range_prefix (p lo hi k : string) :
  in_range (p +:+ lo) (p +:+ hi) (p +:+ k) = in_range lo hi k.
Proof. unfold in_range, String.leb, String.ltb. by rewrite !String_compare_prefix. Qed.

(** Between ["0"] and ["z"] lie the strings that start with a character
    from ['0'] up to, and not including, ['z']. *)
Lemma in_range_0_z (id : string) :
  in_range "0" "z" id = true
  <-> exists c rest, id = String c rest
                     /\ Ascii.leb "0" c = true /\ Ascii.ltb c "z" = true.
Proof.
  unfold in_range, String.leb, String.ltb, Ascii.leb, Ascii.ltb.
  destruct id as [|c rest]; simpl.
  - split; [done|]. by intros (c & rest & ? & _).
  - rewrite andb_true_iff. split.
    + intros [H0 Hz]. exists c, rest. split; [done|].
      destruct (Ascii.compare "0" c), (Ascii.compare c "z"), rest; simpl in *; done.
    + intros (c' & rest' & [= <- <-] & H0 & Hz).
      destruct (Ascii.compare "0" c), (Ascii.compare c "z"), rest; simpl in *; done.
Qed.

Lemma String_compare_lt_trans (a : string) :
  forall b c,
    String.compare a b = Lt -> String.compare b c = Lt -> String.compare a c = Lt.
Proof.
  induction a as [|x a IH]; intros [|y b] [|z c]; simpl; try done.
  unfold Ascii.compare.
  destruct (N.compare_spec (N_of_ascii x) (N_of_ascii y)) as [Exy|Lxy|Gxy]; [| |done];
    destruct (N.compare_spec (N_of_ascii y) (N_of_ascii z)) as [Eyz|Lyz|Gyz]; try done.
  - rewrite Exy, Eyz, N.compare_refl. apply IH.
  - intros _ _. rewrite Exy. by apply N.compare_lt_iff in Lyz as ->.
  - intros _ _. rewrite <- Eyz. by apply N.compare_lt_iff in Lxy as ->.
  - intros _ _. assert (N_of_ascii x < N_of_ascii z)%N as H by lia.
    by apply N.compare_lt_iff in H as ->.
Qed.

(** The key range of the spends contains the key range of the spend
    allocations. *)
Lemma in_range_spend (k : string) :
  in_range "spendAllocation0" "spendAllocationz" k = true ->
  in_range "spend0" "spendz" k = true.
Proof.
  unfold in_range, String.leb, String.ltb. rewrite !andb_true_iff.
  intros [Hlo Hhi]. split.
  - destruct (String.compare "spendAllocation0" k) eqn:E; [| |done].
    + apply String.compare_eq_iff in E as <-. done.
    + by rewrite (String_compare_lt_trans "spend0" "spendAllocation0" k).
  - destruct (String.compare k "spendAllocationz") eqn:E; try done.
    by rewrite (String_compare_lt_trans k "spendAllocationz" "spendz").
Qed.

Section Listings.
Context {num : Type} `{!JSNumber num}.

#[local] Arguments String.append : simpl never.

Lemma elem_of_getStateByRange (st : gmap string (payload num)) lo hi k v :
  (k, v) ∈ getStateByRange st lo hi <-> st !! k = Some v /\ in_range lo hi k = true.
Proof.
  unfold getStateByRange.
  rewrite merge_sort_Permutation, elem_of_map_to_list, map_lookup_filter_Some.
  simpl. split; intros [? ?]; split; try done; by apply Is_true_true.
Qed.

Lemma elem_of_scanned_records (st : gmap string (payload num)) dt k v :
  (k, v) ∈ scanned_records st dt
  <-> st !! k = Some v /\ in_range (dt +:+ "0") (dt +:+ "z") k = true
      /\ is_empty v = false.
Proof.
  unfold scanned_records.
  rewrite list_elem_of_In, filter_In, <- list_elem_of_In, elem_of_getStateByRange.
  simpl. rewrite negb_true_iff. tauto.
Qed.

(** A query for a document type alone returns every entry of the key
    range that holds something. *)
Lemma queryByString_all (st : gmap string (payload num)) dt :
  dt <> "" ->
  queryByString st (all_query dt) = Ok (map to_entry (scanned_records st dt)).
Proof.
  intros Hdt. unfold queryByString, all_query. simpl.
  apply String.eqb_neq in Hdt. rewrite Hdt. simpl.
  apply scan_loop_unfiltered.
Qed.

(** [queryAllSpend] also returns every spend allocation: the keys of the
    allocation records start with ['spend'] too, and the scan from
    ['spend0'] to ['spendz'] covers them. *)
Theorem queryAllSpend_lists_allocations (st : gmap string (payload num)) :
  exists allocations spends,
    queryAllSpendAllocations st = Ok allocations
    /\ queryAllSpend st = Ok spends
    /\ forall e, e ∈ allocations -> e ∈ spends.
Proof.
  unfold queryAllSpendAllocations, queryAllSpend.
  rewrite !queryByString_all by done.
  eexists _, _. split; [done|]. split; [done|].
  intros e He. apply list_elem_of_In, in_map_iff in He as ([k v] & <- & Hin).
  apply list_elem_of_In, elem_of_scanned_records in Hin as (Hst & Hr & Hv).
  apply list_elem_of_In, in_map, list_elem_of_In, elem_of_scanned_records.
  split; [done|]. split; [|done]. by apply in_range_spend.
Qed.

(** A record that a create method has stored is listed by the query for
    all documents of its type exactly when the part of its key after the
    document type starts with a character from ['0'] up to, and not
    including, ['z']: the scan runs from [docType + '0'] to
    [docType + 'z']. *)
Theorem created_record_listed (st : gmap string (payload num)) (t : transaction num)
    q log :
  run_transaction st t [] = (Returned tt, log) ->
  listing_of t = Some q ->
  exists key doc es,
    record_of t = Some (key, doc)
    /\ q (commit st log) = Ok es
    /\ (mkEntry key (VObj doc) ∈ es
        <-> exists c rest, key = docType_of t +:+ String c rest
                           /\ Ascii.leb "0" c = true /\ Ascii.ltb c "z" = true).
Proof.
  intros E Hq.
  destruct (run_transaction_writes _ _ _ E) as (key & doc & Hrec & _ & Hcommit & _ & _).
  apply run_transaction_log in E as (key' & doc' & rest & Hrec' & Hkey & _).
  assert (key' = key) as -> by congruence. clear Hrec' doc'.
  assert (q (commit st log)
          = Ok (map to_entry (scanned_records (commit st log) (docType_of t)))) as Hes.
  { destruct t; simpl in Hq; simplify_eq; by apply queryByString_all. }
  exists key, doc, (map to_entry (scanned_records (commit st log) (docType_of t))).
  split; [done|]. split; [done|].
  transitivity (in_range "0" "z" rest = true).
  - rewrite <- (in_range_prefix (docType_of t)), <- Hkey. split.
    + intros Hin. apply list_elem_of_In, in_map_iff in Hin as ([k v] & [= -> Hv] & Hin).
      by apply list_elem_of_In, elem_of_scanned_records in Hin as (_ & Hr & _).
    + intros Hr.
      apply list_elem_of_In, (in_map to_entry _ (key, Json (VObj doc))),
        list_elem_of_In, elem_of_scanned_records.
      by repeat split.
  - rewrite in_range_0_z. subst key.
    split; intros (c & rest' & Heq & Hc); exists c, rest'; split; try done.
    + by rewrite Heq.
    + by apply append_inj_r in Heq.
Qed.

Lemma scan_loop_elem jsonRecord (scanned : list (string * payload num)) :
  forall es,
    scan_loop jsonRecord scanned = Ok es ->
    forall e, e ∈ es <-> exists x ps, x ∈ scanned /\ scan_one jsonRecord x = Ok ps /\ e ∈ ps.
Proof.
  induction scanned as [|x rest IH]; intros es.
  - simpl. intros [= <-] e. split; [by intros ?%elem_of_nil|].
    by intros (x & ps & ?%elem_of_nil & _).
  - rewrite scan_loop_cons. intros E e.
    apply rbind_ok in E as (ps & Hps & E). apply rbind_ok in E as (es' & Hes' & [= <-]).
    rewrite elem_of_app, (IH es' Hes' e). split.
    + intros [Hin | (y & qs & Hy & Hqs & Hin)].
      * exists x, ps. split; [by left|done].
      * exists y, qs. split; [by right|done].
    + intros (y & qs & Hy & Hqs & Hin).
      apply elem_of_cons in Hy as [-> | Hy].
      * left. congruence.
      * right. by exists y, qs.
Qed.

(** [querySpendForNGO] also returns the spend allocations of the NGO:
    every allocation record that [allocateSpend] reads for the NGO (line
    206) is among its results. *)
Theorem querySpendForNGO_lists_allocations (st : gmap string (payload num)) json ngo
    allocations spends :
  text json "ngoRegistrationNumber" = Some ngo ->
  queryByString st (ngo_query "spendAllocation" ngo) = Ok allocations ->
  querySpendForNGO st json = Ok spends ->
  forall e, e ∈ allocations -> e ∈ spends.
Proof.
  intros Hngo Ha Hs e He.
  unfold querySpendForNGO, field_query in Hs. rewrite Hngo in Hs. simpl in Hs.
  destruct (json_safe ngo); [|done]. simpl in Hs.
  change (queryByString st _)
    with (scan_loop [("docType", VStr "spend"); ("ngoRegistrationNumber", VStr ngo)]
            (getStateByRange st "spend0" "spendz")) in Hs.
  rewrite queryByString_spendAllocations in Ha.
  apply (scan_loop_elem _ _ _ Ha) in He as ([k v] & ps & Hx & Hps & He).
  apply (scan_loop_elem _ _ _ Hs).
  exists (k, v), ps. split; [|done].
  apply elem_of_getStateByRange in Hx as [Hst Hr].
  apply elem_of_getStateByRange. split; [done|]. by apply in_range_spend.
Qed.

End Listings.

(** ** Donations and the funds of an NGO *)

Lemma key_outside_allocations id :
  in_range "spendAllocation0" "spendAllocationz" ("donation" +:+ id) = false.
Proof. reflexivity. Qed.

Lemma donation_key_not_ngo id ngo : "donation" +:+ id <> "ngo" +:+ ngo.
Proof. discriminate. Qed.

Section Funds.
Context {num : Type} `{!JSNumber num}.

#[local] Arguments writable : simpl never.
#[local] Arguments String.append : simpl never.
#[local] Arguments to_string : simpl never.
#[local] Arguments alist_set : simpl never.

(** [allocateSpend] reads the world state through the NGO documents and
    the two scans only. *)
Lemma allocateSpend_same_history fuel (st1 st2 : gmap string (payload num)) txID spend l :
  same_history st1 st2 ->
  allocateSpend fuel st1 txID spend l = allocateSpend fuel st2 txID spend l.
Proof.
  intros (Hngo & Hd & Hs).
  unfold allocateSpend, queryByKey.
  destruct (valid_amount spend); [|done].
  destruct (negb _); [done|].
  unfold tx_bind, tx_lift.
  destruct (supported _) as [ngoStr| | |]; try done.
  rewrite !queryByString_donations, !queryByString_spendAllocations.
  by rewrite Hngo, Hd, Hs.
Qed.

Lemma createDonation_log (st : gmap string (payload num)) json log :
  createDonation st json [] = (Returned tt, log) ->
  exists id,
    text json "donationId" = Some id
    /\ is_empty (getState st ("donation" +:+ id)) = true
    /\ log = [("donation" +:+ id,
               Json (VObj (alist_set json "docType" (VStr "donation"))))].
Proof.
  unfold createDonation, method_bind, method_lift, method_throw, put_json, method_put.
  intros E. repeat case_match; simplify_eq.
  eexists. split; [done|]. split; [by apply negb_false_iff|done].
Qed.

(** A donation whose key lies outside the scan from ['donation0'] to
    ['donationz'] (its id is empty, or starts with a character below ['0']
    or from ['z'] on) is stored and can be read back by its id, but
    [allocateSpend] never sees it: every later call runs as if the donation
    had not been made. *)
Theorem donation_outside_range_not_spendable (st : gmap string (payload num)) json id log :
  text json "donationId" = Some id ->
  in_range "donation0" "donationz" ("donation" +:+ id) = false ->
  createDonation st json [] = (Returned tt, log) ->
  queryDonation (commit st log) json
  = Ok (Json (VObj (alist_set json "docType" (VStr "donation"))))
  /\ forall fuel txID spend l,
       allocateSpend fuel (commit st log) txID spend l
       = allocateSpend fuel st txID spend l.
Proof.
  intros Hid Hout E.
  apply createDonation_log in E as (id' & Hid' & _ & ->).
  assert (id' = id) as -> by congruence.
  simpl. split.
  - unfold queryDonation, queryByKey, getState. rewrite Hid. simpl.
    by rewrite lookup_insert_eq.
  - intros fuel txID spend l. apply allocateSpend_same_history.
    split; [|split].
    + intros ngo. unfold getState. rewrite lookup_insert_ne; [done|].
      apply donation_key_not_ngo.
    + by apply scan_insert_outside.
    + apply scan_insert_outside, key_outside_allocations.
Qed.

(** A write to a key of the range that held nothing adds to the result of
    a query what the loop pushes for the new entry. *)
Lemma scan_loop_insert jsonRecord (st : gmap string (payload num)) k v lo hi es pushes :
  in_range lo hi k = true ->
  is_empty (getState st k) = true ->
  scan_loop jsonRecord (getStateByRange st lo hi) = Ok es ->
  scan_one jsonRecord (k, v) = Ok pushes ->
  exists es',
    scan_loop jsonRecord (getStateByRange (<[k := v]> st) lo hi) = Ok es'
    /\ es' ≡ₚ pushes ++ es.
Proof.
  intros Hk Hempty Hes Hpush.
  assert (exists es0, scan_loop jsonRecord (getStateByRange (delete k st) lo hi) = Ok es0
                      /\ es ≡ₚ es0) as (es0 & Hes0 & Hperm).
  { unfold getState in Hempty. destruct (st !! k) as [p|] eqn:Hp; simpl in Hempty.
    - assert (getStateByRange st lo hi ≡ₚ (k, p) :: getStateByRange (delete k st) lo hi)
        as Hscan.
      { rewrite <- (insert_delete_id st k p Hp) at 1.
        apply scan_insert_fresh; [done|apply lookup_delete_eq]. }
      destruct (scan_loop_perm _ _ _ Hscan _ Hes) as (es0 & Hes0 & Hperm).
      exists es0. split; [|done]. simpl in Hes0. by rewrite Hempty in Hes0.
    - exists es. split; [|done]. by rewrite delete_id. }
  assert (getStateByRange (<[k := v]> st) lo hi
          ≡ₚ (k, v) :: getStateByRange (delete k st) lo hi) as Hscan.
  { rewrite <- insert_delete_eq. apply scan_insert_fresh; [done|apply lookup_delete_eq]. }
  symmetry in Hscan.
  destruct (scan_loop_perm jsonRecord _ _ Hscan (pushes ++ es0)) as (es' & Hes' & Hperm').
  { rewrite scan_loop_cons, Hpush, Hes0. done. }
  exists es'. split; [done|]. by rewrite <- Hperm', Hperm.
Qed.

End Funds.

Section ExactFunds.
Local Open Scope Q_scope.

#[local] Arguments String.append : simpl never.
#[local] Arguments alist_set : simpl never.
#[local] Arguments filter_pushes : simpl never.

Lemma load_donations_sum (ds : list (@entry Q)) :
  forall t m td dm,
    load_donations ds t m = Ok (td, dm) -> td == t + donations_total ds.
Proof.
  induction ds as [|e ds IH]; intros t m td dm.
  - simpl. intros [= <- _]. lra.
  - rewrite load_donations_cons. intros E.
    apply rbind_ok in E as (p & Ep & E).
    rewrite (IH _ _ _ _ E). simpl. rewrite Ep. lra.
Qed.

(** [load_donations] succeeds exactly when every result can be read. *)
Lemma load_donations_ok_iff (l : list (@entry Q)) :
  forall t m,
    (exists r, load_donations l t m = Ok r)
    <-> Forall (fun e => exists p, entry_donation e = Ok p) l.
Proof.
  induction l as [|e l IH]; intros t m.
  - simpl. split; [by constructor|]. intros _. by eexists.
  - rewrite load_donations_cons, Forall_cons. split.
    + intros [r E]. apply rbind_ok in E as (p & Ep & E).
      split; [by eexists|]. apply (IH (num_add t p.2) (alist_set m p.1 p.2)).
      by eexists.
    + intros [[p Ep] Hl]. rewrite Ep. simpl. by apply IH.
Qed.

Lemma donations_total_perm (l l' : list (@entry Q)) :
  l ≡ₚ l' -> donations_total l == donations_total l'.
Proof.
  induction 1 as [|x l l' _ IH|x y l|l l' l'' _ IH1 _ IH2]; simpl; lra.
Qed.

Lemma donations_total_app (l1 l2 : list (@entry Q)) :
  donations_total (l1 ++ l2) == donations_total l1 + donations_total l2.
Proof. induction l1 as [|e l1 IH]; simpl; lra. Qed.

(** A donation with a key inside the scan raises the funds of its NGO by
    its amount, in exact arithmetic.  Take an NGO id [g] that stands
    between the quotes of the query string as it is.  Once the donation
    is committed, [allocateSpend] finds the amounts already allocated for
    [g] unchanged; and when it could total the donations of [g] before
    (the records it matches hold numbers as amounts and strings as ids),
    it finds the total larger by the donation amount if [g] is the NGO
    of the donation, and as it was otherwise. *)
Theorem createDonation_raises_funds (st : gmap string (payload Q)) json id ngo a log :
  alist_get json "donationId" = Some (VStr id) ->
  alist_get json "donationAmount" = Some (VNum a) ->
  alist_get json "ngoRegistrationNumber" = Some (VStr ngo) ->
  ngo <> "" ->
  in_range "donation0" "donationz" ("donation" +:+ id) = true ->
  createDonation st json [] = (Returned tt, log) ->
  forall g,
    json_safe g = true ->
    allocated_of (commit st log) g = allocated_of st g
    /\ forall td dm,
         donations_of st g = Ok (td, dm) ->
         exists td' dm',
           donations_of (commit st log) g = Ok (td', dm')
           /\ td' == td + (if String.eqb g ngo then a else 0).
Proof.
  intros Hid Ha Hngo Hne Hin E.
  apply createDonation_log in E as (id' & Hid' & Hempty & ->).
  unfold text in Hid'. rewrite Hid in Hid'. injection Hid' as <-.
  simpl commit. intros g Hg. split.
  - rewrite !allocated_of_unfold, Hg.
    rewrite !queryByString_spendAllocations.
    by rewrite scan_insert_outside by apply key_outside_allocations.
  - intros td dm. rewrite !donations_of_unfold, Hg.
    rewrite !queryByString_donations.
    destruct (scan_loop _ (getStateByRange st _ _)) as [es| | |] eqn:Hes; try done.
    simpl. intros Hld.
    set (doc := alist_set json "docType" (VStr "donation")).
    set (e := mkEntry ("donation" +:+ id) (VObj doc) : @entry Q).
    assert (alist_get doc "ngoRegistrationNumber" = Some (VStr ngo)) as Hngo'
      by (unfold doc; by rewrite alist_get_set_ne).
    assert (scan_one [("docType", VStr "donation"); ("ngoRegistrationNumber", VStr g)]
              ("donation" +:+ id, Json (VObj doc))
            = Ok (if String.eqb g ngo then [e] else [])) as Hpush.
    { unfold scan_one. simpl.
      rewrite (filter_pushes_one _ (VStr "donation") "ngoRegistrationNumber" (VStr g));
        [|done|reflexivity|reflexivity|reflexivity|by left|].
      - unfold field_matches. simpl. rewrite Hngo'. simpl.
        apply String.eqb_neq in Hne. rewrite Hne. simpl.
        rewrite (String.eqb_sym ngo g). by destruct (String.eqb g ngo).
      - unfold comparable. simpl. by rewrite Hngo'. }
    assert (entry_donation e = Ok (id, a)) as He.
    { unfold entry_donation, e, doc. simpl.
      by rewrite !alist_get_set_ne, Ha, Hid by done. }
    destruct (scan_loop_insert _ st _ (Json (VObj doc)) _ _ es _ Hin Hempty Hes Hpush)
      as (es' & Hes' & Hperm).
    rewrite Hes'. simpl.
    destruct (proj2 (load_donations_ok_iff es' 0 [])) as [[td' dm'] Hld'].
    { rewrite Hperm. apply Forall_app. split.
      - destruct (String.eqb g ngo); repeat constructor. by eexists.
      - apply (load_donations_ok_iff es 0 []). by eexists. }
    exists td', dm'. split; [done|].
    rewrite (load_donations_sum _ _ _ _ _ Hld'), (load_donations_sum _ _ _ _ _ Hld),
      (donations_total_perm _ _ Hperm), donations_total_app.
    destruct (String.eqb g ngo); simpl; rewrite ?He; simpl; lra.
Qed.

End ExactFunds.

(** ** What createSpend throws *)

Section SpendErrors.
Context {num : Type} `{!JSNumber num}.

#[local] Arguments to_string : simpl never.
#[local] Arguments alist_set : simpl never.
#[local] Arguments String.append : simpl never.

Lemma get_prop_throw (v : value num) k e : get_prop v k = Throw e -> e = ErrTypeError.
Proof.
  destruct v as [| | | | |o]; simpl; try congruence;
    try (destruct (builtin_member k); congruence).
  destruct (alist_get o k); [congruence|]. by destruct (inherited k).
Qed.

Lemma filter_pushes_throw (jsonRecord : @obj num) jsonRes e :
  filter_pushes jsonRecord jsonRes = Throw e -> e = ErrTypeError.
Proof.
  induction jsonRecord as [|[key wanted] rest IH]; simpl; [done|].
  destruct (negb (printable wanted)); [congruence|].
  destruct (String.eqb key "docType"); [done|].
  destruct (get_prop (Rec jsonRes) key) as [got| | |] eqn:Hg; simpl; try done.
  - destruct (negb (printable_opt got)); [congruence|].
    destruct (truthy got); [destruct got as [g|]; [destruct (loose_eq g wanted)|]|];
      simpl; try done;
      destruct (filter_pushes rest jsonRes); simpl; try done; exact IH.
  - intros [= <-]. by apply get_prop_throw in Hg.
Qed.

Lemma scan_loop_throw (jsonRecord : @obj num) scanned e :
  scan_loop jsonRecord scanned = Throw e -> e = ErrTypeError.
Proof.
  induction scanned as [|[k p] rest IH]; simpl; [done|].
  destruct (is_empty p); [done|].
  destruct (length jsonRecord =? 1)%nat; simpl.
  - destruct (scan_loop jsonRecord rest); simpl; try done; exact IH.
  - destruct (filter_pushes jsonRecord _) eqn:Hf; simpl; try done.
    + destruct (scan_loop jsonRecord rest); simpl; try done; exact IH.
    + intros [= <-]. by apply filter_pushes_throw in Hf.
Qed.

Lemma load_donations_throw (ds : list (@entry num)) e :
  forall t m, load_donations ds t m = Throw e -> e = ErrTypeError.
Proof.
  induction ds as [|d ds IH]; intros t m; simpl; [done|].
  destruct (get_prop (Rec d) "donationAmount") as [x| | |] eqn:H1; simpl; try done;
    [|intros [= <-]; by apply get_prop_throw in H1].
  destruct (supported (get_number x)) as [y| | |] eqn:H2; simpl; try done;
    [|by destruct (get_number x)].
  destruct (get_prop (Rec d) "donationId") as [i| | |] eqn:H3; simpl; try done;
    [|intros [= <-]; by apply get_prop_throw in H3].
  destruct (supported (get_string i)) as [j| | |] eqn:H4; simpl; try done;
    [apply IH|by destruct (get_string i)].
Qed.

Lemma load_spend_throw (ds : list (@entry num)) e :
  forall t m, load_spend ds t m = Throw e -> e = ErrTypeError.
Proof.
  induction ds as [|d ds IH]; intros t m; simpl; [done|].
  destruct (get_prop (Rec d) "spendAllocationAmount") as [x| | |] eqn:H1; simpl; try done;
    [|intros [= <-]; by apply get_prop_throw in H1].
  destruct (supported (get_number x)) as [y| | |] eqn:H2; simpl; try done;
    [|by destruct (get_number x)].
  destruct (get_prop (Rec d) "donationId") as [i| | |] eqn:H3; simpl; try done;
    [|intros [= <-]; by apply get_prop_throw in H3].
  destruct (supported (get_string i)) as [j| | |] eqn:H4; simpl; try done;
    [apply IH|by destruct (get_string i)].
Qed.

(** The allocation loop only adds to the write log, however it ends. *)
Lemma allocate_loop_extends fuel txID spend ngo donationMap :
  forall (s : @alloc_state num) log r log',
    allocate_loop fuel txID spend ngo donationMap s log = (r, log') ->
    exists new, log' = log ++ new.
Proof.
  induction fuel as [|fuel IH]; intros s log r log'; simpl.
  - intros [= <- <-]. exists []. by rewrite app_nil_r.
  - destruct (num_leb (spendAmount s) num_zero).
    { intros [= <- <-]. exists []. by rewrite app_nil_r. }
    destruct (negb _).
    { intros [= <- <-]. exists []. by rewrite app_nil_r. }
    destruct (_ =? _)%nat.
    { intros [= <- <-]. exists []. by rewrite app_nil_r. }
    destruct (negb _).
    { intros [= <- <-]. exists []. by rewrite app_nil_r. }
    unfold tx_bind.
    destruct (allocate_round_ok txID spend ngo
                (num_div (spendAmount s)
                   (num_of_nat (count_available donationMap (donationSpendMap s))))
                donationMap s log) as (s' & l' & Hround).
    rewrite Hround. apply allocate_round_log in Hround as (new1 & -> & _).
    intros E. apply IH in E as (new2 & ->).
    exists (new1 ++ new2). by rewrite app_assoc.
Qed.

(** *** Well-formed stores *)

Lemma filter_pushes_well_formed amount g dt (jsonRes : @entry num) :
  well_formed_object amount (Rec jsonRes) = true ->
  filter_pushes [("docType", VStr dt); ("ngoRegistrationNumber", VStr g)] jsonRes
  = Ok (if field_matches "ngoRegistrationNumber" (VStr g) (Rec jsonRes)
        then [jsonRes] else []).
Proof.
  intros Hw.
  apply (filter_pushes_one _ (VStr dt) "ngoRegistrationNumber" (VStr g));
    [done|reflexivity|reflexivity|reflexivity|by left|].
  unfold comparable. destruct (Rec jsonRes) as [| | | | |o]; try done.
  simpl in Hw.
  destruct (alist_get o "ngoRegistrationNumber") as [[| | |n| |]|]; try done.
Qed.

(** On a well-formed scan the query of [allocateSpend] throws a TypeError
    on a record that is [null], or returns well-formed objects. *)
Lemma scan_loop_well_formed amount g dt (scanned : list (string * payload num)) :
  Forall (fun e => is_empty e.2 = false -> well_formed amount (parse_record e.2) = true)
         scanned ->
  ((exists e, e ∈ scanned /\ is_empty e.2 = false /\ parse_record e.2 = VNull)
   /\ scan_loop [("docType", VStr dt); ("ngoRegistrationNumber", VStr g)] scanned
      = Throw ErrTypeError)
  \/ exists es,
       scan_loop [("docType", VStr dt); ("ngoRegistrationNumber", VStr g)] scanned = Ok es
       /\ Forall (fun e => well_formed_object amount (Rec e) = true) es.
Proof.
  induction 1 as [|[k p] rest Hp _ IH].
  - right. exists []. split; [done|constructor].
  - rewrite scan_loop_cons. unfold scan_one. simpl fst. simpl snd. simpl in Hp.
    destruct (is_empty p) eqn:Ep.
    { destruct IH as [[(e & He & Hne & Hnull) ->] | (es & -> & Hes)].
      - left. split; [|done]. exists e. split; [by right|done].
      - right. by exists es. }
    specialize (Hp eq_refl). change (length _ =? 1)%nat with false. cbv iota.
    destruct (parse_record p) as [| | | | |o] eqn:Er; try done.
    + left. split; [exists (k, p); split; [by left|done]|].
      rewrite (filter_pushes_null _ (VStr dt) "ngoRegistrationNumber" (VStr g));
        [done|done|reflexivity|reflexivity|by left|reflexivity].
    + assert (well_formed_object amount (Rec (mkEntry k (VObj o))) = true) as Hw
        by exact Hp.
      rewrite (filter_pushes_well_formed amount g dt _ Hw).
      destruct IH as [[(e & He & Hne & Hnull) ->] | (es & -> & Hes)].
      * left. split; [|done]. exists e. split; [by right|done].
      * right. eexists. split; [done|].
        apply Forall_app. split; [|done].
        destruct (field_matches _ _ _); by repeat constructor.
Qed.

Lemma well_formed_scanned amount (l : list (string * payload num)) :
  forallb (fun e => well_formed amount (parse_record e.2))
          (List.filter (fun e => negb (is_empty e.2)) l) = true ->
  Forall (fun e => is_empty e.2 = false -> well_formed amount (parse_record e.2) = true) l.
Proof.
  rewrite forallb_forall. intros Hall. apply Forall_forall. intros e He Hne.
  apply Hall, filter_In. split; [by apply list_elem_of_In|by rewrite Hne].
Qed.

Lemma load_donations_well_formed (es : list (@entry num)) :
  Forall (fun e => well_formed_object "donationAmount" (Rec e) = true) es ->
  forall t m, exists r, load_donations es t m = Ok r.
Proof.
  induction 1 as [|e es He _ IH]; intros t m; [by eexists|].
  rewrite load_donations_cons. unfold entry_donation.
  destruct (Rec e) as [| | | | |o]; try done. simpl in *.
  destruct (alist_get o "ngoRegistrationNumber") as [[| | |n| |]|]; try done.
  destruct (alist_get o "donationAmount") as [[| |x| | |]|]; try done.
  destruct (alist_get o "donationId") as [[| | |i| |]|]; try done.
  simpl. rewrite He. simpl. apply IH.
Qed.

Lemma load_spend_well_formed (es : list (@entry num)) :
  Forall (fun e => well_formed_object "spendAllocationAmount" (Rec e) = true) es ->
  forall t m, exists r, load_spend es t m = Ok r.
Proof.
  induction 1 as [|e es He _ IH]; intros t m; [by eexists|].
  rewrite load_spend_cons. unfold entry_alloc.
  destruct (Rec e) as [| | | | |o]; try done. simpl in *.
  destruct (alist_get o "ngoRegistrationNumber") as [[| | |n| |]|]; try done.
  destruct (alist_get o "spendAllocationAmount") as [[| |x| | |]|]; try done.
  destruct (alist_get o "donationId") as [[| | |i| |]|]; try done.
  simpl. rewrite He. simpl. apply IH.
Qed.

(** On a well-formed store the two loads of [allocateSpend] throw a
    TypeError or give totals. *)
Lemma donations_of_well_formed (st : gmap string (payload num)) g :
  well_formed_history st = true -> json_safe g = true ->
  donations_of st g = Throw ErrTypeError \/ exists r, donations_of st g = Ok r.
Proof.
  intros Hst Hg. apply andb_prop in Hst as [Hd _].
  rewrite donations_of_unfold, Hg, queryByString_donations.
  destruct (scan_loop_well_formed "donationAmount" g "donation"
              (getStateByRange st "donation0" "donationz"))
    as [[_ ->] | (es & -> & Hes)]; [by apply well_formed_scanned|by left|].
  right. simpl. by apply load_donations_well_formed.
Qed.

Lemma allocated_of_well_formed (st : gmap string (payload num)) g :
  well_formed_history st = true -> json_safe g = true ->
  allocated_of st g = Throw ErrTypeError \/ exists r, allocated_of st g = Ok r.
Proof.
  intros Hst Hg. apply andb_prop in Hst as [_ Ha].
  rewrite allocated_of_unfold, Hg, queryByString_spendAllocations.
  destruct (scan_loop_well_formed "spendAllocationAmount" g "spendAllocation"
              (getStateByRange st "spendAllocation0" "spendAllocationz"))
    as [[_ ->] | (es & -> & Hes)]; [by apply well_formed_scanned|by left|].
  right. simpl. by apply load_spend_well_formed.
Qed.

Lemma thrown_early (e0 : error) :
  e0 ∈ [ErrNgoDoesNotExist; ErrSpendExists; ErrSpendAmountInvalid;
        ErrSpendIdRequired; ErrTypeError; ErrInsufficientFunds] ->
  (Throw (A:=unit) e0, @nil (@write num)).1 <> Unsupported
  /\ forall e log,
       (Throw (A:=unit) e0, @nil (@write num)) = (Throw e, log) ->
       (log = []
        /\ e ∈ [ErrNgoDoesNotExist; ErrSpendExists; ErrSpendAmountInvalid;
                ErrSpendIdRequired; ErrTypeError; ErrInsufficientFunds])
       \/ (log <> [] /\ loop_error e).
Proof. intros H. split; [done|]. intros e log [= <- <-]. by left. Qed.

(** All that [createSpend] can throw, for a request whose spend id and
    NGO id have a text (a string, a boolean, [null] or nothing), the NGO
    id standing between the quotes of the query strings as it is, on a
    store whose scanned donation and allocation records are well formed.
    The run stays inside the modelled fragment.  A throw before anything
    is written: the NGO is not there, the spend is there already, the
    amount or the id of the spend is not valid, a TypeError (a scanned
    record is [null], or the amount has no text for the message of line
    163), or the funds do not cover the amount.  A throw after the spend
    record is written: one of the three errors of the allocation loop.
    The NGO check of [allocateSpend] never fails under [createSpend], which
    has made the same check before, so neither the error of [queryByKey]
    nor the [ReferenceError] of line 175 comes out of [createSpend]. *)
Theorem createSpend_throws fuel (st : gmap string (payload num)) txID json
    spendId ngoStr :
  text json "spendId" = Some spendId ->
  text json "ngoRegistrationNumber" = Some ngoStr ->
  json_safe ngoStr = true ->
  well_formed_history st = true ->
  (createSpend fuel st txID json []).1 <> Unsupported
  /\ forall e log,
       createSpend fuel st txID json [] = (Throw e, log) ->
       (log = []
        /\ e ∈ [ErrNgoDoesNotExist; ErrSpendExists; ErrSpendAmountInvalid;
                ErrSpendIdRequired; ErrTypeError; ErrInsufficientFunds])
       \/ (log <> [] /\ loop_error e).
Proof.
  intros Hid Hngo Hsafe Hst. unfold text in Hid, Hngo.
  destruct (donations_of_well_formed st ngoStr Hst Hsafe) as [Hd | [[td dm] Hd]];
    destruct (allocated_of_well_formed st ngoStr Hst Hsafe) as [Ha | [[ts sm] Ha]];
    rewrite donations_of_unfold, Hsafe in Hd;
    rewrite allocated_of_unfold, Hsafe in Ha;
    unfold createSpend, allocateSpend, tx_bind, tx_lift, putState, tx_ret, queryByKey;
    rewrite Hid; simpl; rewrite !alist_get_set_ne by done; rewrite Hngo; simpl;
    (destruct (is_empty (getState st ("ngo" +:+ ngoStr))) eqn:Hn;
     [apply thrown_early; repeat constructor|]);
    (destruct (negb (is_empty (getState st ("spend" +:+ spendId))));
     [apply thrown_early; repeat constructor|]);
    (destruct (valid_amount _) as [amount|];
     [|simpl; apply thrown_early; destruct (printable_opt _); repeat constructor]);
    (destruct (negb (truthy _)); [apply thrown_early; repeat constructor|]);
    simpl; rewrite Hn, Hsafe; simpl;
    (destruct (queryByString st (ngo_query "donation" ngoStr)) as [ds|e1| |];
     simpl in Hd; try discriminate Hd;
     first [injection Hd as ->; simpl; apply thrown_early; repeat constructor
           |rewrite Hd; simpl]);
    try (apply thrown_early; repeat constructor);
    (destruct (queryByString st (ngo_query "spendAllocation" ngoStr)) as [sas|e1| |];
     simpl in Ha; try discriminate Ha;
     first [injection Ha as ->; simpl; apply thrown_early; repeat constructor
           |rewrite Ha; simpl]);
    try (apply thrown_early; repeat constructor).
  destruct (num_ltb _ amount); [apply thrown_early; repeat constructor|].
  rewrite Hid. simpl.
  destruct (allocate_loop _ _ _ _ _ _ _) as [[[]| | |] log2] eqn:Hloop; simpl.
  - split; [done|]. intros e log [=].
  - split; [done|]. intros e' log [= <- <-]. right. split.
    + apply allocate_loop_extends in Hloop as (new & ->). done.
    + by apply allocate_loop_throw in Hloop.
  - by apply allocate_loop_supported in Hloop.
  - split; [done|]. intros e log [=].
Qed.

End SpendErrors.

(** ** Selectors with several fields *)

Section Selectors.
Context {num : Type} `{!JSNumber num}.

#[local] Arguments truthy : simpl never.
#[local] Arguments loose_eq : simpl never.
#[local] Arguments to_string : simpl never.

#[local] Arguments builtin_member : simpl never.
#[local] Arguments printable : simpl never.

(** The [for ... in] loop pushes the entry once for every field that
    matches. *)
Lemma filter_pushes_matches (jsonRecord : @obj num) (jsonRes : @entry num) :
  existsb (fun kv => builtin_member kv.1) jsonRecord = false ->
  forallb (fun kv => printable kv.2) jsonRecord = true ->
  selectable jsonRecord (Rec jsonRes) ->
  filter_pushes jsonRecord jsonRes
  = Ok (replicate (matches jsonRecord (Rec jsonRes)) jsonRes).
Proof.
  unfold selectable, matches.
  induction jsonRecord as [|[f wanted] rest IH]; simpl; [done|].
  intros Hb Hp Hall. apply orb_false_iff in Hb as [Hb Hrest].
  apply andb_prop in Hp as [Hw Hp].
  apply Forall_cons in Hall as [Hf Hall]. simpl in Hf.
  rewrite Hw. simpl. rewrite (IH Hrest Hp Hall).
  destruct (String.eqb f "docType") eqn:Ef; simpl; [done|].
  apply String.eqb_neq in Ef. specialize (Hf Ef).
  pose proof (builtin_member_inherited f Hb) as Hinh.
  unfold comparable, field_matches in *.
  destruct (Rec jsonRes) as [| | | | |o]; try done; simpl; rewrite ?Hb; try done.
  destruct (alist_get o f) as [g|]; simpl; [|by rewrite Hinh].
  destruct Hf as [Hg Hf]. rewrite Hg. simpl.
  destruct (truthy (Some g)) eqn:Et; simpl; [|done].
  destruct (loose_eq g wanted) as [[|]|]; simpl; try done.
  by specialize (Hf eq_refl).
Qed.

Lemma scan_loop_matches (jsonRecord : @obj num) (scanned : list (string * payload num)) :
  length jsonRecord <> 1%nat ->
  existsb (fun kv => builtin_member kv.1) jsonRecord = false ->
  forallb (fun kv => printable kv.2) jsonRecord = true ->
  Forall (fun e => selectable jsonRecord (parse_record e.2))
         (List.filter (fun e => negb (is_empty e.2)) scanned) ->
  scan_loop jsonRecord scanned
  = Ok (flat_map (fun e => replicate (matches jsonRecord (parse_record e.2)) (to_entry e))
                 (List.filter (fun e => negb (is_empty e.2)) scanned)).
Proof.
  intros Hlen Hb Hp. apply Nat.eqb_neq in Hlen.
  induction scanned as [|[k p] rest IH]; simpl; [done|].
  destruct (is_empty p) eqn:Ep; simpl; [done|].
  intros Hall. apply Forall_cons in Hall as [Hc Hall].
  rewrite Hlen, filter_pushes_matches by done.
  simpl. by rewrite IH.
Qed.

Lemma existsb_builtin_inherited (jsonRecord : @obj num) :
  existsb (fun kv => builtin_member kv.1) jsonRecord = false ->
  existsb (fun kv => inherited kv.1) jsonRecord = false.
Proof.
  induction jsonRecord as [|[f v] rest IH]; simpl; [done|].
  intros Hb. apply orb_false_iff in Hb as [Hb Hrest].
  by rewrite (builtin_member_inherited f Hb), IH.
Qed.

(** A selector with several fields besides [docType] does not ask for
    all of them: the query returns a scanned record once for every field
    that it matches, so a record that matches one field of two is
    returned, and a record that matches both is returned twice.  This
    holds when no field of the selector is named like a built-in member,
    every value of the selector has a text, and every scanned record can
    be compared with every field ([selectable]): it is not [null], and the
    values it holds under the fields of the selector have a text and are
    compared without a conversion. *)
Theorem queryByString_fields_are_alternatives (st : gmap string (payload num))
    query jsonRecord dt s :
  alist_get query "selector" = Some (VObj jsonRecord) ->
  alist_get jsonRecord "docType" = Some dt ->
  truthy (Some dt) = true ->
  to_string (Some dt) = Some s ->
  length jsonRecord <> 1%nat ->
  existsb (fun kv => builtin_member kv.1) jsonRecord = false ->
  forallb (fun kv => printable kv.2) jsonRecord = true ->
  Forall (fun e => selectable jsonRecord (parse_record e.2)) (scanned_records st s) ->
  queryByString st (VObj query)
  = Ok (flat_map (fun e => replicate (matches jsonRecord (parse_record e.2)) (to_entry e))
                 (scanned_records st s)).
Proof.
  intros Hsel Hget Hdt Hs Hlen Hb Hp Hall.
  unfold queryByString, scanned_records. simpl.
  rewrite Hsel. simpl. rewrite Hget. simpl. rewrite Hdt, Hs. simpl.
  rewrite (existsb_builtin_inherited jsonRecord Hb).
  by apply scan_loop_matches.
Qed.

End Selectors.

(** ** Spends in exact arithmetic *)

Section ExactSpend.
Local Open Scope Q_scope.

#[local] Arguments availableAmountForDonor : simpl never.
#[local] Arguments add_spend : simpl never.
#[local] Arguments alist_set : simpl never.
#[local] Arguments String.append : simpl never.
#[local] Arguments to_string : simpl never.

Lemma allocate_round_positive txID spend ngo share dm :
  0 < share ->
  forall (s s' : @alloc_state Q) log log',
    allocate_round txID spend ngo share dm s log = (Ok s', log') ->
    exists new, log' = log ++ new /\ Forall (fun p => 0 < p.2) (allocations new).
Proof.
  intros Hshare.
  induction dm as [|d rest IH]; intros s s' log log'; simpl.
  - intros [= <- <-]. exists []. rewrite app_nil_r. split; [done|constructor].
  - unfold tx_bind at 1.
    set (step := if Qle_bool share _ then _ else _).
    destruct (step log) as [[s1| | |] log1] eqn:E; try discriminate.
    intros Hrest. apply IH in Hrest as (new & -> & Hnew).
    subst step.
    destruct (Qle_bool share _) eqn:E1; [|destruct (Qltb 0 _) eqn:E2].
    + apply allocate_inv in E as ((w & -> & Hw) & _).
      exists (w :: new). rewrite <- app_assoc. split; [done|].
      unfold allocations. simpl. rewrite Hw. by constructor.
    + apply allocate_inv in E as ((w & -> & Hw) & _).
      exists (w :: new). rewrite <- app_assoc. split; [done|].
      unfold allocations. simpl. rewrite Hw. constructor; [|done].
      by apply Qltb_true in E2.
    + injection E as <- <-. by exists new.
Qed.

Lemma allocate_loop_positive fuel txID spend ngo dm :
  forall (s : @alloc_state Q) log r log',
    allocate_loop fuel txID spend ngo dm s log = (r, log') ->
    exists new, log' = log ++ new /\ Forall (fun p => 0 < p.2) (allocations new).
Proof.
  assert (forall log : list (@write Q),
            exists new, log = log ++ new /\ Forall (fun p => 0 < p.2) (allocations new))
    as Hnil.
  { intros log. exists []. rewrite app_nil_r. split; [done|constructor]. }
  induction fuel as [|fuel IH]; intros s log r log'; simpl.
  - intros [= <- <-]. apply Hnil.
  - destruct (Qle_bool (spendAmount s) 0) eqn:E0; [intros [= <- <-]; apply Hnil|].
    apply Qle_bool_false in E0.
    destruct (negb _); [intros [= <- <-]; apply Hnil|].
    destruct (_ =? _)%nat eqn:En; [intros [= <- <-]; apply Hnil|].
    destruct (negb _); [intros [= <- <-]; apply Hnil|].
    destruct (share_spec (spendAmount s) _ E0 En) as [Hshare _].
    unfold tx_bind.
    destruct (allocate_round _ _ _ _ _ _ _) as [[s1| | |] log1] eqn:E.
    2-4: edestruct (allocate_round_ok txID spend ngo) as (s' & l' & E');
         rewrite E in E'; discriminate.
    apply (allocate_round_positive _ _ _ _ _ Hshare) in E as (new1 & -> & H1).
    intros Hrest. apply IH in Hrest as (new2 & -> & H2).
    exists (new1 ++ new2). rewrite app_assoc. split; [done|].
    rewrite allocations_app. by apply Forall_app.
Qed.

(** In exact arithmetic every allocation record that [allocateSpend]
    writes carries a positive amount, however the call ends. *)
Theorem allocateSpend_allocates_positive fuel (st : gmap string (payload Q)) txID
    spend r log :
  allocateSpend fuel st txID spend [] = (r, log) ->
  Forall (fun p => 0 < p.2) (allocations log).
Proof.
  unfold allocateSpend, tx_bind, tx_lift, putState, tx_ret.
  intros E.
  repeat (case_match; simplify_eq; try by constructor);
    match goal with
    | H : allocate_loop _ _ _ _ _ _ _ = _ |- _ =>
        apply allocate_loop_positive in H as (new & -> & Hnew)
    end;
    simpl; unfold allocations; simpl; rewrite allocation_of_spend; exact Hnew.
Qed.

Lemma valid_amount_set_docType {num : Type} `{!JSNumber num} (json : @obj num) v :
  valid_amount (alist_set json "docType" v) = valid_amount json.
Proof. unfold valid_amount. by rewrite alist_get_set_ne. Qed.

(** In exact arithmetic [createSpend] carries out every request that
    passes the checks: the NGO is there, the spend is new, the donation ids
    of the NGO are pairwise different, no allocation record of the NGO is
    negative, and the amount is within [totalDonations - totalSpend].  The
    allocation loop then ends within one round per donation, plus one, so
    that much fuel is enough. *)
Lemma createSpend_carried_out fuel (st : gmap string (payload Q)) txID json
    amount spendId ngoStr ds td dm sas ts sm :
  valid_amount json = Some amount ->
  truthy (alist_get json "spendId") = true ->
  text json "spendId" = Some spendId ->
  text json "ngoRegistrationNumber" = Some ngoStr ->
  is_empty (getState st ("ngo" +:+ ngoStr)) = false ->
  is_empty (getState st ("spend" +:+ spendId)) = true ->
  json_safe ngoStr = true ->
  queryByString st (ngo_query "donation" ngoStr) = Ok ds ->
  load_donations ds 0 [] = Ok (td, dm) ->
  queryByString st (ngo_query "spendAllocation" ngoStr) = Ok sas ->
  load_spend sas 0 [] = Ok (ts, sm) ->
  NoDup (donation_ids ds) ->
  nonnegative_allocations sas ->
  amount <= td - ts ->
  (length dm < fuel)%nat ->
  exists log, createSpend fuel st txID json [] = (Ok tt, log).
Proof.
  intros Ha Hid Hids Hngo He Hnew Hs Hqd Hld Hqs Hls Hnd Hnn Hfunds Hfuel.
  unfold text in *.
  destruct (allocateSpend_valid_history_completes fuel st txID
              (alist_set json "docType" (VStr "spend")) amount spendId ngoStr
              ds td dm sas ts sm) as (spend' & log & E); try done.
  - by rewrite valid_amount_set_docType.
  - by rewrite alist_get_set_ne.
  - by rewrite alist_get_set_ne.
  - by rewrite alist_get_set_ne.
  - unfold createSpend, tx_bind, tx_lift, putState.
    rewrite Hids. simpl. rewrite alist_get_set_ne by done. rewrite Hngo. simpl.
    rewrite He, Hnew. simpl. rewrite E. by eexists.
Qed.

End ExactSpend.

(** ** Example calls *)

Section ConcreteCalls.
Import Example Registry.


Lemma committed_transaction_not_replayed_witness :
  let st : gmap string (payload float) := ledger_after registered in
  let t := CreateDonation (donationArgs "2211" "edge" "6322" 100%float) in
  let log := (run_transaction st t []).2 in
  run_transaction st t [] = (Returned tt, log)
  /\ exists key doc,
       record_of t = Some (key, doc)
       /\ run_transaction (commit st log) t [] = (Failed (duplicate_error t key), []).
Proof.
  cbv zeta. split; [vm_compute; reflexivity|].
  apply (committed_transaction_not_replayed (ledger_after registered)
           (CreateDonation (donationArgs "2211" "edge" "6322" 100%float))).
  vm_compute; reflexivity.
Defined.

Lemma record_written_once_witness :
  let st : gmap string (payload float) := ledger_after donated in
  let t := CreateSpend 2 "tx1" (spendRequest "2" "6322" (VNum 30%float)) in
  let log := (run_transaction st t []).2 in
  run_transaction st t [] = (Returned tt, log)
  /\ is_empty (getState st "donation2211") = false
  /\ ~ allocation_keys t "donation2211"
  /\ getState (commit st log) "donation2211" = getState st "donation2211".
Proof.
  cbv zeta.
  assert (~ allocation_keys
              (CreateSpend 2 "tx1" (spendRequest "2" "6322" (VNum 30%float)))
              "donation2211") as Hk by (intros [i Hi]; discriminate).
  split; [vm_compute; reflexivity|]. split; [vm_compute; reflexivity|].
  split; [exact Hk|].
  apply (record_written_once (ledger_after donated)
           (CreateSpend 2 "tx1" (spendRequest "2" "6322" (VNum 30%float))));
    [vm_compute; reflexivity|vm_compute; reflexivity|exact Hk].
Defined.







Lemma queryMember_misses_created_member_witness :
  let st : gmap string (payload float) := ∅ in
  let now := "2019-05-01T10:00:00.000Z" in
  let log := (createMember now st memberArgs []).2 in
  createMember now st memberArgs [] = (Returned tt, log)
  /\ queryMember (commit st log) memberArgs = Throw (ErrKeyDoesNotExist "member123456789")
  /\ queryMember (commit st log) memberArgs = queryMember st memberArgs.
Proof.
  cbv zeta. split; [vm_compute; reflexivity|]. split; [vm_compute; reflexivity|].
  apply (queryMember_misses_created_member "2019-05-01T10:00:00.000Z" ∅ memberArgs).
  vm_compute; reflexivity.
Defined.

Lemma createRating_key_collision_witness :
  let st : gmap string (payload float) := ∅ in
  let json1 := ratingArgs "ab" "c" 1%float in
  let json2 := ratingArgs "a" "bc" 5%float in
  let log := (createRating st json1 []).2 in
  createRating st json1 [] = (Returned tt, log)
  /\ createRating (commit st log) json2 [] = (Failed (ErrAlreadyExists "ratingabc"), [])
  /\ queryDonorRatingsForNGO (commit st log) json2
     = Ok (Json (VObj (alist_set json1 "docType" (VStr "rating")))).
Proof.
  cbv zeta. split; [vm_compute; reflexivity|].
  apply (createRating_key_collision ∅ (ratingArgs "ab" "c" 1%float)
           (ratingArgs "a" "bc" 5%float) "ab" "c" "a" "bc");
    vm_compute; reflexivity.
Defined.

Lemma created_record_listed_witness :
  let st : gmap string (payload float) := ledger_after [CreateNGO (ngoArgs "6322")] in
  let t := CreateDonor (donorArgs "edge") in
  let log := (run_transaction st t []).2 in
  run_transaction st t [] = (Returned tt, log)
  /\ exists key doc es,
       record_of t = Some (key, doc)
       /\ queryAllDonors (commit st log) = Ok es
       /\ (mkEntry key (VObj doc) ∈ es
           <-> exists c rest, key = docType_of t +:+ String c rest
                              /\ Ascii.leb "0" c = true /\ Ascii.ltb c "z" = true).
Proof.
  cbv zeta. split; [vm_compute; reflexivity|].
  apply (created_record_listed (ledger_after [CreateNGO (ngoArgs "6322")])
           (CreateDonor (donorArgs "edge")) queryAllDonors); vm_compute; reflexivity.
Defined.

Lemma querySpendForNGO_lists_allocations_witness :
  let st := ledger_after spent in
  exists allocations spends,
    queryByString st (ngo_query "spendAllocation" "6322") = Ok allocations
    /\ querySpendForNGO st (ngoArgs "6322") = Ok spends
    /\ length allocations = 1%nat /\ length spends = 2%nat
    /\ forall e, e ∈ allocations -> e ∈ spends.
Proof.
  cbv zeta. eexists _, _.
  split; [vm_compute; reflexivity|]. split; [vm_compute; reflexivity|].
  split; [reflexivity|]. split; [reflexivity|].
  apply (querySpendForNGO_lists_allocations (ledger_after spent) (ngoArgs "6322") "6322");
    vm_compute; reflexivity.
Defined.

Lemma donation_outside_range_not_spendable_witness :
  let st : gmap string (payload float) := ledger_after registered in
  let json := donationArgs "z1" "edge" "6322" 100%float in
  let log := (createDonation st json []).2 in
  createDonation st json [] = (Returned tt, log)
  /\ allocateSpend 2 (commit st log) "tx1" (spendRequest "2" "6322" (VNum 30%float)) []
     = (Throw ErrInsufficientFunds, [])
  /\ forall fuel txID spend l,
       allocateSpend fuel (commit st log) txID spend l = allocateSpend fuel st txID spend l.
Proof.
  cbv zeta. split; [vm_compute; reflexivity|]. split; [vm_compute; reflexivity|].
  apply (donation_outside_range_not_spendable (ledger_after registered)
           (donationArgs "z1" "edge" "6322" 100%float) "z1");
    vm_compute; reflexivity.
Defined.

Lemma createDonation_raises_funds_witness :
  let st : gmap string (payload Q) := ledger_after registered in
  let json := donationArgs "2211" "edge" "6322" 100%Q in
  let log := (createDonation st json []).2 in
  createDonation st json [] = (Returned tt, log)
  /\ donations_of st "6322" = Ok (0%Q, [])
  /\ exists td' dm',
       donations_of (commit st log) "6322" = Ok (td', dm') /\ (td' == 0 + 100)%Q.
Proof.
  cbv zeta. split; [vm_compute; reflexivity|]. split; [vm_compute; reflexivity|].
  apply (proj2 (createDonation_raises_funds (ledger_after registered)
                  (donationArgs "2211" "edge" "6322" 100%Q) "2211" "6322" 100%Q
                  _ eq_refl eq_refl eq_refl ltac:(discriminate) eq_refl eq_refl
                  "6322" eq_refl)
           0%Q []).
  vm_compute; reflexivity.
Defined.

Lemma createSpend_throws_witness :
  let json := spendRequest "S1" "N1" (VNum 200%float) in
  text json "spendId" = Some "S1"
  /\ text json "ngoRegistrationNumber" = Some "N1"
  /\ json_safe "N1" = true
  /\ well_formed_history ledger_30_70 = true
  /\ createSpend 2 ledger_30_70 "tx1" json [] = (Throw ErrInsufficientFunds, [])
  /\ (createSpend 2 ledger_30_70 "tx1" json []).1 <> Unsupported
  /\ forall e log,
       createSpend 2 ledger_30_70 "tx1" json [] = (Throw e, log) ->
       (log = []
        /\ e ∈ [ErrNgoDoesNotExist; ErrSpendExists; ErrSpendAmountInvalid;
                ErrSpendIdRequired; ErrTypeError; ErrInsufficientFunds])
       \/ (log <> [] /\ loop_error e).
Proof.
  cbv zeta. do 5 (split; [vm_compute; reflexivity|]).
  apply (createSpend_throws 2 ledger_30_70 "tx1" (spendRequest "S1" "N1" (VNum 200%float))
           "S1" "N1"); vm_compute; reflexivity.
Defined.

Lemma queryByString_fields_are_alternatives_witness :
  let d1 := to_entry (donationDoc (num:=float) "D1" "N1" 30%float) in
  let d2 := to_entry (donationDoc (num:=float) "D2" "N1" 70%float) in
  queryByString ledger_30_70 (VObj query_two_fields) = Ok [d1; d1; d2; d2]
  /\ queryByString ledger_30_70 (VObj query_two_fields)
     = Ok (flat_map
             (fun e => replicate
                         (matches [("docType", VStr "donation");
                                   ("donorUserName", VStr "edge");
                                   ("ngoRegistrationNumber", VStr "N1")]
                                  (parse_record e.2))
                         (to_entry e))
             (scanned_records ledger_30_70 "donation")).
Proof.
  cbv zeta. split; [vm_compute; reflexivity|].
  apply (queryByString_fields_are_alternatives ledger_30_70 query_two_fields
           [("docType", VStr "donation"); ("donorUserName", VStr "edge");
            ("ngoRegistrationNumber", VStr "N1")]
           (VStr "donation") "donation" eq_refl eq_refl eq_refl eq_refl).
  - discriminate.
  - reflexivity.
  - reflexivity.
  - replace (scanned_records ledger_30_70 "donation")
      with [donationDoc (num:=float) "D1" "N1" 30%float; donationDoc "D2" "N1" 70%float]
      by (vm_compute; reflexivity).
    repeat constructor; simpl; discriminate.
Defined.

Lemma allocateSpend_allocates_positive_witness :
  let run := allocateSpend 2 ledger_100_exact "tx1" (spendRequest "S1" "N1" (VNum 30%Q)) [] in
  allocations run.2 = [("D1", 30%Q)]
  /\ Forall (fun p => (0 < p.2)%Q) (allocations run.2).
Proof.
  cbv zeta. split; [vm_compute; reflexivity|].
  apply (allocateSpend_allocates_positive 2 ledger_100_exact "tx1"
           (spendRequest "S1" "N1" (VNum 30%Q))
           (allocateSpend 2 ledger_100_exact "tx1"
                          (spendRequest "S1" "N1" (VNum 30%Q)) []).1).
  vm_compute; reflexivity.
Defined.

End ConcreteCalls.

(** ** The allocation loop on ledgers built by the chaincode *)

Section SoundWrites.
Local Open Scope Q_scope.

#[local] Arguments writable : simpl never.
#[local] Arguments String.append : simpl never.

Lemma sound_commit (log : list (string * payload Q)) :
  forall st : gmap string (payload Q),
    Forall sound_entry log -> sound_ledger st -> sound_ledger (commit st log).
Proof.
  induction log as [|[k v] log IH]; intros st Hall Hst; [done|].
  apply Forall_cons in Hall as [Hw Hall].
  rewrite commit_cons. apply IH; [done|].
  intros k' p. simpl. destruct (decide (k' = k)) as [->|Hne].
  - rewrite lookup_insert_eq. by intros [= <-].
  - rewrite lookup_insert_ne by done. apply Hst.
Qed.

(** The record of a method other than [createDonation] and [createSpend]
    lies outside both scans. *)
Lemma other_key_outside dt rest :
  dt ∈ ["donor"; "member"; "ngo"; "employer"; "plan"; "withdrawal"; "rating"] ->
  in_range "donation0" "donationz" (dt +:+ rest) = false
  /\ in_range "spendAllocation0" "spendAllocationz" (dt +:+ rest) = false.
Proof.
  rewrite !elem_of_cons, elem_of_nil.
  intros [->|[->|[->|[->|[->|[->|[->|[]]]]]]]]; by split.
Qed.

Lemma allocation_key_outside_donations txID i :
  in_range "donation0" "donationz" (allocation_key txID i) = false.
Proof. reflexivity. Qed.

(** An allocation record read back by [load_spend] gives the donation
    and the amount it was written with. *)
Lemma entry_alloc_write txID (spend : @obj Q) ngo i (w : string * payload Q) :
  allocation_write txID spend ngo i w ->
  exists d a, allocation_of w = Some (d, a) /\ entry_alloc (to_entry w) = Ok (d, a).
Proof.
  intros (d & a & ->). exists d, a. split; [apply allocation_of_record|].
  unfold entry_alloc, to_entry, spendAllocationRecord, field. simpl.
  by destruct (alist_get spend "spendDate"), (alist_get spend "spendDescription").
Qed.

(** An allocation record of a spend whose NGO id is a string is sound
    when its amount is positive. *)
Lemma allocation_writes_sound txID (spend : @obj Q) g (ws : list (string * payload Q)) :
  forall c,
    allocation_writes txID spend (Some (VStr g)) c ws ->
    Forall (fun p => 0 < p.2) (allocations ws) ->
    Forall sound_entry ws.
Proof.
  induction ws as [|w ws IH]; intros c; simpl; [constructor|].
  intros [Hw Hws] Hpos.
  destruct (entry_alloc_write _ _ _ _ _ Hw) as (d & a & Hof & Hea).
  unfold allocations in Hpos. simpl in Hpos. rewrite Hof in Hpos.
  apply Forall_cons in Hpos as [Ha Hpos].
  constructor; [|by apply (IH (S c))].
  destruct Hw as (d' & a' & ->).
  rewrite allocation_of_record in Hof. injection Hof as -> ->.
  intros _. split.
  - intros Hin. change (false = true) in Hin. discriminate.
  - intros _. unfold sound_allocation, well_formed_object, spendAllocationRecord, field.
    simpl in *.
    assert (Qle_bool 0 a = true) as Hle by (apply Qle_bool_iff; lra).
    destruct (alist_get spend "spendDate"), (alist_get spend "spendDescription");
      simpl; by rewrite Hle.
Qed.

Lemma createSpend_ok_positive fuel (st : gmap string (payload Q)) txID json log :
  createSpend fuel st txID json [] = (Ok tt, log) ->
  exists spendId allocs,
    let key := "spend" +:+ spendId in
    let doc := alist_set json "docType" (VStr "spend") in
    text json "spendId" = Some spendId
    /\ log = (key, Json (VObj doc)) :: allocs ++ [(key, Json (VObj doc))]
    /\ allocation_writes txID doc (alist_get json "ngoRegistrationNumber") 0 allocs
    /\ Forall (fun p => 0 < p.2) (allocations allocs).
Proof.
  intros E.
  destruct (createSpend_ok_log _ _ _ _ _ E)
    as (spendId & ngo & allocs & Hid & _ & _ & _ & Hlog & Hw).
  exists spendId, allocs. cbv zeta. repeat (split; [done|]).
  revert E. unfold createSpend, tx_bind, tx_lift, putState.
  unfold text in Hid. rewrite Hid. simpl.
  destruct (supported _) as [ngoStr| | |]; try discriminate.
  destruct (is_empty _); [discriminate|].
  destruct (negb _); [discriminate|].
  destruct (allocateSpend _ _ _ _ _) as [[json'| | |] log1] eqn:E; try discriminate.
  intros [= Hl].
  apply allocateSpend_ok_inv in E
    as (amount & ngoStr' & ds & td & dm & sas & ts & sm & spendId'
        & _ & _ & _ & _ & _ & _ & _ & _ & _ & _ & _ & Hloop).
  apply allocate_loop_positive in Hloop as (new & -> & Hpos).
  rewrite Hlog in Hl. simpl in Hl. injection Hl as _ _ Hl.
  by apply app_inj_tail in Hl as [<- _].
Qed.

(** Every write of a transaction with plain arguments is sound. *)
Lemma run_transaction_sound (st : gmap string (payload Q)) (t : transaction Q) log :
  plain_transaction t = true ->
  run_transaction st t [] = (Returned tt, log) ->
  Forall sound_entry log.
Proof.
  intros Hplain E.
  destruct t as [json|now json|json|json|json|json|json|json|fuel txID json].
  9:{ simpl in E. destruct (writable (VObj json)); [|discriminate].
      unfold of_tx in E.
      destruct (createSpend fuel st txID json []) as [[[]| | |] log1] eqn:E1;
        try discriminate.
      injection E as <-.
      apply createSpend_ok_positive in E1 as (spendId & allocs & Hid & -> & Hw & Hpos).
      simpl in Hplain. unfold plain_spend in Hplain. unfold text in Hid.
      destruct (alist_get json "spendId") as [[| | |sid| |]|]; try done.
      destruct (alist_get json "ngoRegistrationNumber") as [[| | |g| |]|]; try done.
      apply andb_prop in Hplain as [_ Hgen]. apply negb_true_iff in Hgen.
      injection Hid as <-.
      assert (sound_entry ("spend" +:+ sid,
                           Json (VObj (alist_set json "docType" (VStr "spend"))))) as Hs.
      { intros _. split; simpl; intros Hin; [|congruence].
        by rewrite in_donation_range_spend in Hin. }
      constructor; [done|]. apply Forall_app. split; [|by constructor].
      by apply (allocation_writes_sound txID _ g allocs 0 Hw). }
  6:{ apply createDonation_log in E as (id & Hid & _ & ->).
      simpl in Hplain. unfold text in Hid.
      destruct (alist_get json "donationId") as [[| | |i| |]|] eqn:Hi; try done.
      destruct (alist_get json "donationAmount") as [[| |x| | |]|] eqn:Hx; try done.
      destruct (alist_get json "ngoRegistrationNumber") as [[| | |g| |]|] eqn:Hg;
        try done.
      injection Hid as <-.
      constructor; [|constructor]. intros _. split; simpl fst; intros Hin.
      - unfold sound_donation, well_formed_object. simpl.
        rewrite !alist_get_set_ne by done. rewrite Hi, Hx, Hg. simpl.
        by rewrite String.eqb_refl.
      - by rewrite key_outside_allocations in Hin. }
  all: apply run_transaction_log in E
         as (key & doc & rest & _ & -> & _ & _ & [-> | (? & ? & ? & ? & [=] & _)]);
       apply Forall_cons_2; [|apply Forall_nil_2];
       simpl docType_of;
       match goal with
       | |- sound_entry (?dt +:+ _, _) =>
           destruct (other_key_outside dt rest) as [H1 H2]; [repeat constructor|]
       end;
       intros _; split; simpl fst; intros Hin; congruence.
Qed.

End SoundWrites.

Section SoundLedgers.
Local Open Scope Q_scope.

#[local] Arguments to_string : simpl never.
#[local] Arguments alist_set : simpl never.
#[local] Arguments String.append : simpl never.
#[local] Arguments truthy : simpl never.
#[local] Arguments loose_eq : simpl never.

Lemma built_plain_sound (st0 st : gmap string (payload Q)) :
  built_plain st0 st -> sound_ledger st0 -> sound_ledger st.
Proof.
  induction 1 as [|st1 t log _ IH Hplain E]; intros Hst0; [done|].
  apply sound_commit; [|by apply IH].
  by apply (run_transaction_sound st1 t).
Qed.

(** The two ways to say that a store is sound. *)
Lemma sound_history_ledger (st : gmap string (payload Q)) :
  sound_history st = true <-> sound_ledger st.
Proof.
  unfold sound_history. rewrite andb_true_iff, !forallb_forall. split.
  - intros [Hd Ha] k v Hk Hne. simpl in Hne. split; simpl; intros Hin.
    + apply Hd, list_elem_of_In, elem_of_scanned_records. done.
    + apply Ha, list_elem_of_In, elem_of_scanned_records. done.
  - intros Hst. split; intros [k v] Hin;
      apply list_elem_of_In, elem_of_scanned_records in Hin as (Hk & Hr & Hne);
      by apply (Hst k v Hk Hne).
Qed.

Lemma sound_well_formed (st : gmap string (payload Q)) :
  sound_history st = true -> well_formed_history st = true.
Proof.
  unfold sound_history, well_formed_history.
  rewrite !andb_true_iff, !forallb_forall.
  intros [Hd Ha]. split; intros e He.
  - specialize (Hd e He). unfold sound_donation in Hd.
    apply andb_prop in Hd as [Hd _]. unfold well_formed.
    by destruct (parse_record e.2).
  - specialize (Ha e He). unfold sound_allocation in Ha.
    apply andb_prop in Ha as [Ha _]. unfold well_formed.
    by destruct (parse_record e.2).
Qed.

(** On a sound store [allocateSpend] finds its totals. *)
Lemma sound_totals (st : gmap string (payload Q)) g :
  sound_history st = true -> json_safe g = true ->
  exists ds td dm sas ts sm,
    queryByString st (ngo_query "donation" g) = Ok ds
    /\ load_donations ds 0 [] = Ok (td, dm)
    /\ queryByString st (ngo_query "spendAllocation" g) = Ok sas
    /\ load_spend sas 0 [] = Ok (ts, sm).
Proof.
  intros Hst Hg.
  pose proof (sound_well_formed st Hst) as Hwf.
  apply andb_prop in Hwf as [Hwd Hwa]. apply andb_prop in Hst as [Hsd Hsa].
  rewrite forallb_forall in Hsd. rewrite forallb_forall in Hsa.
  rewrite queryByString_donations, queryByString_spendAllocations.
  destruct (scan_loop_well_formed "donationAmount" g "donation"
              (getStateByRange st "donation0" "donationz"))
    as [[(e & He & Hne & Hnull) _] | (ds & Hds & Hes)]; [by apply well_formed_scanned| |].
  { specialize (Hsd e). unfold sound_donation, well_formed_object in Hsd.
    rewrite Hnull in Hsd. discriminate Hsd.
    apply filter_In. split; [by apply list_elem_of_In|by rewrite Hne]. }
  destruct (scan_loop_well_formed "spendAllocationAmount" g "spendAllocation"
              (getStateByRange st "spendAllocation0" "spendAllocationz"))
    as [[(e & He & Hne & Hnull) _] | (sas & Hsas & Hes')]; [by apply well_formed_scanned| |].
  { specialize (Hsa e). unfold sound_allocation, well_formed_object in Hsa.
    rewrite Hnull in Hsa. discriminate Hsa.
    apply filter_In. split; [by apply list_elem_of_In|by rewrite Hne]. }
  destruct (load_donations_well_formed ds Hes 0 []) as [[td dm] Hld].
  destruct (load_spend_well_formed sas Hes' 0 []) as [[ts sm] Hls].
  by exists ds, td, dm, sas, ts, sm.
Qed.

(** What a sound entry gives when [allocateSpend] reads it. *)
Lemma sound_entry_donation (w : string * payload Q) p :
  sound_entry w ->
  in_range "donation0" "donationz" w.1 = true ->
  entry_donation (to_entry w) = Ok p -> w.1 = "donation" +:+ p.1.
Proof.
  intros Hw Hin. destruct w as [k v]. simpl in *.
  destruct (is_empty v) eqn:Ee.
  { destruct v as [?|s]; [done|]. simpl in Ee. apply String.eqb_eq in Ee as ->. done. }
  destruct (Hw Ee) as [Hd _]. specialize (Hd Hin).
  unfold sound_donation, well_formed_object in Hd. simpl in Hd.
  unfold entry_donation, to_entry. simpl.
  destruct (parse_record v) as [| | | | |o]; try done. simpl.
  destruct (alist_get o "ngoRegistrationNumber") as [[| | |n| |]|]; try done.
  destruct (alist_get o "donationAmount") as [[| |x| | |]|]; try done.
  destruct (alist_get o "donationId") as [[| | |i| |]|]; try done.
  simpl in *. intros [= <-]. simpl. by apply String.eqb_eq.
Qed.

Lemma sound_entry_allocation (w : string * payload Q) p :
  sound_entry w ->
  in_range "spendAllocation0" "spendAllocationz" w.1 = true ->
  entry_alloc (to_entry w) = Ok p -> 0 <= p.2.
Proof.
  intros Hw Hin. destruct w as [k v]. simpl in *.
  destruct (is_empty v) eqn:Ee.
  { destruct v as [?|s]; [done|]. simpl in Ee. apply String.eqb_eq in Ee as ->. done. }
  destruct (Hw Ee) as [_ Ha]. specialize (Ha Hin).
  unfold sound_allocation, well_formed_object in Ha. simpl in Ha.
  unfold entry_alloc, to_entry. simpl.
  destruct (parse_record v) as [| | | | |o]; try done. simpl.
  destruct (alist_get o "ngoRegistrationNumber") as [[| | |n| |]|]; try done.
  destruct (alist_get o "spendAllocationAmount") as [[| |x| | |]|]; try done.
  destruct (alist_get o "donationId") as [[| | |i| |]|]; try done.
  simpl in *. intros [= <-]. simpl. by apply Qle_bool_iff.
Qed.

(** With one field besides [docType], a scanned entry is returned once
    or not at all. *)
Lemma scan_one_two dt f wanted (x : string * payload Q) ps :
  scan_one [("docType", dt); (f, wanted)] x = Ok ps ->
  ps = [] \/ ps = [to_entry x].
Proof.
  unfold scan_one. destruct (is_empty x.2); [intros [= <-]; by left|].
  simpl. destruct (negb (printable dt)); [done|].
  destruct (negb (printable wanted)); [done|].
  destruct (String.eqb f "docType"); [intros [= <-]; by left|].
  destruct (get_prop _ f) as [got| | |]; simpl; try done.
  destruct (negb (printable_opt got)); [done|].
  destruct (truthy got); [destruct got as [g|]; [destruct (loose_eq g wanted) as [[|]|]|]|];
    simpl; try done; intros [= <-]; auto.
Qed.

Lemma scan_keys_NoDup (st : gmap string (payload Q)) lo hi :
  NoDup (map fst (getStateByRange st lo hi)).
Proof.
  unfold getStateByRange. rewrite merge_sort_Permutation.
  apply (NoDup_fst_map_to_list (M:=gmap string)).
Qed.

Lemma donation_ids_NoDup dt f wanted (l : list (string * payload Q)) :
  forall ds,
    scan_loop [("docType", dt); (f, wanted)] l = Ok ds ->
    NoDup (map fst l) ->
    Forall (fun x => forall p, entry_donation (to_entry x) = Ok p
                               -> x.1 = "donation" +:+ p.1) l ->
    NoDup (donation_ids ds)
    /\ forall i, i ∈ donation_ids ds -> "donation" +:+ i ∈ map fst l.
Proof.
  induction l as [|x l IH]; intros ds.
  - simpl. intros [= <-] _ _. split; [constructor|]. by intros i ?%elem_of_nil.
  - rewrite scan_loop_cons. intros E Hnd Hall.
    apply rbind_ok in E as (ps & Hps & E). apply rbind_ok in E as (ds' & Hds' & [= <-]).
    simpl in Hnd. apply NoDup_cons in Hnd as [Hx Hnd].
    apply Forall_cons in Hall as [Hsound Hall].
    destruct (IH ds' Hds' Hnd Hall) as [Hids Hin].
    apply scan_one_two in Hps as [-> | ->]; simpl.
    + split; [done|]. intros i Hi. right. by apply Hin.
    + unfold donation_ids. simpl.
      destruct (entry_donation (to_entry x)) as [p| | |] eqn:Ep; simpl;
        fold (donation_ids ds').
      2-4: split; [done|]; intros i Hi; right; by apply Hin.
      specialize (Hsound p eq_refl). split.
      * apply NoDup_cons. split; [|done].
        intros Hi. apply Hin in Hi. by rewrite <- Hsound in Hi.
      * intros i Hi. apply elem_of_cons in Hi as [-> | Hi].
        -- rewrite <- Hsound. by left.
        -- right. by apply Hin.
Qed.

Lemma sound_donations (st : gmap string (payload Q)) g ds :
  sound_ledger st ->
  queryByString st (ngo_query "donation" g) = Ok ds ->
  NoDup (donation_ids ds).
Proof.
  intros Hst. rewrite queryByString_donations. intros Hds.
  apply (donation_ids_NoDup _ _ _ _ _ Hds); [apply scan_keys_NoDup|].
  apply Forall_forall. intros [k v] Hin p.
  apply elem_of_getStateByRange in Hin as [Hk Hr].
  by apply sound_entry_donation; [apply (Hst k v Hk)|].
Qed.

Lemma sound_allocations (st : gmap string (payload Q)) g sas :
  sound_ledger st ->
  queryByString st (ngo_query "spendAllocation" g) = Ok sas ->
  nonnegative_allocations sas.
Proof.
  intros Hst. rewrite queryByString_spendAllocations. intros Hsas.
  apply Forall_forall. intros e He.
  apply (scan_loop_elem _ _ _ Hsas) in He as ([k v] & ps & Hin & Hps & He).
  apply elem_of_getStateByRange in Hin as [Hk Hr].
  apply scan_one_two in Hps as [-> | ->]; [by apply elem_of_nil in He|].
  apply list_elem_of_singleton in He as ->.
  intros p. by apply sound_entry_allocation; [apply (Hst k v Hk)|].
Qed.

(** Totality of [createSpend] in exact arithmetic, on a sound store:
    every scanned donation is an object under ['donation' + donationId]
    with a string NGO id, a number as amount and a string id, and every
    scanned allocation is an object with a string NGO id, a string
    donation id and an amount that is not negative.  For a request with a
    valid amount, a non-empty string as spend id that is new, and the id
    of an NGO that is there, a string that stands between the quotes of
    the query strings as it is, [allocateSpend] finds its two totals; and
    when the amount is within [totalDonations - totalSpend],
    [createSpend] returns, the loop needing at most one round per
    donation, plus one. *)
Theorem createSpend_succeeds_exact fuel (st : gmap string (payload Q)) txID json
    amount spendId ngoStr :
  valid_amount json = Some amount ->
  alist_get json "spendId" = Some (VStr spendId) ->
  spendId <> "" ->
  alist_get json "ngoRegistrationNumber" = Some (VStr ngoStr) ->
  json_safe ngoStr = true ->
  is_empty (getState st ("ngo" +:+ ngoStr)) = false ->
  is_empty (getState st ("spend" +:+ spendId)) = true ->
  sound_history st = true ->
  exists td dm ts sm,
    donations_of st ngoStr = Ok (td, dm)
    /\ allocated_of st ngoStr = Ok (ts, sm)
    /\ (amount <= td - ts ->
        (length dm < fuel)%nat ->
        exists log, createSpend fuel st txID json [] = (Ok tt, log)).
Proof.
  intros Ha Hid Hne Hngo Hsafe Hn Hnew Hst.
  destruct (sound_totals st ngoStr Hst Hsafe)
    as (ds & td & dm & sas & ts & sm & Hqd & Hld & Hqs & Hls).
  apply sound_history_ledger in Hst.
  exists td, dm, ts, sm.
  split; [by rewrite donations_of_unfold, Hsafe, Hqd|].
  split; [by rewrite allocated_of_unfold, Hsafe, Hqs|].
  intros Hfunds Hfuel.
  apply (createSpend_carried_out fuel st txID json amount spendId ngoStr
           ds td dm sas ts sm); try done.
  - unfold truthy. rewrite Hid. apply negb_true_iff. by apply String.eqb_neq.
  - unfold text. by rewrite Hid.
  - unfold text. by rewrite Hngo.
  - by apply (sound_donations st ngoStr).
  - by apply (sound_allocations st ngoStr).
Qed.

(** On a ledger built from a sound one (the empty ledger, say) by create
    transactions with plain arguments, in exact arithmetic, [createSpend]
    with a plain request never ends in one of the three error branches of
    the allocation loop, and never leaves the modelled fragment: given
    fuel for one round per donation, plus one, it returns, or it throws
    before anything is written. *)
Theorem built_ledger_spend_never_fatal (st0 st : gmap string (payload Q)) txID json :
  built_plain st0 st ->
  sound_history st0 = true ->
  plain_spend json = true ->
  exists n, forall fuel,
    (n <= fuel)%nat ->
    (exists log, createSpend fuel st txID json [] = (Ok tt, log))
    \/ (exists e, createSpend fuel st txID json [] = (Throw e, []) /\ ~ loop_error e).
Proof.
  intros Hbuilt Hst0 Hplain.
  apply sound_history_ledger in Hst0.
  pose proof (built_plain_sound st0 st Hbuilt Hst0) as Hst.
  unfold plain_spend in Hplain.
  destruct (alist_get json "spendId") as [[| | |sid| |]|] eqn:Hid; try done.
  destruct (alist_get json "ngoRegistrationNumber") as [[| | |g| |]|] eqn:Hngo; try done.
  pose proof (proj2 (sound_history_ledger st) Hst) as Hsh.
  destruct (sound_totals st g Hsh Hplain)
    as (ds & td & dm & sas & ts & sm & Hqd & Hld & Hqs & Hls).
  exists (S (length dm)). intros fuel Hfuel.
  assert (forall e, e ∈ [ErrNgoDoesNotExist; ErrSpendExists; ErrSpendAmountInvalid;
                         ErrSpendIdRequired; ErrTypeError; ErrInsufficientFunds]
                    -> ~ loop_error e) as Hearly.
  { intros e He [H|[H|H]]; subst e;
      repeat (apply elem_of_cons in He as [He|He]; [discriminate|]);
      by apply elem_of_nil in He. }
  destruct (is_empty (getState st ("ngo" +:+ g))) eqn:Hn.
  { right. exists ErrNgoDoesNotExist. split; [|apply Hearly; repeat constructor].
    unfold createSpend, tx_bind, tx_lift. rewrite Hid. simpl.
    rewrite alist_get_set_ne by done. rewrite Hngo. simpl. by rewrite Hn. }
  destruct (is_empty (getState st ("spend" +:+ sid))) eqn:Hnew.
  2:{ right. exists ErrSpendExists. split; [|apply Hearly; repeat constructor].
      unfold createSpend, tx_bind, tx_lift. rewrite Hid. simpl.
      rewrite alist_get_set_ne by done. rewrite Hngo. simpl. by rewrite Hn, Hnew. }
  destruct (valid_amount json) as [amount|] eqn:Ha.
  2:{ right. eexists. split.
      - unfold createSpend, tx_bind, tx_lift. rewrite Hid. simpl.
        rewrite alist_get_set_ne by done. rewrite Hngo. simpl. rewrite Hn, Hnew. simpl.
        rewrite allocateSpend_invalid_amount by by rewrite valid_amount_set_docType.
        reflexivity.
      - apply Hearly. destruct (printable_opt _); repeat constructor. }
  destruct (String.eqb sid "") eqn:Es.
  { right. exists ErrSpendIdRequired. split; [|apply Hearly; repeat constructor].
    apply String.eqb_eq in Es as ->.
    unfold createSpend, tx_bind, tx_lift. rewrite Hid. simpl.
    rewrite alist_get_set_ne by done. rewrite Hngo. simpl. rewrite Hn, Hnew. simpl.
    unfold allocateSpend. rewrite valid_amount_set_docType, Ha.
    rewrite alist_get_set_ne by done. rewrite Hid. unfold truthy. done. }
  apply String.eqb_neq in Es.
  destruct (Qltb (td - ts) amount) eqn:Hf.
  { right. exists ErrInsufficientFunds. split; [|apply Hearly; repeat constructor].
    unfold createSpend, tx_bind, tx_lift. rewrite Hid. simpl.
    rewrite alist_get_set_ne by done. rewrite Hngo. simpl. rewrite Hn, Hnew. simpl.
    unfold allocateSpend, tx_bind, tx_lift, queryByKey.
    rewrite valid_amount_set_docType, Ha.
    rewrite !alist_get_set_ne by done. rewrite Hid, Hngo. simpl.
    unfold truthy. apply String.eqb_neq in Es. rewrite Es. simpl.
    rewrite Hn. simpl. rewrite Hn, Hplain. simpl.
    rewrite Hqd. simpl. rewrite Hld. simpl. rewrite Hqs. simpl. rewrite Hls. simpl.
    by rewrite Hf. }
  left. apply Qltb_false in Hf.
  apply (createSpend_carried_out fuel st txID json amount sid g ds td dm sas ts sm);
    try done.
  - unfold truthy. rewrite Hid. apply negb_true_iff. by apply String.eqb_neq.
  - unfold text. by rewrite Hid.
  - unfold text. by rewrite Hngo.
  - by apply (sound_donations st g).
  - by apply (sound_allocations st g).
Qed.

End SoundLedgers.

(** ** The allocations of a spend, read back *)

Section AllocationsReadBack.
Context {num : Type} `{!JSNumber num}.

#[local] Arguments String.append : simpl never.
#[local] Arguments alist_set : simpl never.
#[local] Arguments to_string : simpl never.
#[local] Arguments filter_pushes : simpl never.

(** Writes to keys of the range that held nothing add to the result of a
    query what the loop pushes for each of them. *)
Lemma scan_loop_commit jsonRecord lo hi (ws : list (string * payload num)) :
  forall (st : gmap string (payload num)) es pss,
    NoDup (map fst ws) ->
    Forall (fun w => in_range lo hi w.1 = true /\ is_empty (getState st w.1) = true) ws ->
    scan_loop jsonRecord (getStateByRange st lo hi) = Ok es ->
    Forall2 (fun w ps => scan_one jsonRecord w = Ok ps) ws pss ->
    exists es',
      scan_loop jsonRecord (getStateByRange (commit st ws) lo hi) = Ok es'
      /\ es' ≡ₚ concat pss ++ es.
Proof.
  induction ws as [|[k v] ws IH]; intros st es pss Hnd Hall Hes Hps.
  - apply Forall2_nil_inv_l in Hps as ->. by exists es.
  - apply Forall2_cons_inv_l in Hps as (ps & pss' & Hp & Hps & ->).
    simpl in Hnd. apply NoDup_cons in Hnd as [Hk Hnd].
    apply Forall_cons in Hall as [[Hin Hempty] Hall]. simpl in Hin, Hempty.
    destruct (scan_loop_insert jsonRecord st k v lo hi es ps Hin Hempty Hes Hp)
      as (es1 & Hes1 & Hperm1).
    destruct (IH (<[k := v]> st) es1 pss' Hnd) as (es' & Hes' & Hperm'); [|done..|].
    + apply Forall_forall. intros w Hw. rewrite Forall_forall in Hall.
      destruct (Hall w Hw) as [Hwin Hwe]. split; [done|].
      unfold getState. rewrite lookup_insert_ne; [done|].
      intros ->. apply Hk. apply list_elem_of_In, (in_map fst). by apply list_elem_of_In.
    + exists es'. rewrite commit_cons. split; [done|].
      rewrite Hperm', Hperm1. simpl. rewrite !app_assoc.
      apply Permutation_app_tail, Permutation_app_comm.
Qed.

(** What the loop of [queryByString] pushes for an allocation record
    when the selector asks for a spend or for a donation. *)
Lemma scan_one_allocation txID (spend : @obj num) ngo i (w : string * payload num) s dt :
  allocation_write txID spend ngo i w ->
  alist_get spend "spendId" = Some (VStr s) -> s <> "" ->
  scan_one [("docType", VStr dt); ("spendId", VStr s)] w = Ok [to_entry w]
  /\ forall d, d <> "" ->
       scan_one [("docType", VStr dt); ("donationId", VStr d)] w
       = Ok (if allocated_to d w then [to_entry w] else []).
Proof.
  intros (d' & a & ->) Hs Hne. apply String.eqb_neq in Hne.
  unfold allocated_to. rewrite allocation_of_record.
  unfold scan_one, to_entry, spendAllocationRecord, field, filter_pushes. simpl.
  rewrite Hs. split.
  - destruct (alist_get spend "spendDate"), (alist_get spend "spendDescription"), ngo;
      simpl; by rewrite Hne, String.eqb_refl.
  - intros d Hd. apply String.eqb_neq in Hd.
    destruct (alist_get spend "spendDate"), (alist_get spend "spendDescription"), ngo;
      simpl; destruct (String.eqb d' d) eqn:Ed; simpl;
      try (apply String.eqb_eq in Ed as ->; rewrite Hd); simpl; try done;
      by destruct (String.eqb d' "").
Qed.

Lemma allocation_writes_scan txID (spend : @obj num) ngo (ws : list (string * payload num))
    s dt :
  alist_get spend "spendId" = Some (VStr s) -> s <> "" ->
  forall c,
    allocation_writes txID spend ngo c ws ->
    Forall2 (fun w ps => scan_one [("docType", VStr dt); ("spendId", VStr s)] w = Ok ps)
            ws (map (fun w => [to_entry w]) ws)
    /\ forall d, d <> "" ->
         Forall2 (fun w ps => scan_one [("docType", VStr dt); ("donationId", VStr d)] w = Ok ps)
                 ws (map (fun w => if allocated_to d w then [to_entry w] else []) ws).
Proof.
  intros Hs Hne. induction ws as [|w ws IH]; intros c; simpl.
  - intros _. split; [constructor|]. intros; constructor.
  - intros [Hw Hws]. destruct (IH _ Hws) as [IH1 IH2].
    destruct (scan_one_allocation txID spend ngo c w s dt Hw Hs Hne) as [H1 H2].
    split; [by constructor|]. intros d Hd. constructor; [by apply H2|by apply IH2].
Qed.

Lemma concat_singletons {A B : Type} (f : A -> B) (l : list A) :
  concat (map (fun x => [f x]) l) = map f l.
Proof. induction l as [|x l IH]; simpl; [done|]. by rewrite IH. Qed.

Lemma concat_filtered {A B : Type} (f : A -> B) (P : A -> bool) (l : list A) :
  concat (map (fun x => if P x then [f x] else []) l) = map f (List.filter P l).
Proof.
  induction l as [|x l IH]; simpl; [done|]. rewrite IH. by destruct (P x).
Qed.

(** The allocations of a spend can be read back.  Take a [createSpend]
    whose spend id is a non-empty string that stands between the quotes of
    a query string as it is, with a key outside the scan of the allocation
    records and fresh allocation keys inside it.  After it is committed,
    and when every document it wrote is one that [JSON.parse] reads back
    as written, [querySpendAllocationForSpend] for the spend returns,
    besides what it returned before, the allocation records that the spend
    has written, and [querySpendAllocationForDonation] for a donation
    (whose id is such a string too) returns, besides what it returned
    before, those of them that allocate to the donation. *)
Theorem spend_allocations_read_back fuel (st : gmap string (payload num)) txID json s log :
  createSpend fuel st txID json [] = (Ok tt, log) ->
  forallb (fun w => writable_payload w.2) log = true ->
  alist_get json "spendId" = Some (VStr s) -> s <> "" ->
  json_safe s = true ->
  in_range "spendAllocation0" "spendAllocationz" ("spend" +:+ s) = false ->
  (forall i,
     in_range "spendAllocation0" "spendAllocationz" (allocation_key txID i) = true
     /\ is_empty (getState st (allocation_key txID i)) = true) ->
  exists allocs,
    let doc := ("spend" +:+ s, Json (VObj (alist_set json "docType" (VStr "spend")))) in
    log = doc :: allocs ++ [doc]
    /\ (forall before,
          querySpendAllocationForSpend st json = Ok before ->
          exists after,
            querySpendAllocationForSpend (commit st log) json = Ok after
            /\ after ≡ₚ map to_entry allocs ++ before)
    /\ (forall d before,
          d <> "" ->
          json_safe d = true ->
          querySpendAllocationForDonation st [("donationId", VStr d)] = Ok before ->
          exists after,
            querySpendAllocationForDonation (commit st log) [("donationId", VStr d)]
            = Ok after
            /\ after ≡ₚ map to_entry (List.filter (allocated_to d) allocs) ++ before).
Proof.
  intros E _ Hs Hne Hsafe Hout Hkeys.
  apply createSpend_ok_log in E as (s' & ngo & allocs & Hid & _ & _ & _ & -> & Hw).
  unfold text in Hid. rewrite Hs in Hid. injection Hid as <-.
  exists allocs. cbv zeta. split; [done|].
  assert (alist_get (alist_set json "docType" (VStr "spend")) "spendId" = Some (VStr s))
    as Hs' by by rewrite alist_get_set_ne.
  destruct (allocation_writes_keys_spec _ _ _ _ _ Hw) as [Hnd Hall].
  assert (forall lo hi,
            lo = "spendAllocation0" -> hi = "spendAllocationz" ->
            forall jsonRecord es pss,
              scan_loop jsonRecord (getStateByRange st lo hi) = Ok es ->
              Forall2 (fun w ps => scan_one jsonRecord w = Ok ps) allocs pss ->
              exists es',
                scan_loop jsonRecord
                  (getStateByRange
                     (commit st (("spend" +:+ s,
                                  Json (VObj (alist_set json "docType" (VStr "spend"))))
                                 :: allocs
                                 ++ [("spend" +:+ s,
                                      Json (VObj (alist_set json "docType"
                                                            (VStr "spend"))))]))
                     lo hi) = Ok es'
                /\ es' ≡ₚ concat pss ++ es) as Hscan.
  { intros lo hi -> -> jsonRecord es pss Hes Hps.
    rewrite app_comm_cons, commit_snoc, scan_insert_outside by done.
    rewrite commit_cons. simpl fst. simpl snd.
    apply (scan_loop_commit jsonRecord _ _ allocs _ es pss); [done| |by rewrite scan_insert_outside|done].
    apply Forall_forall. intros w Hin. rewrite Forall_forall in Hall.
    destruct (Hall w Hin) as (i & _ & Hi). rewrite Hi.
    destruct (Hkeys i) as [Hr He]. split; [done|].
    unfold getState. rewrite lookup_insert_ne; [done|].
    intros Heq. rewrite <- Heq in Hr. congruence. }
  destruct (allocation_writes_scan txID _ _ allocs s "spendAllocation" Hs' Hne 0 Hw)
    as [Hps1 Hps2].
  split.
  - intros before. unfold querySpendAllocationForSpend, field_query, text.
    rewrite Hs. simpl. rewrite Hsafe. simpl.
    intros Hb.
    destruct (Hscan _ _ eq_refl eq_refl _ _ _ Hb Hps1) as (after & Ha & Hperm).
    exists after. split; [exact Ha|]. by rewrite concat_singletons in Hperm.
  - intros d before Hd Hsd. unfold querySpendAllocationForDonation, field_query, text.
    simpl. rewrite Hsd. simpl.
    intros Hb.
    destruct (Hscan _ _ eq_refl eq_refl _ _ _ Hb (Hps2 d Hd)) as (after & Ha & Hperm).
    exists after. split; [exact Ha|]. by rewrite concat_filtered in Hperm.
Qed.

End AllocationsReadBack.

Section ConcreteLedgers.
Import Example Registry.

Lemma built_plain_all_return (ts : list (transaction Q)) :
  forall st0 st : gmap string (payload Q),
    built_plain st0 st ->
    forallb plain_transaction ts = true ->
    all_return st ts = true ->
    built_plain st0 (foldl (fun st t => commit st (run_transaction st t []).2) st ts).
Proof.
  induction ts as [|t ts IH]; intros st0 st Hst Hplain; simpl; [done|].
  simpl in Hplain. apply andb_prop in Hplain as [Ht Hplain].
  destruct (run_transaction st t []) as [[[]| | |] log] eqn:E; try done.
  intros Hts. apply IH; [|done..]. by apply (plain_step st0 st t log).
Qed.

Lemma built_plain_spent_exact : built_plain ∅ (ledger_after spent_exact).
Proof.
  apply built_plain_all_return; [apply plain_none|reflexivity|vm_compute; reflexivity].
Qed.

Lemma createSpend_succeeds_exact_witness :
  let json := spendRequest "S1" "N1" (VNum (4 # 10)%Q) in
  valid_amount json = Some (4 # 10)%Q
  /\ sound_history ledger_01_03_exact = true
  /\ exists td dm ts sm,
       donations_of ledger_01_03_exact "N1" = Ok (td, dm)
       /\ allocated_of ledger_01_03_exact "N1" = Ok (ts, sm)
       /\ ((4 # 10 <= td - ts)%Q ->
           (length dm < 3)%nat ->
           exists log, createSpend 3 ledger_01_03_exact "tx1" json [] = (Ok tt, log)).
Proof.
  cbv zeta. split; [reflexivity|]. split; [vm_compute; reflexivity|].
  apply (createSpend_succeeds_exact 3 ledger_01_03_exact "tx1"
           (spendRequest "S1" "N1" (VNum (4 # 10)%Q)) (4 # 10)%Q "S1" "N1");
    try (vm_compute; reflexivity).
  discriminate.
Defined.

Lemma built_ledger_spend_never_fatal_witness :
  let st := ledger_after spent_exact in
  let json := spendRequest "3" "6322" (VNum 150%Q) in
  built_plain ∅ st
  /\ sound_history (∅ : gmap string (payload Q)) = true
  /\ plain_spend json = true
  /\ createSpend 3 st "tx2" json [] = (Throw ErrInsufficientFunds, [])
  /\ exists n, forall fuel,
       (n <= fuel)%nat ->
       (exists log, createSpend fuel st "tx2" json [] = (Ok tt, log))
       \/ (exists e, createSpend fuel st "tx2" json [] = (Throw e, []) /\ ~ loop_error e).
Proof.
  cbv zeta. split; [exact built_plain_spent_exact|].
  split; [reflexivity|]. split; [reflexivity|]. split; [vm_compute; reflexivity|].
  apply (built_ledger_spend_never_fatal ∅ (ledger_after spent_exact) "tx2"
           (spendRequest "3" "6322" (VNum 150%Q))
           built_plain_spent_exact eq_refl eq_refl).
Defined.

Lemma ledger_100_fresh_keys i :
  in_range "spendAllocation0" "spendAllocationz" (allocation_key "tx1" i) = true
  /\ is_empty (getState ledger_100 (allocation_key "tx1" i)) = true.
Proof.
  split; [reflexivity|]. unfold getState, ledger_100.
  rewrite (not_elem_of_list_to_map_1 (M:=gmap string)); [done|]. simpl.
  intros Hin. unfold allocation_key in Hin. simpl in Hin.
  repeat (apply elem_of_cons in Hin as [Hin|Hin]; [discriminate|]).
  by apply elem_of_nil in Hin.
Qed.

Lemma spend_allocations_read_back_witness :
  let json := spendRequest "S1" "N1" (VNum 30%float) in
  let log := (createSpend 2 ledger_100 "tx1" json []).2 in
  createSpend 2 ledger_100 "tx1" json [] = (Ok tt, log)
  /\ forallb (fun w => writable_payload w.2) log = true
  /\ json_safe "S1" = true
  /\ querySpendAllocationForSpend ledger_100 json = Ok []
  /\ length log = 3%nat
  /\ exists allocs,
       let doc := ("spend" +:+ "S1",
                   Json (VObj (alist_set json "docType" (VStr "spend")))) in
       log = doc :: allocs ++ [doc]
       /\ (forall before,
             querySpendAllocationForSpend ledger_100 json = Ok before ->
             exists after,
               querySpendAllocationForSpend (commit ledger_100 log) json = Ok after
               /\ after ≡ₚ map to_entry allocs ++ before)
       /\ (forall d before,
             d <> "" ->
             json_safe d = true ->
             querySpendAllocationForDonation ledger_100 [("donationId", VStr d)]
             = Ok before ->
             exists after,
               querySpendAllocationForDonation (commit ledger_100 log)
                                               [("donationId", VStr d)] = Ok after
               /\ after ≡ₚ map to_entry (List.filter (allocated_to d) allocs) ++ before).
Proof.
  cbv zeta. split; [vm_compute; reflexivity|]. split; [vm_compute; reflexivity|].
  split; [reflexivity|].
  split; [vm_compute; reflexivity|]. split; [vm_compute; reflexivity|].
  apply (spend_allocations_read_back 2 ledger_100 "tx1"
           (spendRequest "S1" "N1" (VNum 30%float)) "S1").
  - vm_compute; reflexivity.
  - vm_compute; reflexivity.
  - reflexivity.
  - discriminate.
  - reflexivity.
  - reflexivity.
  - exact ledger_100_fresh_keys.
Defined.

End ConcreteLedgers.
